(** * GSConnect Bluetooth channel service (src/service/protocol/bluetooth.js)

    A shallow embedding of the [ChannelService] class: the device map, the
    per-device muxer slot, the exported profile and the handlers driven by
    the bluez daemon.  Handlers are embedded in a small monad that threads
    the service object, records every call made to a collaborator (D-Bus,
    Multiplex, the device manager, the log) in a trace, and carries
    JavaScript exceptions.  Each handler is run to completion: the points
    where the JavaScript code awaits a collaborator are answered at once by
    the collaborator's recorded response.  [_onInterfacesAdded] is embedded
    a second time, cut at its [await], so that other notifications can be
    handled while it waits for its proxy.  The multiplexer is not part of
    the file: the callback [NewConnection] registers on a muxer's
    cancellable is recorded as a call, and when the multiplexer fires it is
    left open. *)

From Stdlib Require Import String List Bool Arith ZArith Lia.
Import ListNotations.
Local Open Scope string_scope.
Local Open Scope list_scope.

(** ** JavaScript values, as far as the guards of the file need them *)

Module JS.

Inductive value :=
| Undefined
| Null
| Boolean (b : bool)
| Str (s : string)
| Object (addr : nat).

(** ToBoolean of the language: undefined, null, false and the empty
    string are falsy, every object is truthy. *)
Definition ToBoolean (v : value) : bool :=
  match v with
  | Undefined | Null => false
  | Boolean b => b
  | Str s => negb (s =? "")
  | Object _ => true
  end.

(** The prefix operator [!]. *)
Definition not (v : value) : value := Boolean (negb (ToBoolean v)).

(** The operator [===] on the values above. *)
Definition strict_eq (a b : value) : bool :=
  match a, b with
  | Undefined, Undefined => true
  | Null, Null => true
  | Boolean x, Boolean y => Bool.eqb x y
  | Str x, Str y => String.eqb x y
  | Object x, Object y => Nat.eqb x y
  | _, _ => false
  end.

(** A nullable string property such as [g_name_owner]. *)
Definition of_nullable (o : option string) : value :=
  match o with
  | Some s => Str s
  | None => Null
  end.

End JS.

(** ** The JavaScript [Map]: string keys, insertion order kept *)

Module Map.
Section Defs.
Context {V : Type}.

Definition t := list (string * V).

Definition empty : t := [].

Fixpoint get (k : string) (m : t) : option V :=
  match m with
  | [] => None
  | (k', v) :: r => if k' =? k then Some v else get k r
  end.

Definition has (k : string) (m : t) : bool :=
  match get k m with
  | Some _ => true
  | None => false
  end.

(** [set] on a present key replaces the value in place, on a new key it
    appends the entry. *)
Fixpoint set (k : string) (v : V) (m : t) : t :=
  match m with
  | [] => [(k, v)]
  | (k', v') :: r => if k' =? k then (k, v) :: r else (k', v') :: set k v r
  end.

Definition delete (k : string) (m : t) : t :=
  filter (fun kv => negb (fst kv =? k)) m.

Definition keys (m : t) : list string := map fst m.
Definition values (m : t) : list V := map snd m.

End Defs.
Arguments t : clear implicits.
End Map.

(** ** Data *)

Definition SERVICE_UUID : string := "185f3df4-3268-4e3f-9fca-d4d5059915bd".

Definition DEVICE_INTERFACE : string := "org.bluez.Device1".

Definition PROFILE_PATH : string :=
  "/org/gnome/Shell/Extensions/GSConnect/Bluetooth".

(** The three entries of [SERVICE_PROFILE]. *)
Record ProfileOptions := {
  RequireAuthorization : bool;
  RequireAuthentication : bool;
  ServiceRecord : string
}.

(** A device proxy: the cached org.bluez.Device1 properties the file reads,
    the muxer slot set up by [_getDeviceProxy] and the handler id stored by
    [_onInterfacesAdded].  A muxer is named by the number it got when it
    was constructed. *)
Record Device := {
  g_object_path : string;
  Address : string;
  Alias : string;
  Paired : bool;
  Connected : bool;
  ServicesResolved : bool;
  UUIDs : list string;
  _muxer : option nat;
  __deviceChangedId : option nat
}.

Definition with_muxer (d : Device) (m : option nat) : Device :=
  {| g_object_path := g_object_path d; Address := Address d;
     Alias := Alias d; Paired := Paired d; Connected := Connected d;
     ServicesResolved := ServicesResolved d; UUIDs := UUIDs d;
     _muxer := m; __deviceChangedId := __deviceChangedId d |}.

Definition with_deviceChangedId (d : Device) (id : option nat) : Device :=
  {| g_object_path := g_object_path d; Address := Address d;
     Alias := Alias d; Paired := Paired d; Connected := Connected d;
     ServicesResolved := ServicesResolved d; UUIDs := UUIDs d;
     _muxer := _muxer d; __deviceChangedId := id |}.

(** The identity packet of a negotiated channel; [body] is a JavaScript
    object with string fields. *)
Record Identity := { body : Map.t string }.

Inductive Error :=
| TypeError (msg : string)
| GError (msg : string).

(** The unpacked [changed] dictionary of a g-properties-changed signal: a
    key that is absent is [None]. *)
Record Changed := {
  ch_Connected : option bool;
  ch_ServicesResolved : option bool;
  ch_Paired : option bool;
  ch_UUIDs : option (list string)
}.

(** ** Calls to collaborators, in the order they are made *)

Inductive Effect :=
| Debug (msg : string)
| Warning (e : Error) (prefix : option string)
| LogError (e : Error)
| NotifyDevices
| ProxyConnect (object_path : string) (id : nat)
| ProxyDisconnect (object_path : string) (id : option nat)
| ConnectProfile (object_path : string) (uuid : string)
| RegisterProfile (profile : string) (uuid : string) (options : ProfileOptions)
| GetManagedObjects
| SocketNewFromFd (fd : nat)
| MuxerNew (m : nat) (fd : nat)
| CancellableConnect (m : nat) (object_path : string)
| MuxerClose (m : nat)
| Negotiate (m : nat)
| EnsureDevice (identity : Identity)
| Attach (m : nat) (device : string)
| ServiceConnect (id : nat)
| ServiceDisconnect (id : option nat)
| ProfileExport (object_path : string)
| ProfileDestroy
| ProfileManagerNew
| ProfileManagerDestroy.

(** ** The service object

    The first five fields are the fields of the JavaScript object.  The
    remaining ones are the part of the platform the file acts on: whether
    the notify::g-name-owner handler is connected, the muxers that were
    constructed and not closed, and the counters that name new muxers and
    new signal handlers. *)
Record ChannelService := {
  g_name_owner : option string;
  _devices : Map.t Device;
  _profileManager : option unit;
  _profile : option string;
  _nameOwnerChangedId : option nat;
  name_owner_handler : option nat;
  open_muxers : list nat;
  next_muxer : nat;
  next_handler : nat
}.

Definition set_devices (f : Map.t Device -> Map.t Device) (s : ChannelService)
  : ChannelService :=
  {| g_name_owner := g_name_owner s; _devices := f (_devices s);
     _profileManager := _profileManager s; _profile := _profile s;
     _nameOwnerChangedId := _nameOwnerChangedId s;
     name_owner_handler := name_owner_handler s;
     open_muxers := open_muxers s; next_muxer := next_muxer s;
     next_handler := next_handler s |}.

Definition set_name_owner (o : option string) (s : ChannelService)
  : ChannelService :=
  {| g_name_owner := o; _devices := _devices s;
     _profileManager := _profileManager s; _profile := _profile s;
     _nameOwnerChangedId := _nameOwnerChangedId s;
     name_owner_handler := name_owner_handler s;
     open_muxers := open_muxers s; next_muxer := next_muxer s;
     next_handler := next_handler s |}.

Definition set_profileManager (p : option unit) (s : ChannelService)
  : ChannelService :=
  {| g_name_owner := g_name_owner s; _devices := _devices s;
     _profileManager := p; _profile := _profile s;
     _nameOwnerChangedId := _nameOwnerChangedId s;
     name_owner_handler := name_owner_handler s;
     open_muxers := open_muxers s; next_muxer := next_muxer s;
     next_handler := next_handler s |}.

Definition set_profile (p : option string) (s : ChannelService)
  : ChannelService :=
  {| g_name_owner := g_name_owner s; _devices := _devices s;
     _profileManager := _profileManager s; _profile := p;
     _nameOwnerChangedId := _nameOwnerChangedId s;
     name_owner_handler := name_owner_handler s;
     open_muxers := open_muxers s; next_muxer := next_muxer s;
     next_handler := next_handler s |}.

Definition set_nameOwnerChangedId (id handler : option nat)
  (s : ChannelService) : ChannelService :=
  {| g_name_owner := g_name_owner s; _devices := _devices s;
     _profileManager := _profileManager s; _profile := _profile s;
     _nameOwnerChangedId := id;
     name_owner_handler := handler;
     open_muxers := open_muxers s; next_muxer := next_muxer s;
     next_handler := next_handler s |}.

Definition set_muxers (open : list nat) (next : nat) (s : ChannelService)
  : ChannelService :=
  {| g_name_owner := g_name_owner s; _devices := _devices s;
     _profileManager := _profileManager s; _profile := _profile s;
     _nameOwnerChangedId := _nameOwnerChangedId s;
     name_owner_handler := name_owner_handler s;
     open_muxers := open; next_muxer := next;
     next_handler := next_handler s |}.

Definition set_next_handler (next : nat) (s : ChannelService)
  : ChannelService :=
  {| g_name_owner := g_name_owner s; _devices := _devices s;
     _profileManager := _profileManager s; _profile := _profile s;
     _nameOwnerChangedId := _nameOwnerChangedId s;
     name_owner_handler := name_owner_handler s;
     open_muxers := open_muxers s; next_muxer := next_muxer s;
     next_handler := next |}.

(** The object built by the constructor before [_init_async] runs. *)
Definition constructed : ChannelService :=
  {| g_name_owner := None; _devices := Map.empty;
     _profileManager := None; _profile := None;
     _nameOwnerChangedId := None; name_owner_handler := None;
     open_muxers := []; next_muxer := 0; next_handler := 1 |}.

(** ** The handler monad: state, trace, exceptions

    A thrown exception keeps the state and the trace reached so far, as a
    JavaScript exception does. *)

Inductive Completion (A : Type) :=
| Normal (a : A)
| Throw (e : Error).
Arguments Normal {A} a.
Arguments Throw {A} e.

Definition M (A : Type) : Type :=
  ChannelService -> ChannelService * list Effect * Completion A.

Definition ret {A} (a : A) : M A := fun s => (s, [], Normal a).

Definition throw {A} (e : Error) : M A := fun s => (s, [], Throw e).

Definition bind {A B} (m : M A) (k : A -> M B) : M B :=
  fun s =>
    match m s with
    | (s1, t1, Normal a) =>
        match k a s1 with
        | (s2, t2, r) => (s2, t1 ++ t2, r)
        end
    | (s1, t1, Throw e) => (s1, t1, Throw e)
    end.

(** [try { m } catch (e) { h e }] *)
Definition try_catch {A} (m : M A) (h : Error -> M A) : M A :=
  fun s =>
    match m s with
    | (s1, t1, Normal a) => (s1, t1, Normal a)
    | (s1, t1, Throw e) =>
        match h e s1 with
        | (s2, t2, r) => (s2, t1 ++ t2, r)
        end
    end.

Definition gets {A} (f : ChannelService -> A) : M A :=
  fun s => (s, [], Normal (f s)).

Definition modify (f : ChannelService -> ChannelService) : M unit :=
  fun s => (f s, [], Normal tt).

Definition emit (e : Effect) : M unit := fun s => (s, [e], Normal tt).

Declare Scope js_scope.
Delimit Scope js_scope with js.
Notation "x <- m ;; k" := (bind m (fun x => k))
  (at level 61, m at next level, right associativity) : js_scope.
Notation "m ;; k" := (bind m (fun _ => k))
  (at level 61, right associativity) : js_scope.
Local Open Scope js_scope.

(** [for (let x of l) { body x }]; [continue] is the body returning. *)
Fixpoint for_of {A} (l : list A) (body : A -> M unit) : M unit :=
  match l with
  | [] => ret tt
  | x :: r => body x ;; for_of r body
  end.

Definition state_of {A} (r : ChannelService * list Effect * Completion A)
  : ChannelService := fst (fst r).
Definition trace_of {A} (r : ChannelService * list Effect * Completion A)
  : list Effect := snd (fst r).
Definition completion_of {A} (r : ChannelService * list Effect * Completion A)
  : Completion A := snd r.

(** ** Responses of the collaborators

    What the bluez daemon, the socket layer, the multiplexer and the device
    manager answer when a handler calls them.  [None] in an [option Error]
    is a call that resolves. *)

Record DeviceInfo := {
  info_Address : string;
  info_Alias : string;
  info_Paired : bool;
  info_Connected : bool;
  info_ServicesResolved : bool;
  info_UUIDs : list string
}.

Record Responses := {
  (* this.init_promise() and this._profileManager.init_promise() *)
  service_init : option Error;
  profile_manager_init : option Error;
  (* proxy.init_promise() of a new org.bluez.Device1 proxy *)
  device_proxy : string -> option DeviceInfo;
  (* ProfileManager1.RegisterProfile *)
  register_profile : option Error;
  (* ObjectManager.GetManagedObjects: paths with their interface names *)
  managed_objects : Completion (list (string * list string));
  (* Device1.ConnectProfile *)
  connect_profile : string -> option Error;
  (* Gio.Socket.new_from_fd *)
  socket_new_from_fd : nat -> option Error;
  (* channel.negotiate(connection): the identity the channel ends up with *)
  negotiate : Completion Identity;
  (* service._ensureDevice(identity) *)
  _ensureDevice : Identity -> Completion string
}.

(** An awaited call that resolves to nothing or rejects. *)
Definition await (r : option Error) : M unit :=
  match r with
  | None => ret tt
  | Some e => throw e
  end.

(** An awaited call that resolves to a value or rejects. *)
Definition await_value {A} (r : Completion A) : M A :=
  match r with
  | Normal a => ret a
  | Throw e => throw e
  end.

(** ** The class *)

Section Service.

(** The SDP record read from the resource bundle when the module loads. *)
Variable SERVICE_RECORD : string.

Definition SERVICE_PROFILE : ProfileOptions :=
  {| RequireAuthorization := false;
     RequireAuthentication := true;
     ServiceRecord := SERVICE_RECORD |}.

(** [get devices()] *)
Definition devices (s : ChannelService) : list Device :=
  filter (fun bludev => existsb (String.eqb SERVICE_UUID) (UUIDs bludev))
         (Map.values (_devices s)).

(** [this._devices.get(object_path)] as a reference to the stored proxy:
    the key when the proxy is there, [None] for [undefined]. *)
Definition devices_get (object_path : string) : M (option string) :=
  gets (fun s => if Map.has object_path (_devices s)
                 then Some object_path else None).

(** Reading through such a reference; on [undefined] any property access
    throws a TypeError. *)
Definition deref (bludev : option string) : M Device :=
  match bludev with
  | None => throw (TypeError "bludev is undefined")
  | Some k =>
      d <- gets (fun s => Map.get k (_devices s)) ;;
      match d with
      | Some d => ret d
      | None => throw (TypeError "bludev is undefined")
      end
  end.

(** [bludev._muxer = m] *)
Definition write_muxer (bludev : option string) (m : option nat) : M unit :=
  d <- deref bludev ;;
  match bludev with
  | Some k => modify (set_devices (Map.set k (with_muxer d m)))
  | None => ret tt
  end.

(** [muxer.close()] of the multiplexer. *)
Definition muxer_close (m : nat) : M unit :=
  emit (MuxerClose m) ;;
  modify (fun s => set_muxers (remove Nat.eq_dec m (open_muxers s))
                              (next_muxer s) s).

(** [new Multiplex.Connection(connection)] *)
Definition Multiplex_Connection (fd : nat) : M nat :=
  m <- gets next_muxer ;;
  modify (fun s => set_muxers (m :: open_muxers s) (S m) s) ;;
  emit (MuxerNew m fd) ;;
  ret m.

(** [proxy.close], installed on every proxy by [_getDeviceProxy]. *)
Definition proxy_close (bludev : option string) : M unit :=
  d <- deref bludev ;;
  match _muxer d with
  | Some m =>
      emit (Debug ("GSConnect: Disconnecting " ++ Alias d)) ;;
      muxer_close m ;;
      write_muxer bludev None
  | None => ret tt
  end.

(** [_getDeviceProxy(object_path)]: the new proxy, or [None] for the
    [undefined] returned after a logged failure. *)
Definition _getDeviceProxy (env : Responses) (object_path : string)
  : M (option Device) :=
  match device_proxy env object_path with
  | Some i =>
      ret (Some {| g_object_path := object_path;
                   Address := info_Address i; Alias := info_Alias i;
                   Paired := info_Paired i; Connected := info_Connected i;
                   ServicesResolved := info_ServicesResolved i;
                   UUIDs := info_UUIDs i;
                   _muxer := None; __deviceChangedId := None |})
  | None =>
      emit (Warning (GError "proxy") None) ;;
      ret None
  end.

(** [_onInterfacesAdded(object_path, interfaces)]; [interfaces] lists the
    keys the for-in loop runs over. *)
Definition _onInterfacesAdded (env : Responses) (object_path : string)
  (interfaces : list string) : M unit :=
  try_catch
    (for_of interfaces (fun interface_name =>
       if negb (interface_name =? DEVICE_INTERFACE) then ret tt
       else
         tracked <- gets (fun s => Map.has object_path (_devices s)) ;;
         if (tracked : bool) then ret tt
         else
           proxy <- _getDeviceProxy env object_path ;;
           match proxy with
           | None => ret tt
           | Some proxy =>
               id <- gets next_handler ;;
               modify (set_next_handler (S id)) ;;
               emit (ProxyConnect (g_object_path proxy) id) ;;
               modify (set_devices
                         (Map.set (g_object_path proxy)
                                  (with_deviceChangedId proxy (Some id)))) ;;
               emit NotifyDevices
           end))
    (fun e => emit (LogError e)).

(** [RequestDisconnection(object_path)] *)
Definition RequestDisconnection (object_path : string) : M unit :=
  emit (Debug object_path) ;;
  try_catch
    (bludev <- devices_get object_path ;;
     match bludev with
     | Some _ => proxy_close bludev
     | None => ret tt
     end)
    (fun e => emit (Debug "error")).

(** [_onInterfacesRemoved(object_path, interfaces)] *)
Definition _onInterfacesRemoved (object_path : string)
  (interfaces : list string) : M unit :=
  try_catch
    (if (length interfaces =? 0)%nat then ret tt
     else
       for_of interfaces (fun interface_name =>
         if negb (interface_name =? DEVICE_INTERFACE) then ret tt
         else
           proxy <- gets (fun s => Map.get object_path (_devices s)) ;;
           match proxy with
           | None => ret tt
           | Some proxy =>
               emit (ProxyDisconnect object_path (__deviceChangedId proxy)) ;;
               RequestDisconnection object_path ;;
               modify (set_devices (Map.delete object_path)) ;;
               emit NotifyDevices
           end))
    (fun e => emit (LogError e)).

(** [_connectDevice(bludev)] *)
Definition _connectDevice (env : Responses) (bludev : Device) : M unit :=
  try_catch
    (match _muxer bludev with
     | Some _ => emit (Debug "already connected")
     | None =>
         if Paired bludev then
           emit (Debug "requesting bluetooth connection") ;;
           emit (ConnectProfile (g_object_path bludev) SERVICE_UUID) ;;
           await (connect_profile env (g_object_path bludev))
         else ret tt
     end)
    (fun _ => ret tt).

(** [_onDeviceChanged(proxy, changed, invalidated)] *)
Definition _onDeviceChanged (env : Responses) (proxy : Device)
  (changed : Changed) : M unit :=
  match ch_Connected changed with
  | Some Connected =>
      if Connected then _connectDevice env proxy
      else RequestDisconnection (g_object_path proxy)
  | None =>
      match ch_ServicesResolved changed with
      | Some true => _connectDevice env proxy
      | _ => ret tt
      end
  end.

(** [_getManagedObjects()] *)
Definition _getManagedObjects (env : Responses)
  : M (list (string * list string)) :=
  emit GetManagedObjects ;;
  await_value (managed_objects env).

(** [_onNameOwnerChanged()].  The loop of the first branch runs over the
    proxies the map holds when the loop starts; each of them is deleted
    under its own [g_object_path]. *)
Definition _onNameOwnerChanged (env : Responses) : M unit :=
  try_catch
    (owner <- gets g_name_owner ;;
     if JS.strict_eq (JS.of_nullable owner) JS.Null then
       values <- gets (fun s => Map.values (_devices s)) ;;
       for_of values (fun bludev =>
         emit (ProxyDisconnect (g_object_path bludev)
                               (__deviceChangedId bludev)) ;;
         modify (set_devices (Map.delete (g_object_path bludev)))) ;;
       _ <- _getManagedObjects env ;;
       ret tt
     else
       manager <- gets _profileManager ;;
       profile <- gets _profile ;;
       match manager, profile with
       | Some _, Some profile_path =>
           emit (RegisterProfile profile_path SERVICE_UUID SERVICE_PROFILE) ;;
           await (register_profile env) ;;
           objects <- _getManagedObjects env ;;
           for_of objects (fun entry =>
             _onInterfacesAdded env (fst entry) (snd entry))
       | _, _ => throw (TypeError "this._profileManager is undefined")
       end)
    (fun e => emit (LogError e)).

(** [Release()] *)
Definition Release : M unit := emit (Debug "Release").

(** [NewConnection(object_path, fd, fd_properties)].  The right-hand side
    of [bludev._muxer = new Multiplex.Connection(connection)] is evaluated
    before the property is written. *)
Definition NewConnection (env : Responses) (object_path : string) (fd : nat)
  : M unit :=
  emit (Debug object_path) ;;
  bludev <- devices_get object_path ;;
  try_catch
    (emit (SocketNewFromFd fd) ;;
     await (socket_new_from_fd env fd) ;;
     m <- Multiplex_Connection fd ;;
     write_muxer bludev (Some m) ;;
     emit (CancellableConnect m object_path) ;;
     emit (Negotiate m) ;;
     identity <- await_value (negotiate env) ;;
     d <- deref bludev ;;
     let identity :=
       {| body := Map.set "bluetoothPath" (g_object_path d)
                    (Map.set "bluetoothHost" (Address d) (body identity)) |} in
     emit (EnsureDevice identity) ;;
     device <- await_value (_ensureDevice env identity) ;;
     emit (Attach m device))
    (fun e =>
       proxy_close bludev ;;
       d <- deref bludev ;;
       emit (Warning e (Some (Alias d)))).

(** [broadcast(object_path)] *)
Definition broadcast (env : Responses) (object_path : string) : M unit :=
  try_catch
    (bludev <- gets (fun s => Map.get object_path (_devices s)) ;;
     match bludev with
     | Some bludev => _connectDevice env bludev
     | None => ret tt
     end)
    (fun e => emit (Debug object_path)).

(** [this.disconnect(id)] on the service object. *)
Definition service_disconnect (id : option nat) : M unit :=
  emit (ServiceDisconnect id) ;;
  modify (fun s =>
    match id, name_owner_handler s with
    | Some i, Some h =>
        if (i =? h)%nat
        then set_nameOwnerChangedId (_nameOwnerChangedId s) None s
        else s
    | _, _ => s
    end).

(** [destroy()] *)
Definition destroy : M unit :=
  id <- gets _nameOwnerChangedId ;;
  service_disconnect id ;;
  keys <- gets (fun s => Map.keys (_devices s)) ;;
  for_of keys (fun k => proxy_close (Some k)) ;;
  profile <- gets _profile ;;
  match profile with
  | Some _ => emit ProfileDestroy
  | None => ret tt
  end ;;
  manager <- gets _profileManager ;;
  match manager with
  | Some _ =>
      emit ProfileManagerDestroy ;;
      modify (set_profileManager None)
  | None => ret tt
  end.

(** [_init_async()] *)
Definition _init_async (env : Responses) : M unit :=
  try_catch
    (await (service_init env) ;;
     emit ProfileManagerNew ;;
     modify (set_profileManager (Some tt)) ;;
     await (profile_manager_init env) ;;
     emit (ProfileExport PROFILE_PATH) ;;
     modify (set_profile (Some PROFILE_PATH)) ;;
     id <- gets next_handler ;;
     emit (ServiceConnect id) ;;
     modify (fun s => set_next_handler (S id)
                        (set_nameOwnerChangedId (Some id) (Some id) s)) ;;
     _onNameOwnerChanged env)
    (fun e =>
       emit (Warning e (Some "GSConnect: Bluetooth Error")) ;;
       destroy).

(** [vfunc_g_signal(sender_name, signal_name, parameters)]; [parameters]
    is the unpacked pair of an object path and interface names. *)
Definition vfunc_g_signal (env : Responses) (signal_name : string)
  (parameters : string * list string) : M unit :=
  try_catch
    (owner <- gets g_name_owner ;;
     if JS.strict_eq (JS.not (JS.of_nullable owner)) JS.Null then ret tt
     else
       if signal_name =? "InterfacesAdded" then
         _onInterfacesAdded env (fst parameters) (snd parameters)
       else if signal_name =? "InterfacesRemoved" then
         _onInterfacesRemoved (fst parameters) (snd parameters)
       else ret tt)
    (fun e => emit (LogError e)).

(** ** Events delivered to the service *)

(** The proxy cache is updated by Gio before the g-properties-changed
    handler runs. *)
Definition apply_changed (c : Changed) (d : Device) : Device :=
  {| g_object_path := g_object_path d; Address := Address d;
     Alias := Alias d;
     Paired := match ch_Paired c with Some b => b | None => Paired d end;
     Connected :=
       match ch_Connected c with Some b => b | None => Connected d end;
     ServicesResolved :=
       match ch_ServicesResolved c with
       | Some b => b
       | None => ServicesResolved d
       end;
     UUIDs := match ch_UUIDs c with Some u => u | None => UUIDs d end;
     _muxer := _muxer d; __deviceChangedId := __deviceChangedId d |}.

Inductive Event :=
| g_signal (signal_name : string) (parameters : string * list string)
| notify_g_name_owner (owner : option string)
| g_properties_changed (object_path : string) (changed : Changed)
| call_Release
| call_NewConnection (object_path : string) (fd : nat)
| call_RequestDisconnection (object_path : string)
| call_broadcast (object_path : string)
| call_destroy.

Definition dispatch (env : Responses) (ev : Event) : M unit :=
  match ev with
  | g_signal signal_name parameters =>
      vfunc_g_signal env signal_name parameters
  | notify_g_name_owner owner =>
      modify (set_name_owner owner) ;;
      handler <- gets name_owner_handler ;;
      match handler with
      | Some _ => _onNameOwnerChanged env
      | None => ret tt
      end
  | g_properties_changed object_path changed =>
      proxy <- gets (fun s => Map.get object_path (_devices s)) ;;
      match proxy with
      | Some proxy =>
          let proxy := apply_changed changed proxy in
          modify (set_devices (Map.set object_path proxy)) ;;
          _onDeviceChanged env proxy changed
      | None => ret tt
      end
  | call_Release => Release
  | call_NewConnection object_path fd => NewConnection env object_path fd
  | call_RequestDisconnection object_path => RequestDisconnection object_path
  | call_broadcast object_path => broadcast env object_path
  | call_destroy => destroy
  end.

(** The states the service can be in: the result of construction, then any
    number of events. *)
Inductive reachable : ChannelService -> Prop :=
| reachable_init env (g_name : option string) :
    reachable (state_of (_init_async env (set_name_owner g_name constructed)))
| reachable_step s env ev :
    reachable s -> reachable (state_of (dispatch env ev s)).

(** ** Handlers that overlap

    [_onInterfacesAdded] is an async function: it tests
    [this._devices.has(object_path)] (line 258) and then suspends at
    [await this._getDeviceProxy(object_path)] (line 261).  Other
    notifications are handled while it waits.  Here the handler is cut at
    that [await]: [added_start] is the handler from its call to the first
    [await], [added_resume] the handler from the answer of
    [_getDeviceProxy] to the next [await].  Both return the interfaces the
    loop has still to visit when the handler suspends, and [None] when it
    returns. *)

(** The loop from its current position to the next [await] (lines 253 to
    261). *)
Fixpoint added_until_await (object_path : string) (interfaces : list string)
  : M (option (list string)) :=
  match interfaces with
  | [] => ret None
  | interface_name :: rest =>
      if negb (interface_name =? DEVICE_INTERFACE)
      then added_until_await object_path rest
      else
        tracked <- gets (fun s => Map.has object_path (_devices s)) ;;
        if (tracked : bool) then added_until_await object_path rest
        else ret (Some rest)
  end.

(** The body of the loop once the proxy is there (lines 262 to 272). *)
Definition added_store (proxy : option Device) : M unit :=
  match proxy with
  | None => ret tt
  | Some proxy =>
      id <- gets next_handler ;;
      modify (set_next_handler (S id)) ;;
      emit (ProxyConnect (g_object_path proxy) id) ;;
      modify (set_devices
                (Map.set (g_object_path proxy)
                         (with_deviceChangedId proxy (Some id)))) ;;
      emit NotifyDevices
  end.

Definition added_start (object_path : string) (interfaces : list string)
  : M (option (list string)) :=
  try_catch
    (added_until_await object_path interfaces)
    (fun e => emit (LogError e) ;; ret None).

Definition added_resume (env : Responses) (object_path : string)
  (rest : list string) : M (option (list string)) :=
  try_catch
    (proxy <- _getDeviceProxy env object_path ;;
     added_store proxy ;;
     added_until_await object_path rest)
    (fun e => emit (LogError e) ;; ret None).

(** A call of [_onInterfacesAdded] that waits for its proxy. *)
Record Suspended := {
  sus_path : string;
  sus_rest : list string
}.

Definition suspend (object_path : string)
  (r : Completion (option (list string))) : list Suspended :=
  match r with
  | Normal (Some rest) => [{| sus_path := object_path; sus_rest := rest |}]
  | _ => []
  end.

(** What the event loop does next: it enters [_onInterfacesAdded] for an
    InterfacesAdded signal, it resumes the n-th waiting call of
    [_onInterfacesAdded], or it delivers any event to a handler that is run
    to completion. *)
Inductive Step :=
| begin_add (object_path : string) (interfaces : list string)
| resume_add (n : nat)
| deliver (ev : Event).

Definition overlap_step (env : Responses) (st : Step)
  (c : ChannelService * list Suspended)
  : ChannelService * list Suspended * list Effect :=
  match st with
  | begin_add object_path interfaces =>
      let '(s1, t, r) := added_start object_path interfaces (fst c) in
      (s1, snd c ++ suspend object_path r, t)
  | resume_add n =>
      match nth_error (snd c) n with
      | Some h =>
          let '(s1, t, r) :=
            added_resume env (sus_path h) (sus_rest h) (fst c) in
          (s1,
           firstn n (snd c) ++ suspend (sus_path h) r ++ skipn (S n) (snd c),
           t)
      | None => (fst c, snd c, [])
      end
  | deliver ev =>
      let '(s1, t, _) := dispatch env ev (fst c) in
      (s1, snd c, t)
  end.

(** A schedule: the steps of the event loop with the collaborators'
    responses during each. *)
Fixpoint overlap_run (steps : list (Responses * Step))
  (c : ChannelService * list Suspended)
  : ChannelService * list Suspended * list Effect :=
  match steps with
  | [] => (fst c, snd c, [])
  | (env, st) :: r =>
      let '(s1, p1, t1) := overlap_step env st c in
      let '(s2, p2, t2) := overlap_run r (s1, p1) in
      (s2, p2, t1 ++ t2)
  end.

(** The notifications the mirror observes, and the events they are
    delivered as. *)
Inductive Observed :=
| object_added (id : string) (interfaces : list string)
| object_removed (id : string) (interfaces : list string)
| property_changed (id : string) (changed : Changed).

Definition notification (o : Observed) : Event :=
  match o with
  | object_added id interfaces => g_signal "InterfacesAdded" (id, interfaces)
  | object_removed id interfaces =>
      g_signal "InterfacesRemoved" (id, interfaces)
  | property_changed id changed => g_properties_changed id changed
  end.

(** Notifications handled one after the other, none of them while a call
    of [_onInterfacesAdded] waits. *)
Definition in_turn (env : Responses) (evs : list Observed)
  : list (Responses * Step) :=
  map (fun o => (env, deliver (notification o))) evs.

(** ** Sample data for concrete runs *)

Definition phone_info : DeviceInfo :=
  {| info_Address := "AA:BB:CC:DD:EE:FF"; info_Alias := "phone";
     info_Paired := true; info_Connected := false;
     info_ServicesResolved := false; info_UUIDs := [SERVICE_UUID] |}.

Definition phone : Device :=
  {| g_object_path := "/org/bluez/hci0/dev_AA"; Address := "AA:BB:CC:DD:EE:FF";
     Alias := "phone"; Paired := true; Connected := false;
     ServicesResolved := false; UUIDs := [SERVICE_UUID];
     _muxer := None; __deviceChangedId := Some 2 |}.

(** Every collaborator succeeds; the daemon manages one device. *)
Definition quiet : Responses :=
  {| service_init := None; profile_manager_init := None;
     device_proxy := fun _ => Some phone_info;
     register_profile := None;
     managed_objects :=
       Normal [("/org/bluez/hci0/dev_AA", [DEVICE_INTERFACE])];
     connect_profile := fun _ => None;
     socket_new_from_fd := fun _ => None;
     negotiate := Normal {| body := [("deviceId", "abc")] |};
     _ensureDevice := fun _ => Normal "abc" |}.

(** As [quiet], but RegisterProfile is rejected by the daemon. *)
Definition refusing : Responses :=
  {| service_init := None; profile_manager_init := None;
     device_proxy := fun _ => Some phone_info;
     register_profile := Some (GError "org.bluez.Error.AlreadyExists");
     managed_objects :=
       Normal [("/org/bluez/hci0/dev_AA", [DEVICE_INTERFACE])];
     connect_profile := fun _ => None;
     socket_new_from_fd := fun _ => None;
     negotiate := Normal {| body := [("deviceId", "abc")] |};
     _ensureDevice := fun _ => Normal "abc" |}.

(** As [quiet], but the handshake is rejected. *)
Definition rejecting : Responses :=
  {| service_init := None; profile_manager_init := None;
     device_proxy := fun _ => Some phone_info;
     register_profile := None;
     managed_objects :=
       Normal [("/org/bluez/hci0/dev_AA", [DEVICE_INTERFACE])];
     connect_profile := fun _ => None;
     socket_new_from_fd := fun _ => None;
     negotiate := Throw (GError "unexpected packet");
     _ensureDevice := fun _ => Normal "abc" |}.

(** As [quiet], but no socket can be made and no proxy initialised. *)
Definition unreachable : Responses :=
  {| service_init := None; profile_manager_init := None;
     device_proxy := fun _ => None;
     register_profile := None;
     managed_objects :=
       Normal [("/org/bluez/hci0/dev_AA", [DEVICE_INTERFACE])];
     connect_profile := fun _ => None;
     socket_new_from_fd := fun _ => Some (GError "bad file descriptor");
     negotiate := Normal {| body := [("deviceId", "abc")] |};
     _ensureDevice := fun _ => Normal "abc" |}.

(** The system bus cannot be reached. *)
Definition busless : Responses :=
  {| service_init := Some (GError "no system bus");
     profile_manager_init := None;
     device_proxy := fun _ => None;
     register_profile := None;
     managed_objects := Throw (GError "no system bus");
     connect_profile := fun _ => None;
     socket_new_from_fd := fun _ => None;
     negotiate := Normal {| body := [("deviceId", "abc")] |};
     _ensureDevice := fun _ => Normal "abc" |}.

(** The bus is there, the profile manager is not. *)
Definition managerless : Responses :=
  {| service_init := None;
     profile_manager_init := Some (GError "org.bluez is not running");
     device_proxy := fun _ => None;
     register_profile := None;
     managed_objects := Throw (GError "org.bluez is not running");
     connect_profile := fun _ => None;
     socket_new_from_fd := fun _ => None;
     negotiate := Normal {| body := [("deviceId", "abc")] |};
     _ensureDevice := fun _ => Normal "abc" |}.


(** An SDP record for concrete runs. *)
Definition sdp_xml : string := "<record><attribute id='0x0001'/></record>".

Definition dev_AA : string := "/org/bluez/hci0/dev_AA".

(** The service after [_init_async], no device tracked. *)
Definition idle : ChannelService :=
  {| g_name_owner := Some ":1.7"; _devices := Map.empty;
     _profileManager := Some tt; _profile := Some PROFILE_PATH;
     _nameOwnerChangedId := Some 1; name_owner_handler := Some 1;
     open_muxers := []; next_muxer := 0; next_handler := 2 |}.

(** The service tracking [phone], without and with a channel. *)
Definition tracking : ChannelService :=
  set_next_handler 3
    (set_devices (Map.set "/org/bluez/hci0/dev_AA" phone) idle).

Definition attached : ChannelService :=
  set_muxers [0] 1
    (set_devices (Map.set "/org/bluez/hci0/dev_AA" (with_muxer phone (Some 0)))
                 tracking).

Definition is_ConnectProfile (e : Effect) : bool :=
  match e with ConnectProfile _ _ => true | _ => false end.
Definition is_RegisterProfile (e : Effect) : bool :=
  match e with RegisterProfile _ _ _ => true | _ => false end.
Definition is_MuxerClose (e : Effect) : bool :=
  match e with MuxerClose _ => true | _ => false end.
Definition is_EnsureDevice (e : Effect) : bool :=
  match e with EnsureDevice _ => true | _ => false end.
Definition is_Attach (e : Effect) : bool :=
  match e with Attach _ _ => true | _ => false end.
Definition is_log (e : Effect) : bool :=
  match e with Warning _ _ | LogError _ => true | _ => false end.
Definition is_ProfileDestroy (e : Effect) : bool :=
  match e with ProfileDestroy => true | _ => false end.
Definition is_GetManagedObjects (e : Effect) : bool :=
  match e with GetManagedObjects => true | _ => false end.

(** How often a kind of call occurs in a trace. *)
Definition count (p : Effect -> bool) (t : list Effect) : nat :=
  length (filter p t).

(** ** Well-formed states

    The keys of the map are distinct and each proxy is stored under its own
    object path; muxer names are distinct and below the counter; a muxer a
    proxy holds is open and held by that proxy only. *)
Record wf (s : ChannelService) : Prop := {
  wf_keys : NoDup (Map.keys (_devices s));
  wf_path : forall k d, In (k, d) (_devices s) -> g_object_path d = k;
  wf_open : NoDup (open_muxers s);
  wf_fresh : forall m, In m (open_muxers s) -> m < next_muxer s;
  wf_held : forall k d m,
      In (k, d) (_devices s) -> _muxer d = Some m -> In m (open_muxers s);
  wf_excl : forall k d k' d' m,
      In (k, d) (_devices s) -> In (k', d') (_devices s) ->
      _muxer d = Some m -> _muxer d' = Some m -> k = k'
}.

(** ** Notions used by the statements *)

(** A handler keeps a state invariant. *)
Definition preserves {A} (I : ChannelService -> Prop) (m : M A) : Prop :=
  forall s, I s -> I (state_of (m s)).

(** Every call a handler makes satisfies a predicate. *)
Definition emits {A} (phi : Effect -> Prop) (m : M A) : Prop :=
  forall s, Forall phi (trace_of (m s)).

(** A change set, by its four keys. *)
Definition changes (connected resolved : option bool) (paired : option bool)
  (uuids : option (list string)) : Changed :=
  {| ch_Connected := connected; ch_ServicesResolved := resolved;
     ch_Paired := paired; ch_UUIDs := uuids |}.

(** The identity handed to the device manager by [NewConnection]. *)
Definition annotated (d : Device) (identity : Identity) : Identity :=
  {| body := Map.set "bluetoothPath" (g_object_path d)
               (Map.set "bluetoothHost" (Address d) (body identity)) |}.

(** The statements of [_onInterfacesAdded] from the [await] to the end of
    the loop body, and the loop body. *)
Definition fetch_and_store (env : Responses) (object_path : string)
  : M unit :=
  proxy <- _getDeviceProxy env object_path ;;
  added_store proxy.

Definition added_body (env : Responses) (object_path interface_name : string)
  : M unit :=
  if negb (interface_name =? DEVICE_INTERFACE) then ret tt
  else
    tracked <- gets (fun s => Map.has object_path (_devices s)) ;;
    if (tracked : bool) then ret tt
    else fetch_and_store env object_path.

(** The muxers built for the proxy of an object path, oldest first: each
    muxer [NewConnection] builds has its cancellable connected to the
    [close] of the proxy it was built for. *)
Fixpoint channels_of (object_path : string) (t : list Effect) : list nat :=
  match t with
  | [] => []
  | CancellableConnect m p :: r =>
      if p =? object_path then m :: channels_of object_path r
      else channels_of object_path r
  | _ :: r => channels_of object_path r
  end.

Definition is_Attach_of (m : nat) (e : Effect) : bool :=
  match e with Attach m' _ => (m' =? m)%nat | _ => false end.

(** The active channels of a device after the calls [t] led to the state
    [s]: the muxers built for it whose channel was attached and that are
    still open. *)
Definition live_channels (object_path : string) (t : list Effect)
  (s : ChannelService) : list nat :=
  filter (fun m => existsb (Nat.eqb m) (open_muxers s)
                   && existsb (is_Attach_of m) t)
         (channels_of object_path t).

(** The mirror as the specification words it: an add of an object that
    exposes the device interface, is not tracked and can be materialised
    tracks it; a removal whose interface list is not empty and includes the
    device interface stops tracking it; a property change leaves the
    tracked ids alone. *)
Definition tracked_step (materialises : string -> bool) (o : Observed)
  (ids : list string) : list string :=
  match o with
  | object_added id interfaces =>
      if existsb (String.eqb DEVICE_INTERFACE) interfaces
         && negb (existsb (String.eqb id) ids)
         && materialises id
      then ids ++ [id] else ids
  | object_removed id interfaces =>
      if negb (length interfaces =? 0)%nat
         && existsb (String.eqb DEVICE_INTERFACE) interfaces
      then filter (fun k => negb (k =? id)) ids else ids
  | property_changed _ _ => ids
  end.

Definition tracked_after (materialises : string -> bool)
  (evs : list Observed) (ids : list string) : list string :=
  fold_left (fun ids o => tracked_step materialises o ids) evs ids.

(** Whether the proxy of an object path can be initialised. *)
Definition materialises (env : Responses) (object_path : string) : bool :=
  match device_proxy env object_path with
  | Some _ => true
  | None => false
  end.

(** The calls a handler may make apart from RegisterProfile. *)
Definition unregistering (e : Effect) : Prop := is_RegisterProfile e = false.

(** What a registration request has to carry, given the service it is
    issued by. *)
Definition registration_ok (s : ChannelService) (e : Effect) : Prop :=
  match e with
  | RegisterProfile profile uuid options =>
      _profile s = Some profile /\
      uuid = "185f3df4-3268-4e3f-9fca-d4d5059915bd" /\
      options = {| RequireAuthorization := false;
                   RequireAuthentication := true;
                   ServiceRecord := SERVICE_RECORD |}
  | _ => True
  end.

(** The calls other than closing a muxer. *)
Definition unclosing (e : Effect) : Prop := is_MuxerClose e = false.

(** A property of the state that no update of the device map, of the
    handler counter or of the name owner can change. *)
Definition stable (I : ChannelService -> Prop) : Prop :=
  (forall f s, I s -> I (set_devices f s)) /\
  (forall n s, I s -> I (set_next_handler n s)) /\
  (forall o s, I s -> I (set_name_owner o s)).

(** The body of the loop [_onNameOwnerChanged] runs when the name owner is
    null. *)
Definition unbind_body (bludev : Device) : M unit :=
  emit (ProxyDisconnect (g_object_path bludev) (__deviceChangedId bludev)) ;;
  modify (set_devices (Map.delete (g_object_path bludev))).

(** The loop of [destroy] over the proxies. *)
Definition close_all (keys : list string) : M unit :=
  for_of keys (fun k => proxy_close (Some k)).

(** The calls [proxy.close] makes. *)
Definition closing (e : Effect) : Prop :=
  match e with
  | Debug _ | MuxerClose _ => True
  | _ => False
  end.

(** The fields [proxy.close] leaves alone. *)
Definition untouched_by_close (I : ChannelService -> Prop) : Prop :=
  (forall f s, I s -> I (set_devices f s)) /\
  (forall o n s, I s -> I (set_muxers o n s)).

(** The last two statements of [destroy]. *)
Definition release_bus : M unit :=
  profile <- gets _profile ;;
  match profile with
  | Some _ => emit ProfileDestroy
  | None => ret tt
  end ;;
  manager <- gets _profileManager ;;
  match manager with
  | Some _ =>
      emit ProfileManagerDestroy ;;
      modify (set_profileManager None)
  | None => ret tt
  end.

(** The proxy [_onInterfacesAdded] stores. *)
Definition new_proxy (object_path : string) (i : DeviceInfo) (id : nat)
  : Device :=
  {| g_object_path := object_path;
     Address := info_Address i; Alias := info_Alias i;
     Paired := info_Paired i; Connected := info_Connected i;
     ServicesResolved := info_ServicesResolved i; UUIDs := info_UUIDs i;
     _muxer := None; __deviceChangedId := Some id |}.

(** The calls to [warning]. *)
Definition is_Warning (e : Effect) : bool :=
  match e with Warning _ _ => true | _ => false end.



(** The emissions of notify::devices. *)
Definition is_NotifyDevices (e : Effect) : bool :=
  match e with NotifyDevices => true | _ => false end.

(** [_init()]: the version test, the empty device map and the start of
    [_init_async]. *)
Definition _init (version : Z) (env : Responses) : M unit :=
  if (version <? 15400)%Z then throw (GError "Bluetooth not supported")
  else
    modify (set_devices (fun _ => Map.empty)) ;;
    _init_async env.


(** The calls other than ConnectProfile. *)
Definition unrequesting (e : Effect) : Prop := is_ConnectProfile e = false.

(** ** Properties of the map *)

Lemma get_set_eq {V} k (v : V) m : Map.get k (Map.set k v m) = Some v.
Proof.
  induction m as [|[k' v'] r IH]; simpl.
  - now rewrite String.eqb_refl.
  - destruct (k' =? k) eqn:E; simpl.
    + now rewrite String.eqb_refl.
    + now rewrite E.
Qed.

Lemma get_set_ne {V} k k' (v : V) m :
  k <> k' -> Map.get k' (Map.set k v m) = Map.get k' m.
Proof.
  intros Hne. induction m as [|[k0 v0] r IH]; simpl.
  - apply String.eqb_neq in Hne. now rewrite Hne.
  - destruct (k0 =? k) eqn:E; simpl.
    + apply String.eqb_eq in E. subst k0.
      apply String.eqb_neq in Hne. now rewrite Hne.
    + now rewrite IH.
Qed.

Lemma get_In {V} k (v : V) m : Map.get k m = Some v -> In (k, v) m.
Proof.
  induction m as [|[k' v'] r IH]; simpl; [discriminate|].
  destruct (k' =? k) eqn:E.
  - apply String.eqb_eq in E. intros [= ->]. subst. now left.
  - intros H. right. now apply IH.
Qed.

Lemma In_get {V} k (v : V) m :
  NoDup (Map.keys m) -> In (k, v) m -> Map.get k m = Some v.
Proof.
  induction m as [|[k' v'] r IH]; simpl; [tauto|].
  intros Hnd [H|H].
  - injection H as -> ->. now rewrite String.eqb_refl.
  - inversion Hnd as [|? ? Hni Hnd']; subst.
    destruct (k' =? k) eqn:E.
    + apply String.eqb_eq in E. subst k'. exfalso. apply Hni.
      change k with (fst (k, v)). now apply in_map.
    + now apply IH.
Qed.

Lemma get_None_keys {V} k (m : Map.t V) :
  Map.get k m = None <-> ~ In k (Map.keys m).
Proof.
  induction m as [|[k' v'] r IH]; simpl; [tauto|].
  destruct (k' =? k) eqn:E.
  - apply String.eqb_eq in E. subst. split; [discriminate|]. tauto.
  - apply String.eqb_neq in E. rewrite IH. tauto.
Qed.

Lemma keys_set_present {V} k (v : V) m :
  In k (Map.keys m) -> Map.keys (Map.set k v m) = Map.keys m.
Proof.
  induction m as [|[k' v'] r IH]; simpl; [tauto|].
  intros H. destruct (k' =? k) eqn:E; simpl.
  - apply String.eqb_eq in E. now subst.
  - f_equal. apply IH. destruct H as [H|H]; [|exact H].
    apply String.eqb_neq in E. contradiction.
Qed.

Lemma keys_set_absent {V} k (v : V) m :
  ~ In k (Map.keys m) -> Map.keys (Map.set k v m) = Map.keys m ++ [k].
Proof.
  induction m as [|[k' v'] r IH]; simpl; [reflexivity|].
  intros H. destruct (k' =? k) eqn:E; simpl.
  - apply String.eqb_eq in E. tauto.
  - f_equal. apply IH. tauto.
Qed.

Lemma NoDup_keys_set {V} k (v : V) m :
  NoDup (Map.keys m) -> NoDup (Map.keys (Map.set k v m)).
Proof.
  intros Hnd. destruct (in_dec string_dec k (Map.keys m)) as [Hin|Hni].
  - now rewrite keys_set_present.
  - rewrite keys_set_absent by assumption.
    apply NoDup_app; [exact Hnd|repeat constructor; simpl; tauto|].
    intros x Hx [<-|[]]. contradiction.
Qed.

Lemma In_set {V} k (v : V) m k' v' :
  NoDup (Map.keys m) -> In (k', v') (Map.set k v m) ->
  (k' = k /\ v' = v) \/ (k' <> k /\ In (k', v') m).
Proof.
  intros Hnd Hin.
  apply In_get in Hin; [|now apply NoDup_keys_set].
  destruct (string_dec k k') as [<-|Hne].
  - rewrite get_set_eq in Hin. injection Hin as <-. now left.
  - rewrite get_set_ne in Hin by assumption.
    right. split; [congruence|now apply get_In].
Qed.

Lemma keys_delete {V} k (m : Map.t V) :
  Map.keys (Map.delete k m) = filter (fun k' => negb (k' =? k)) (Map.keys m).
Proof.
  unfold Map.delete, Map.keys.
  induction m as [|[k' v'] r IH]; simpl; [reflexivity|].
  destruct (k' =? k); simpl; now rewrite IH.
Qed.

Lemma NoDup_keys_delete {V} k (m : Map.t V) :
  NoDup (Map.keys m) -> NoDup (Map.keys (Map.delete k m)).
Proof. intros H. rewrite keys_delete. now apply NoDup_filter. Qed.

Lemma In_delete {V} k (m : Map.t V) k' v' :
  In (k', v') (Map.delete k m) <-> In (k', v') m /\ k' <> k.
Proof.
  unfold Map.delete. rewrite filter_In. simpl.
  rewrite negb_true_iff, String.eqb_neq. tauto.
Qed.

Lemma get_delete_eq {V} k (m : Map.t V) : Map.get k (Map.delete k m) = None.
Proof.
  apply get_None_keys. rewrite keys_delete, filter_In.
  rewrite String.eqb_refl. simpl. intros [_ [=]].
Qed.

(** ** Properties of the monad *)

Lemma try_catch_log_normal {A} (m : M A) (h : Error -> M A) s :
  (forall e s', exists s'' t a, h e s' = (s'', t, Normal a)) ->
  exists s1 t a, try_catch m h s = (s1, t, Normal a).
Proof.
  intros Hh. unfold try_catch.
  destruct (m s) as [[s1 t1] [a|e]]; [eauto|].
  destruct (Hh e s1) as (s2 & t2 & a & ->). eauto.
Qed.

Lemma _onInterfacesAdded_normal env object_path interfaces s :
  exists s1 t a,
    _onInterfacesAdded env object_path interfaces s = (s1, t, Normal a).
Proof.
  unfold _onInterfacesAdded. apply try_catch_log_normal.
  intros e s'. unfold emit. eauto.
Qed.

Lemma _onInterfacesRemoved_normal object_path interfaces s :
  exists s1 t a,
    _onInterfacesRemoved object_path interfaces s = (s1, t, Normal a).
Proof.
  unfold _onInterfacesRemoved. apply try_catch_log_normal.
  intros e s'. unfold emit. eauto.
Qed.

Lemma for_of_normal {A} (l : list A) (body : A -> M unit) :
  (forall x s, exists s1 t, body x s = (s1, t, Normal tt)) ->
  forall s, exists s1 t, for_of l body s = (s1, t, Normal tt).
Proof.
  intros Hb. induction l as [|x r IH]; intros s; simpl.
  - unfold ret. eauto.
  - unfold bind. destruct (Hb x s) as (s1 & t1 & ->).
    destruct (IH s1) as (s2 & t2 & ->). eauto.
Qed.

(** *** Rules for state invariants and trace predicates *)

Section Rules.
Context (I : ChannelService -> Prop) (phi : Effect -> Prop).

Lemma preserves_ret {A} (a : A) : preserves I (ret a).
Proof. intros s H. exact H. Qed.

Lemma preserves_throw {A} e : preserves I (@throw A e).
Proof. intros s H. exact H. Qed.

Lemma preserves_gets {A} (f : ChannelService -> A) : preserves I (gets f).
Proof. intros s H. exact H. Qed.

Lemma preserves_emit e : preserves I (emit e).
Proof. intros s H. exact H. Qed.

Lemma preserves_await r : preserves I (await r).
Proof. destruct r; intros s H; exact H. Qed.

Lemma preserves_await_value {A} (r : Completion A) :
  preserves I (await_value r).
Proof. destruct r; intros s H; exact H. Qed.

Lemma preserves_modify f :
  (forall s, I s -> I (f s)) -> preserves I (modify f).
Proof. intros Hf s H. now apply Hf. Qed.

Lemma preserves_bind {A B} (m : M A) (k : A -> M B) :
  preserves I m -> (forall a, preserves I (k a)) -> preserves I (bind m k).
Proof.
  intros Hm Hk s H. specialize (Hm s H). unfold bind, state_of in *.
  destruct (m s) as [[s1 t1] [a|e]]; simpl in *; [|exact Hm].
  specialize (Hk a s1 Hm). unfold state_of in Hk.
  destruct (k a s1) as [[s2 t2] r]. exact Hk.
Qed.

Lemma preserves_bind_gets {A B} (f : ChannelService -> A) (k : A -> M B) :
  (forall s, I s -> I (state_of (k (f s) s))) ->
  preserves I (bind (gets f) k).
Proof.
  intros Hk s H. specialize (Hk s H). unfold bind, gets, state_of in *.
  destruct (k (f s) s) as [[s2 t2] r]. exact Hk.
Qed.

Lemma preserves_try_catch {A} (m : M A) h :
  preserves I m -> (forall e, preserves I (h e)) ->
  preserves I (try_catch m h).
Proof.
  intros Hm Hh s H. specialize (Hm s H). unfold try_catch, state_of in *.
  destruct (m s) as [[s1 t1] [a|e]]; simpl in *; [exact Hm|].
  specialize (Hh e s1 Hm). unfold state_of in Hh.
  destruct (h e s1) as [[s2 t2] r]. exact Hh.
Qed.

Lemma preserves_for_of {A} (l : list A) body :
  (forall x, preserves I (body x)) -> preserves I (for_of l body).
Proof.
  intros Hb. induction l as [|x r IH]; simpl.
  - apply preserves_ret.
  - apply preserves_bind; [apply Hb|intros _; exact IH].
Qed.

Lemma emits_ret {A} (a : A) : emits phi (ret a).
Proof. intros s. constructor. Qed.

Lemma emits_throw {A} e : emits phi (@throw A e).
Proof. intros s. constructor. Qed.

Lemma emits_gets {A} (f : ChannelService -> A) : emits phi (gets f).
Proof. intros s. constructor. Qed.

Lemma emits_modify f : emits phi (modify f).
Proof. intros s. constructor. Qed.

Lemma emits_await r : emits phi (await r).
Proof. destruct r; intros s; constructor. Qed.

Lemma emits_await_value {A} (r : Completion A) : emits phi (await_value r).
Proof. destruct r; intros s; constructor. Qed.

Lemma emits_emit e : phi e -> emits phi (emit e).
Proof. intros H s. repeat constructor. exact H. Qed.

Lemma emits_bind {A B} (m : M A) (k : A -> M B) :
  emits phi m -> (forall a, emits phi (k a)) -> emits phi (bind m k).
Proof.
  intros Hm Hk s. specialize (Hm s). unfold bind, trace_of in *.
  destruct (m s) as [[s1 t1] [a|e]]; simpl in *; [|exact Hm].
  specialize (Hk a s1). unfold trace_of in Hk.
  destruct (k a s1) as [[s2 t2] r]. simpl in *.
  apply Forall_app. now split.
Qed.

Lemma emits_try_catch {A} (m : M A) h :
  emits phi m -> (forall e, emits phi (h e)) -> emits phi (try_catch m h).
Proof.
  intros Hm Hh s. specialize (Hm s). unfold try_catch, trace_of in *.
  destruct (m s) as [[s1 t1] [a|e]]; simpl in *; [exact Hm|].
  specialize (Hh e s1). unfold trace_of in Hh.
  destruct (h e s1) as [[s2 t2] r]. simpl in *.
  apply Forall_app. now split.
Qed.

Lemma emits_for_of {A} (l : list A) body :
  (forall x, emits phi (body x)) -> emits phi (for_of l body).
Proof.
  intros Hb. induction l as [|x r IH]; simpl.
  - apply emits_ret.
  - apply emits_bind; [apply Hb|intros _; exact IH].
Qed.

End Rules.

(** Walks through a handler, leaving the calls whose effect has to be
    checked and the state updates that have to keep the invariant. *)
Ltac walk_emits :=
  repeat first
    [ apply emits_ret | apply emits_throw | apply emits_gets
    | apply emits_modify | apply emits_await | apply emits_await_value
    | apply emits_bind | apply emits_try_catch | apply emits_for_of
    | apply emits_emit
    | match goal with
      | |- forall _, _ => intro
      | |- emits _ (match ?x with _ => _ end) => destruct x
      | |- emits _ (if ?x then _ else _) => destruct x
      end
    | progress unfold _getDeviceProxy, devices_get, deref, write_muxer,
        muxer_close, Multiplex_Connection, service_disconnect,
        _getManagedObjects, Release ].

Ltac walk_preserves :=
  repeat first
    [ apply preserves_ret | apply preserves_throw | apply preserves_gets
    | apply preserves_emit | apply preserves_await
    | apply preserves_await_value
    | apply preserves_bind | apply preserves_try_catch
    | apply preserves_for_of
    | match goal with
      | |- forall _, _ => intro
      | |- preserves _ (match ?x with _ => _ end) => destruct x
      | |- preserves _ (if ?x then _ else _) => destruct x
      end
    | progress unfold _getDeviceProxy, devices_get, deref,
        service_disconnect, _getManagedObjects, Release ].

Lemma count_zero p t :
  Forall (fun e => p e = false) t -> count p t = 0.
Proof.
  unfold count. induction 1 as [|e t He _ IH]; simpl; [reflexivity|].
  now rewrite He.
Qed.


(** ** The guard of [vfunc_g_signal] *)

(** C10: the test [!this.g_name_owner === null] of [vfunc_g_signal] is
    false for every value the name owner can have, so the early return is
    never taken: an InterfacesAdded signal always runs [_onInterfacesAdded]
    and an InterfacesRemoved signal always runs [_onInterfacesRemoved],
    whether the name is owned or not. *)
Theorem name_owner_guard_never_fires :
  (forall v : JS.value, JS.strict_eq (JS.not v) JS.Null = false) /\
  (forall env owner s object_path interfaces,
      vfunc_g_signal env "InterfacesAdded" (object_path, interfaces)
                     (set_name_owner owner s)
      = _onInterfacesAdded env object_path interfaces
                           (set_name_owner owner s)) /\
  (forall env owner s object_path interfaces,
      vfunc_g_signal env "InterfacesRemoved" (object_path, interfaces)
                     (set_name_owner owner s)
      = _onInterfacesRemoved object_path interfaces
                             (set_name_owner owner s)).
Proof.
  split; [intros v; reflexivity|].
  split; intros env owner s object_path interfaces.
  - destruct (_onInterfacesAdded_normal env object_path interfaces
                (set_name_owner owner s)) as (s1 & t & a & H).
    unfold vfunc_g_signal, try_catch, bind, gets. simpl.
    rewrite H. reflexivity.
  - destruct (_onInterfacesRemoved_normal object_path interfaces
                (set_name_owner owner s)) as (s1 & t & a & H).
    unfold vfunc_g_signal, try_catch, bind, gets. simpl.
    rewrite H. reflexivity.
Qed.

(** ** Inbound connections *)

(** C3: an inbound connection for an object path that is not tracked ends
    in a TypeError thrown out of the handler.  No muxer or stream is
    closed and neither [warning] nor [logError] is called; the device
    manager is not called and nothing is attached. *)
Theorem NewConnection_untracked env object_path fd s :
  Map.get object_path (_devices s) = None ->
  let r := NewConnection env object_path fd s in
  completion_of r = Throw (TypeError "bludev is undefined") /\
  _devices (state_of r) = _devices s /\
  count is_MuxerClose (trace_of r) = 0 /\
  count is_log (trace_of r) = 0 /\
  count is_EnsureDevice (trace_of r) = 0 /\
  count is_Attach (trace_of r) = 0.
Proof.
  intros Hget r. subst r.
  unfold NewConnection, devices_get, Map.has, bind, gets, try_catch, emit.
  simpl. rewrite Hget.
  destruct (socket_new_from_fd env fd) as [e|]; simpl; repeat split.
Qed.

(** ** Profile registration *)

Lemma trace_bind_gets {A B} phi (f : ChannelService -> A) (k : A -> M B) s :
  Forall phi (trace_of (k (f s) s)) ->
  Forall phi (trace_of (bind (gets f) k s)).
Proof.
  unfold bind, gets, trace_of. destruct (k (f s) s) as [[s2 t2] r].
  simpl. auto.
Qed.

Lemma trace_bind_modify {B} phi f (k : unit -> M B) s :
  Forall phi (trace_of (k tt (f s))) ->
  Forall phi (trace_of (bind (modify f) k s)).
Proof.
  unfold bind, modify, trace_of. destruct (k tt (f s)) as [[s2 t2] r].
  simpl. auto.
Qed.

Lemma trace_try_catch {A} phi (m : M A) h s :
  Forall phi (trace_of (m s)) -> (forall e, emits phi (h e)) ->
  Forall phi (trace_of (try_catch m h s)).
Proof.
  intros Hm Hh. unfold try_catch, trace_of in *.
  destruct (m s) as [[s1 t1] [a|e]]; simpl in *; [exact Hm|].
  specialize (Hh e s1). unfold trace_of in Hh.
  destruct (h e s1) as [[s2 t2] r]. simpl in *.
  apply Forall_app. now split.
Qed.

Lemma _onInterfacesAdded_unregistering env object_path interfaces :
  emits unregistering (_onInterfacesAdded env object_path interfaces).
Proof.
  unfold _onInterfacesAdded, _getDeviceProxy. walk_emits; reflexivity.
Qed.

Lemma deref_emits phi bludev : emits phi (deref bludev).
Proof. unfold deref. walk_emits. Qed.

Lemma proxy_close_unregistering bludev :
  emits unregistering (proxy_close bludev).
Proof.
  unfold proxy_close, deref, muxer_close, write_muxer, deref.
  walk_emits; reflexivity.
Qed.

Lemma RequestDisconnection_unregistering object_path :
  emits unregistering (RequestDisconnection object_path).
Proof.
  unfold RequestDisconnection, devices_get.
  walk_emits; try apply proxy_close_unregistering; reflexivity.
Qed.

Lemma _onInterfacesRemoved_unregistering object_path interfaces :
  emits unregistering (_onInterfacesRemoved object_path interfaces).
Proof.
  unfold _onInterfacesRemoved.
  walk_emits; try apply RequestDisconnection_unregistering; reflexivity.
Qed.

Lemma _connectDevice_unregistering env bludev :
  emits unregistering (_connectDevice env bludev).
Proof. unfold _connectDevice. walk_emits; reflexivity. Qed.

Lemma NewConnection_unregistering env object_path fd :
  emits unregistering (NewConnection env object_path fd).
Proof.
  unfold NewConnection, devices_get, Multiplex_Connection, write_muxer.
  walk_emits;
    first [apply proxy_close_unregistering|apply deref_emits|reflexivity].
Qed.

Lemma destroy_unregistering : emits unregistering destroy.
Proof.
  unfold destroy, service_disconnect.
  walk_emits; try apply proxy_close_unregistering; reflexivity.
Qed.

Lemma unregistering_ok s e : unregistering e -> registration_ok s e.
Proof. destruct e; simpl; auto; discriminate. Qed.

Lemma emits_weaken {A} (phi psi : Effect -> Prop) (m : M A) :
  (forall e, phi e -> psi e) -> emits phi m -> emits psi m.
Proof. intros H Hm s. eapply Forall_impl; [exact H|apply Hm]. Qed.

Lemma _onNameOwnerChanged_registration env s :
  Forall (registration_ok s) (trace_of (_onNameOwnerChanged env s)).
Proof.
  unfold _onNameOwnerChanged.
  apply trace_try_catch; [|intros e; apply emits_emit; exact I].
  apply trace_bind_gets.
  destruct (g_name_owner s) as [owner|]; simpl.
  - do 2 apply trace_bind_gets.
    destruct (_profileManager s); [|constructor].
    destruct (_profile s) as [profile_path|] eqn:Hp; [|constructor].
    revert s Hp. intros s0 Hp.
    apply emits_bind; [apply emits_emit; simpl; auto|intros _].
    apply emits_bind; [apply emits_await|intros _].
    unfold _getManagedObjects.
    apply emits_bind; [walk_emits; exact I|intros objects].
    apply emits_for_of. intros entry.
    eapply emits_weaken; [apply unregistering_ok|].
    apply _onInterfacesAdded_unregistering.
  - apply trace_bind_gets. unfold _getManagedObjects.
    walk_emits; exact I.
Qed.

Lemma dispatch_unregistering env ev :
  (forall owner, ev <> notify_g_name_owner owner) ->
  emits unregistering (dispatch env ev).
Proof.
  intros Hev. destruct ev; simpl.
  - unfold vfunc_g_signal. walk_emits;
      first [apply _onInterfacesAdded_unregistering
            |apply _onInterfacesRemoved_unregistering|reflexivity].
  - now contradiction (Hev owner).
  - unfold _onDeviceChanged. walk_emits;
      first [apply _connectDevice_unregistering
            |apply RequestDisconnection_unregistering|reflexivity].
  - unfold Release. walk_emits. reflexivity.
  - apply NewConnection_unregistering.
  - apply RequestDisconnection_unregistering.
  - unfold broadcast. walk_emits;
      first [apply _connectDevice_unregistering|reflexivity].
  - apply destroy_unregistering.
Qed.

(** C8: every RegisterProfile request that handling an event issues, and
    every one issued while the service is set up, carries the object path
    of the exported profile, the service UUID
    185f3df4-3268-4e3f-9fca-d4d5059915bd, and the options
    RequireAuthorization false, RequireAuthentication true and
    ServiceRecord the SDP record. *)
Theorem registration_request env ev s :
  Forall (registration_ok s) (trace_of (dispatch env ev s)) /\
  Forall (registration_ok (set_profile (Some PROFILE_PATH) s))
         (trace_of (_init_async env s)).
Proof.
  split.
  - destruct ev;
      try (eapply Forall_impl; [apply unregistering_ok|];
           apply dispatch_unregistering; discriminate).
    unfold dispatch. apply trace_bind_modify. apply trace_bind_gets.
    simpl. destruct (name_owner_handler s).
    + apply (_onNameOwnerChanged_registration env (set_name_owner owner s)).
    + constructor.
  - unfold _init_async.
    apply trace_try_catch.
    2:{ intros e. apply emits_bind; [apply emits_emit; exact I|intros _].
        eapply emits_weaken; [apply unregistering_ok|].
        apply destroy_unregistering. }
    destruct (service_init env) as [e|]; [constructor|].
    destruct (profile_manager_init env) as [e|]; [repeat constructor|].
    unfold bind, await, ret, emit, modify, gets. simpl.
    pose proof (_onNameOwnerChanged_registration env
      (set_next_handler (S (next_handler s))
         (set_nameOwnerChangedId (Some (next_handler s))
            (Some (next_handler s))
            (set_profile (Some PROFILE_PATH)
               (set_profileManager (Some tt) s))))) as H.
    unfold trace_of in *.
    match goal with
    | |- context [_onNameOwnerChanged env ?s1] =>
        destruct (_onNameOwnerChanged env s1) as [[s2 t2] r]
    end.
    simpl in *. repeat constructor. exact H.
Qed.

Lemma feed_normal env (objects : list (string * list string)) s :
  exists s1 t,
    for_of objects
      (fun entry => _onInterfacesAdded env (fst entry) (snd entry)) s
    = (s1, t, Normal tt).
Proof.
  apply for_of_normal. intros entry s0.
  destruct (_onInterfacesAdded_normal env (fst entry) (snd entry) s0)
    as (s1 & t & [] & H).
  eauto.
Qed.

Lemma feed_unregistering env (objects : list (string * list string)) :
  emits unregistering
    (for_of objects
       (fun entry => _onInterfacesAdded env (fst entry) (snd entry))).
Proof.
  apply emits_for_of. intros entry. apply _onInterfacesAdded_unregistering.
Qed.

(** C4, amended: when the name owner becomes non-null the handler issues
    the RegisterProfile request first.  If the request is rejected the
    error is logged and nothing else happens: the managed objects are not
    enumerated and the state is unchanged.  If it resolves, the managed
    objects are enumerated and each is given to [_onInterfacesAdded], in
    order.  The handler issues one request; no other event issues any, and
    neither does the notification that the name owner is lost. *)
Theorem bind_registers_then_enumerates env s owner profile_path :
  g_name_owner s = Some owner ->
  _profileManager s = Some tt ->
  _profile s = Some profile_path ->
  let request := RegisterProfile profile_path SERVICE_UUID SERVICE_PROFILE in
  (forall e, register_profile env = Some e ->
     _onNameOwnerChanged env s = (s, [request; LogError e], Normal tt)) /\
  (forall objects,
     register_profile env = None -> managed_objects env = Normal objects ->
     let r := for_of objects
                (fun entry => _onInterfacesAdded env (fst entry) (snd entry))
                s in
     _onNameOwnerChanged env s
     = (state_of r, request :: GetManagedObjects :: trace_of r, Normal tt)) /\
  count is_RegisterProfile (trace_of (_onNameOwnerChanged env s)) = 1 /\
  (forall ev, (forall o, ev <> notify_g_name_owner o) ->
     count is_RegisterProfile (trace_of (dispatch env ev s)) = 0) /\
  count is_RegisterProfile
        (trace_of (dispatch env (notify_g_name_owner None) s)) = 0.
Proof.
  intros Howner Hmanager Hprofile request.
  assert (Hfail : forall e, register_profile env = Some e ->
     _onNameOwnerChanged env s = (s, [request; LogError e], Normal tt)).
  { intros e He.
    unfold _onNameOwnerChanged, try_catch, bind, gets, emit, await.
    rewrite Howner. simpl. rewrite Hmanager, Hprofile, He. reflexivity. }
  assert (Hok : forall objects,
     register_profile env = None -> managed_objects env = Normal objects ->
     let r := for_of objects
                (fun entry => _onInterfacesAdded env (fst entry) (snd entry))
                s in
     _onNameOwnerChanged env s
     = (state_of r, request :: GetManagedObjects :: trace_of r, Normal tt)).
  { intros objects He Hobjects r. subst r.
    destruct (feed_normal env objects s) as (s1 & t & Hfeed).
    unfold _onNameOwnerChanged, _getManagedObjects, try_catch, bind, gets,
      emit, await, await_value.
    rewrite Howner. simpl. rewrite Hmanager, Hprofile, He, Hobjects. simpl.
    rewrite Hfeed. reflexivity. }
  repeat split; [exact Hfail|exact Hok| | |].
  - destruct (register_profile env) as [e|] eqn:He.
    + rewrite (Hfail e eq_refl). reflexivity.
    + destruct (managed_objects env) as [objects|e] eqn:Hobjects.
      * rewrite (Hok objects eq_refl eq_refl).
        unfold count, trace_of at 1. simpl. f_equal.
        apply count_zero. apply feed_unregistering.
      * unfold _onNameOwnerChanged, _getManagedObjects, try_catch, bind,
          gets, emit, await, await_value.
        rewrite Howner. simpl.
        rewrite Hmanager, Hprofile, He, Hobjects. reflexivity.
  - intros ev Hev. apply count_zero.
    now apply dispatch_unregistering.
  - apply count_zero. unfold dispatch.
    apply trace_bind_modify. apply trace_bind_gets. simpl.
    destruct (name_owner_handler s); [|constructor].
    unfold _onNameOwnerChanged.
    apply trace_try_catch; [|intros e; apply emits_emit; reflexivity].
    apply trace_bind_gets. simpl.
    walk_emits; reflexivity.
Qed.

(** ** Well-formedness is kept by every state update *)

Lemma wf_ext s s' :
  _devices s' = _devices s -> open_muxers s' = open_muxers s ->
  next_muxer s' = next_muxer s -> wf s -> wf s'.
Proof.
  intros Hd Ho Hn [H1 H2 H3 H4 H5 H6].
  constructor; rewrite ?Hd, ?Ho, ?Hn; assumption.
Qed.

Lemma wf_constructed g_name : wf (set_name_owner g_name constructed).
Proof.
  constructor; simpl; try constructor; try tauto.
Qed.

Lemma wf_delete s k : wf s -> wf (set_devices (Map.delete k) s).
Proof.
  intros [H1 H2 H3 H4 H5 H6]. constructor; simpl; try assumption.
  - now apply NoDup_keys_delete.
  - intros k0 d0 Hin. apply In_delete in Hin. now apply H2.
  - intros k0 d0 m Hin Hm. apply In_delete in Hin.
    apply (H5 k0 d0); tauto.
  - intros k0 d0 k1 d1 m Hin0 Hin1 Hm0 Hm1.
    apply In_delete in Hin0. apply In_delete in Hin1.
    apply (H6 k0 d0 k1 d1 m); tauto.
Qed.

Lemma wf_set s k d' open' next' :
  wf s ->
  g_object_path d' = k ->
  NoDup open' ->
  (forall m, In m open' -> m < next') ->
  (forall k0 d0 m, In (k0, d0) (_devices s) -> k0 <> k ->
                   _muxer d0 = Some m -> In m open') ->
  (forall m, _muxer d' = Some m ->
             In m open' /\
             forall k0 d0, In (k0, d0) (_devices s) -> k0 <> k ->
                           _muxer d0 <> Some m) ->
  wf (set_muxers open' next' (set_devices (Map.set k d') s)).
Proof.
  intros [H1 H2 H3 H4 H5 H6] Hpath Hnd Hfresh Hold Hnew.
  constructor; simpl; try assumption.
  - now apply NoDup_keys_set.
  - intros k0 d0 Hin. apply In_set in Hin; [|assumption].
    destruct Hin as [[-> ->]|[Hne Hin]]; [assumption|now apply H2].
  - intros k0 d0 m Hin Hm. apply In_set in Hin; [|assumption].
    destruct Hin as [[-> ->]|[Hne Hin]].
    + now apply Hnew.
    + now apply Hold with (k0 := k0) (d0 := d0).
  - intros k0 d0 k1 d1 m Hin0 Hin1 Hm0 Hm1.
    apply In_set in Hin0; [|assumption].
    apply In_set in Hin1; [|assumption].
    destruct Hin0 as [[-> ->]|[Hne0 Hin0]];
      destruct Hin1 as [[-> ->]|[Hne1 Hin1]].
    + reflexivity.
    + exfalso. destruct (Hnew m Hm0) as [_ Hother].
      now apply (Hother k1 d1).
    + exfalso. destruct (Hnew m Hm1) as [_ Hother].
      now apply (Hother k0 d0).
    + now apply H6 with (d := d0) (d' := d1) (m := m).
Qed.

Lemma NoDup_remove_nat (m : nat) l : NoDup l -> NoDup (remove Nat.eq_dec m l).
Proof.
  induction 1 as [|x l Hx Hnd IH]; simpl; [constructor|].
  destruct (Nat.eq_dec m x); [exact IH|].
  constructor; [|exact IH]. intros Hin. apply in_remove in Hin. tauto.
Qed.

(** A proxy without a muxer is stored under its own path. *)
Lemma wf_add s k d :
  wf s -> g_object_path d = k -> _muxer d = None ->
  wf (set_devices (Map.set k d) s).
Proof.
  intros Hwf Hpath Hm.
  apply wf_ext with
    (s := set_muxers (open_muxers s) (next_muxer s)
            (set_devices (Map.set k d) s)); try reflexivity.
  apply wf_set; try assumption; try apply Hwf.
  - intros k0 d0 m Hin _. now apply (wf_held s Hwf k0 d0).
  - intros m Hm'. congruence.
Qed.

(** The cached properties of a tracked proxy change, its muxer does not. *)
Lemma wf_update s k d d' :
  wf s -> Map.get k (_devices s) = Some d ->
  g_object_path d' = k -> _muxer d' = _muxer d ->
  wf (set_devices (Map.set k d') s).
Proof.
  intros Hwf Hget Hpath Hm.
  apply wf_ext with
    (s := set_muxers (open_muxers s) (next_muxer s)
            (set_devices (Map.set k d') s)); try reflexivity.
  apply get_In in Hget.
  apply wf_set; try assumption; try apply Hwf.
  - intros k0 d0 m Hin _. now apply (wf_held s Hwf k0 d0).
  - intros m Hm'. rewrite Hm in Hm'. split.
    + now apply (wf_held s Hwf k d).
    + intros k0 d0 Hin Hne Hm0. apply Hne.
      now apply (wf_excl s Hwf k0 d0 k d m).
Qed.

(** [proxy.close()] on a proxy that holds a muxer. *)
Lemma wf_close s k d m :
  wf s -> Map.get k (_devices s) = Some d -> _muxer d = Some m ->
  wf (set_devices (Map.set k (with_muxer d None))
        (set_muxers (remove Nat.eq_dec m (open_muxers s)) (next_muxer s) s)).
Proof.
  intros Hwf Hget Hm.
  apply wf_ext with
    (s := set_muxers (remove Nat.eq_dec m (open_muxers s)) (next_muxer s)
            (set_devices (Map.set k (with_muxer d None)) s));
    try reflexivity.
  apply get_In in Hget.
  apply wf_set; try assumption.
  - simpl. now apply (wf_path s Hwf).
  - apply NoDup_remove_nat. apply Hwf.
  - intros m' Hin. apply in_remove in Hin. now apply (wf_fresh s Hwf).
  - intros k0 d0 m' Hin Hne Hm'. apply in_in_remove.
    + intros ->. apply Hne. now apply (wf_excl s Hwf k0 d0 k d m).
    + now apply (wf_held s Hwf k0 d0).
  - simpl. discriminate.
Qed.

(** [new Multiplex.Connection(connection)] alone. *)
Lemma wf_alloc s :
  wf s -> wf (set_muxers (next_muxer s :: open_muxers s) (S (next_muxer s)) s).
Proof.
  intros [H1 H2 H3 H4 H5 H6]. constructor; simpl; try assumption.
  - constructor; [|assumption]. intros Hin. apply H4 in Hin. lia.
  - intros m [<-|Hin]; [lia|]. apply H4 in Hin. lia.
  - intros k d m Hin Hm. right. now apply (H5 k d).
Qed.

(** The new muxer is stored in the slot of a tracked proxy. *)
Lemma wf_attach s k d :
  wf s -> Map.get k (_devices s) = Some d ->
  wf (set_devices (Map.set k (with_muxer d (Some (next_muxer s))))
        (set_muxers (next_muxer s :: open_muxers s) (S (next_muxer s)) s)).
Proof.
  intros Hwf Hget.
  apply wf_ext with
    (s := set_muxers (next_muxer s :: open_muxers s) (S (next_muxer s))
            (set_devices
               (Map.set k (with_muxer d (Some (next_muxer s)))) s));
    try reflexivity.
  apply get_In in Hget.
  apply wf_set; try assumption.
  - simpl. now apply (wf_path s Hwf).
  - constructor; [|apply Hwf]. intros Hin.
    apply (wf_fresh s Hwf) in Hin. lia.
  - intros m [<-|Hin]; [lia|]. apply (wf_fresh s Hwf) in Hin. lia.
  - intros k0 d0 m Hin _ Hm. right. now apply (wf_held s Hwf k0 d0).
  - simpl. intros m [= <-]. split; [now left|].
    intros k0 d0 Hin _ Hm.
    apply (wf_held s Hwf k0 d0) in Hm; [|assumption].
    apply (wf_fresh s Hwf) in Hm. lia.
Qed.

(** ** Well-formedness is kept by every handler *)

Lemma preserves_bind_ret {A B} I (a : A) (k : A -> M B) :
  preserves I (k a) -> preserves I (bind (ret a) k).
Proof.
  intros Hk s H. specialize (Hk s H). unfold bind, ret, state_of in *.
  destruct (k a s) as [[s2 t2] r]. exact Hk.
Qed.

Lemma proxy_close_wf bludev : preserves wf (proxy_close bludev).
Proof.
  intros s Hwf. unfold proxy_close, deref.
  destruct bludev as [k|]; [|exact Hwf].
  unfold bind at 1 2. unfold gets at 1. simpl.
  destruct (Map.get k (_devices s)) as [d|] eqn:Hget; [|exact Hwf].
  simpl. destruct (_muxer d) as [m|] eqn:Hm; [|exact Hwf].
  unfold muxer_close, write_muxer, deref, bind, emit, modify, gets, ret.
  simpl. rewrite Hget. simpl.
  now apply wf_close.
Qed.

Ltac walk_wf_with known :=
  repeat first
    [ known
    | apply proxy_close_wf
    | apply preserves_modify; intros ? ?; now apply wf_delete
    | apply preserves_ret | apply preserves_throw | apply preserves_gets
    | apply preserves_emit | apply preserves_await
    | apply preserves_await_value
    | apply preserves_bind_ret
    | apply preserves_bind | apply preserves_try_catch
    | apply preserves_for_of
    | match goal with
      | |- forall _, _ => intro
      | |- preserves _ (match ?x with _ => _ end) => destruct x
      | |- preserves _ (if ?x then _ else _) => destruct x
      end ].

Ltac walk_wf := walk_wf_with fail.

Lemma RequestDisconnection_wf object_path :
  preserves wf (RequestDisconnection object_path).
Proof. unfold RequestDisconnection, devices_get. walk_wf. Qed.

Lemma _onInterfacesRemoved_wf object_path interfaces :
  preserves wf (_onInterfacesRemoved object_path interfaces).
Proof.
  unfold _onInterfacesRemoved.
  walk_wf_with ltac:(apply RequestDisconnection_wf).
Qed.

Lemma _onInterfacesAdded_wf env object_path interfaces :
  preserves wf (_onInterfacesAdded env object_path interfaces).
Proof.
  unfold _onInterfacesAdded.
  apply preserves_try_catch; [|walk_wf].
  apply preserves_for_of. intros interface_name.
  destruct (negb (interface_name =? DEVICE_INTERFACE)); [apply preserves_ret|].
  apply preserves_bind; [apply preserves_gets|intros [|]];
    [apply preserves_ret|].
  unfold _getDeviceProxy.
  destruct (device_proxy env object_path) as [i|].
  - apply preserves_bind_ret.
    apply preserves_bind; [apply preserves_gets|intros id].
    apply preserves_bind.
    { apply preserves_modify. intros s Hs.
      now apply wf_ext with (s := s). }
    intros _. apply preserves_bind; [apply preserves_emit|intros _].
    apply preserves_bind; [|intros _; apply preserves_emit].
    apply preserves_modify. intros s Hs. now apply wf_add.
  - walk_wf.
Qed.

Lemma _connectDevice_state env bludev s :
  state_of (_connectDevice env bludev s) = s.
Proof.
  unfold _connectDevice, try_catch, bind, emit, await, ret, state_of.
  destruct (_muxer bludev); [reflexivity|].
  destruct (Paired bludev); [|reflexivity].
  destruct (connect_profile env (g_object_path bludev)); reflexivity.
Qed.

Lemma _connectDevice_preserves I env bludev :
  preserves I (_connectDevice env bludev).
Proof. intros s H. now rewrite _connectDevice_state. Qed.

Lemma _onDeviceChanged_wf env proxy changed :
  preserves wf (_onDeviceChanged env proxy changed).
Proof.
  unfold _onDeviceChanged.
  destruct (ch_Connected changed) as [[|]|];
    [apply _connectDevice_preserves|apply RequestDisconnection_wf|].
  destruct (ch_ServicesResolved changed) as [[|]|];
    [apply _connectDevice_preserves|apply preserves_ret..].
Qed.

Lemma _onNameOwnerChanged_wf env : preserves wf (_onNameOwnerChanged env).
Proof.
  unfold _onNameOwnerChanged, _getManagedObjects.
  walk_wf_with ltac:(apply _onInterfacesAdded_wf).
Qed.

Lemma state_bind_normal {A B} (m : M A) (k : A -> M B) s s1 t1 a :
  m s = (s1, t1, Normal a) -> state_of (bind m k s) = state_of (k a s1).
Proof.
  intros H. unfold bind, state_of. rewrite H.
  now destruct (k a s1) as [[s2 t2] r].
Qed.

Lemma state_bind_throw {A B} (m : M A) (k : A -> M B) s s1 t1 e :
  m s = (s1, t1, Throw e) -> state_of (bind m k s) = s1.
Proof. intros H. unfold bind, state_of. now rewrite H. Qed.

Lemma Multiplex_Connection_eval fd s :
  Multiplex_Connection fd s
  = (set_muxers (next_muxer s :: open_muxers s) (S (next_muxer s)) s,
     [MuxerNew (next_muxer s) fd], Normal (next_muxer s)).
Proof. reflexivity. Qed.

Lemma write_muxer_eval bludev m s :
  write_muxer bludev m s =
  match bludev with
  | Some k =>
      match Map.get k (_devices s) with
      | Some d => (set_devices (Map.set k (with_muxer d m)) s, [], Normal tt)
      | None => (s, [], Throw (TypeError "bludev is undefined"))
      end
  | None => (s, [], Throw (TypeError "bludev is undefined"))
  end.
Proof.
  unfold write_muxer, deref. destruct bludev as [k|]; [|reflexivity].
  unfold bind, gets. simpl.
  destruct (Map.get k (_devices s)); reflexivity.
Qed.

Lemma construct_and_store_wf {B} bludev fd (rest : nat -> M B) :
  (forall m, preserves wf (rest m)) ->
  preserves wf (m <- Multiplex_Connection fd ;;
                write_muxer bludev (Some m) ;;
                rest m).
Proof.
  intros Hrest s Hwf.
  rewrite (state_bind_normal _ _ _ _ _ _ (Multiplex_Connection_eval fd s)).
  pose proof (write_muxer_eval bludev (Some (next_muxer s))
    (set_muxers (next_muxer s :: open_muxers s) (S (next_muxer s)) s))
    as Hw.
  destruct bludev as [k|].
  - simpl in Hw. destruct (Map.get k (_devices s)) as [d|] eqn:Hget.
    + rewrite (state_bind_normal _ _ _ _ _ _ Hw).
      apply Hrest. now apply wf_attach.
    + rewrite (state_bind_throw _ _ _ _ _ _ Hw). now apply wf_alloc.
  - rewrite (state_bind_throw _ _ _ _ _ _ Hw). now apply wf_alloc.
Qed.

Lemma NewConnection_wf env object_path fd :
  preserves wf (NewConnection env object_path fd).
Proof.
  unfold NewConnection, devices_get.
  walk_wf_with ltac:(apply construct_and_store_wf).
  all: unfold deref; walk_wf.
Qed.

Lemma destroy_wf : preserves wf destroy.
Proof.
  unfold destroy, service_disconnect.
  walk_wf_with ltac:(apply preserves_modify; intros s Hs;
                     apply wf_ext with (s := s);
                     [repeat match goal with
                             | |- context [match ?x with _ => _ end] =>
                                 destruct x
                             end; reflexivity ..|exact Hs]).
Qed.

Lemma dispatch_wf env ev : preserves wf (dispatch env ev).
Proof.
  destruct ev; simpl.
  - unfold vfunc_g_signal.
    walk_wf_with ltac:(first [apply _onInterfacesAdded_wf
                             |apply _onInterfacesRemoved_wf]).
  - apply preserves_bind.
    + apply preserves_modify. intros s Hs. now apply wf_ext with (s := s).
    + intros _. walk_wf_with ltac:(apply _onNameOwnerChanged_wf).
  - apply preserves_bind_gets. intros s Hwf.
    destruct (Map.get object_path (_devices s)) as [proxy|] eqn:Hget;
      [|exact Hwf].
    erewrite state_bind_normal by reflexivity.
    apply _onDeviceChanged_wf. simpl.
    apply wf_update with (d := proxy);
      [exact Hwf|exact Hget| |reflexivity].
    simpl. apply (wf_path s Hwf). now apply get_In.
  - unfold Release. walk_wf.
  - apply NewConnection_wf.
  - apply RequestDisconnection_wf.
  - unfold broadcast.
    walk_wf_with ltac:(apply _connectDevice_preserves).
  - apply destroy_wf.
Qed.

Lemma _init_async_wf env : preserves wf (_init_async env).
Proof.
  unfold _init_async.
  walk_wf_with ltac:(first
    [ apply _onNameOwnerChanged_wf | apply destroy_wf
    | apply preserves_modify; intros s Hs;
      now apply wf_ext with (s := s) ]).
Qed.

Lemma reachable_wf s : reachable s -> wf s.
Proof.
  induction 1 as [env g_name|s env ev Hr IH].
  - apply _init_async_wf. apply wf_constructed.
  - now apply dispatch_wf.
Qed.

(** ** The device map follows the notifications *)

Lemma for_of_noop {A} (l : list A) (body : A -> M unit) s :
  (forall x, body x s = (s, [], Normal tt)) ->
  for_of l body s = (s, [], Normal tt).
Proof.
  intros Hb. induction l as [|x r IH]; simpl; [reflexivity|].
  unfold bind. now rewrite Hb, IH.
Qed.

Lemma keys_values_path (ds : Map.t Device) :
  (forall k d, In (k, d) ds -> g_object_path d = k) ->
  map g_object_path (Map.values ds) = Map.keys ds.
Proof.
  induction ds as [|[k d] r IH]; simpl; intros H; [reflexivity|].
  f_equal.
  - apply H. now left.
  - apply IH. intros k0 d0 Hin. apply H. now right.
Qed.

Lemma NoDup_map_filter {A B} (g : A -> B) (p : A -> bool) l :
  NoDup (map g l) -> NoDup (map g (filter p l)).
Proof.
  induction l as [|x r IH]; simpl; intros H; [constructor|].
  inversion H as [|? ? Hni Hnd]; subst.
  destruct (p x); simpl; [|now apply IH].
  constructor; [|now apply IH].
  intros Hin. apply Hni. apply in_map_iff in Hin.
  destruct Hin as (y & Hy & Hin). apply filter_In in Hin.
  apply in_map_iff. exists y. tauto.
Qed.

(** ** Evaluation of the monad's operations *)

Lemma bind_gets_eval {A B} (f : ChannelService -> A) (k : A -> M B) s :
  bind (gets f) k s = k (f s) s.
Proof. unfold bind, gets. now destruct (k (f s) s) as [[s2 t2] r]. Qed.

Lemma bind_modify_eval {B} f (k : unit -> M B) s :
  bind (modify f) k s = k tt (f s).
Proof. unfold bind, modify. now destruct (k tt (f s)) as [[s2 t2] r]. Qed.

Lemma bind_emit_eval {B} e (k : unit -> M B) s :
  bind (emit e) k s
  = (state_of (k tt s), e :: trace_of (k tt s), completion_of (k tt s)).
Proof. unfold bind, emit. now destruct (k tt s) as [[s2 t2] r]. Qed.

Lemma bind_normal_eval {A B} (m : M A) (k : A -> M B) s s1 t1 a :
  m s = (s1, t1, Normal a) ->
  bind m k s
  = (state_of (k a s1), t1 ++ trace_of (k a s1), completion_of (k a s1)).
Proof.
  intros H. unfold bind. rewrite H. now destruct (k a s1) as [[s2 t2] r].
Qed.

(** ** Losing the daemon *)

Lemma _onNameOwnerChanged_unclosing env :
  emits unclosing (_onNameOwnerChanged env).
Proof. unfold _onNameOwnerChanged. walk_emits; reflexivity. Qed.

Lemma _onNameOwnerChanged_stable I env :
  stable I -> preserves I (_onNameOwnerChanged env).
Proof.
  intros (Hd & Hn & _). unfold _onNameOwnerChanged.
  repeat first
    [ apply preserves_modify; intros ? ?; first [now apply Hd|now apply Hn]
    | progress walk_preserves ].
Qed.

Lemma stable_open O : stable (fun s => open_muxers s = O).
Proof. repeat split; intros; assumption. Qed.

Lemma stable_handler h : stable (fun s => name_owner_handler s = h).
Proof. repeat split; intros; assumption. Qed.

Lemma unbind_loop_devices values s :
  _devices (state_of (for_of values unbind_body s))
  = fold_left (fun acc v => Map.delete (g_object_path v) acc) values
              (_devices s).
Proof.
  revert s. induction values as [|v r IH]; intros s; simpl; [reflexivity|].
  unfold unbind_body at 1.
  erewrite state_bind_normal by reflexivity.
  now rewrite IH.
Qed.

Lemma fold_delete_In (vs : list Device) (acc : Map.t Device) k v :
  In (k, v) (fold_left (fun acc d => Map.delete (g_object_path d) acc) vs acc)
  -> In (k, v) acc /\ ~ In k (map g_object_path vs).
Proof.
  revert acc. induction vs as [|d r IH]; intros acc; simpl; [tauto|].
  intros Hin. apply IH in Hin. destruct Hin as [Hin Hni].
  apply In_delete in Hin. intuition congruence.
Qed.

Lemma fold_delete_all (ds : Map.t Device) :
  (forall k d, In (k, d) ds -> g_object_path d = k) ->
  fold_left (fun acc d => Map.delete (g_object_path d) acc) (Map.values ds) ds
  = [].
Proof.
  intros Hpath.
  destruct (fold_left _ (Map.values ds) ds) as [|[k v] rest] eqn:E;
    [reflexivity|exfalso].
  assert (Hin : In (k, v) (fold_left
             (fun acc d => Map.delete (g_object_path d) acc)
             (Map.values ds) ds)) by (rewrite E; now left).
  apply fold_delete_In in Hin. destruct Hin as [Hin Hni].
  apply Hni. rewrite keys_values_path by assumption.
  change k with (fst (k, v)). now apply in_map.
Qed.

Lemma unbind_devices env s :
  wf s -> g_name_owner s = None ->
  _devices (state_of (_onNameOwnerChanged env s)) = [].
Proof.
  intros Hwf Howner.
  assert (Hloop : exists s1 t,
             for_of (Map.values (_devices s)) unbind_body s
             = (s1, t, Normal tt)).
  { apply for_of_normal. intros v s0. unfold unbind_body, bind, emit, modify.
    eauto. }
  destruct Hloop as (s1 & t & Hloop).
  pose proof (unbind_loop_devices (Map.values (_devices s)) s) as Hd.
  rewrite Hloop in Hd. simpl in Hd.
  rewrite fold_delete_all in Hd by apply Hwf.
  unfold _onNameOwnerChanged, try_catch.
  rewrite bind_gets_eval, Howner. simpl.
  rewrite bind_gets_eval.
  fold unbind_body.
  erewrite bind_normal_eval by exact Hloop.
  unfold _getManagedObjects, bind, emit, await_value.
  destruct (managed_objects env); exact Hd.
Qed.

Lemma dispatch_notify env owner s h :
  name_owner_handler s = Some h ->
  dispatch env (notify_g_name_owner owner) s
  = _onNameOwnerChanged env (set_name_owner owner s).
Proof.
  intros Hh. unfold dispatch.
  rewrite bind_modify_eval, bind_gets_eval. simpl. now rewrite Hh.
Qed.

(** C2: when the name owner is lost the tracked devices are dropped from
    the map, but no muxer is closed: a muxer a device held stays open, and
    it is still open after the daemon is bound again. *)
Theorem unbind_leaves_channels_open env env' owner s h k d m :
  reachable s ->
  name_owner_handler s = Some h ->
  Map.get k (_devices s) = Some d ->
  _muxer d = Some m ->
  let r1 := dispatch env (notify_g_name_owner None) s in
  let r2 := dispatch env' (notify_g_name_owner (Some owner)) (state_of r1) in
  _devices (state_of r1) = [] /\
  count is_MuxerClose (trace_of r1) = 0 /\
  count is_MuxerClose (trace_of r2) = 0 /\
  In m (open_muxers (state_of r1)) /\
  In m (open_muxers (state_of r2)).
Proof.
  intros Hr Hh Hget Hm r1 r2.
  pose proof (reachable_wf s Hr) as Hwf.
  assert (Hopen : In m (open_muxers s)).
  { apply (wf_held s Hwf k d); [now apply get_In|assumption]. }
  assert (E1 : r1 = _onNameOwnerChanged env (set_name_owner None s))
    by (apply dispatch_notify with (h := h); assumption).
  assert (Hh1 : name_owner_handler (state_of r1) = Some h).
  { rewrite E1.
    apply (_onNameOwnerChanged_stable _ env (stable_handler (Some h))).
    exact Hh. }
  assert (Ho1 : open_muxers (state_of r1) = open_muxers s).
  { rewrite E1.
    now apply (_onNameOwnerChanged_stable _ env (stable_open (open_muxers s))). }
  assert (E2 : r2 = _onNameOwnerChanged env'
                      (set_name_owner (Some owner) (state_of r1)))
    by (apply dispatch_notify with (h := h); assumption).
  assert (Ho2 : open_muxers (state_of r2) = open_muxers s).
  { rewrite E2.
    apply (_onNameOwnerChanged_stable _ env' (stable_open (open_muxers s))).
    exact Ho1. }
  repeat split.
  - rewrite E1. apply unbind_devices; [|reflexivity].
    now apply wf_ext with (s := s).
  - rewrite E1. apply count_zero. apply _onNameOwnerChanged_unclosing.
  - rewrite E2. apply count_zero. apply _onNameOwnerChanged_unclosing.
  - now rewrite Ho1.
  - now rewrite Ho2.
Qed.

(** ** Teardown *)

Lemma proxy_close_eval k s :
  proxy_close (Some k) s =
  match Map.get k (_devices s) with
  | Some d =>
      match _muxer d with
      | Some m =>
          (set_devices (Map.set k (with_muxer d None))
             (set_muxers (remove Nat.eq_dec m (open_muxers s))
                         (next_muxer s) s),
           [Debug ("GSConnect: Disconnecting " ++ Alias d); MuxerClose m],
           Normal tt)
      | None => (s, [], Normal tt)
      end
  | None => (s, [], Throw (TypeError "bludev is undefined"))
  end.
Proof.
  unfold proxy_close, deref, bind at 1 2, gets at 1. simpl.
  destruct (Map.get k (_devices s)) as [d|] eqn:Hget; [|reflexivity].
  simpl. destruct (_muxer d) as [m|]; [|reflexivity].
  unfold muxer_close, write_muxer, deref, bind, emit, modify, gets, ret.
  simpl. rewrite Hget. reflexivity.
Qed.

Lemma close_all_normal keys s :
  (forall k, In k keys -> In k (Map.keys (_devices s))) ->
  exists s1 t, close_all keys s = (s1, t, Normal tt).
Proof.
  unfold close_all. revert s.
  induction keys as [|k r IH]; intros s Hin; simpl.
  - unfold ret. eauto.
  - assert (Hstep : exists s1 t,
               proxy_close (Some k) s = (s1, t, Normal tt) /\
               Map.keys (_devices s1) = Map.keys (_devices s)).
    { rewrite proxy_close_eval.
      destruct (Map.get k (_devices s)) as [d|] eqn:Hget.
      - destruct (_muxer d); [|eauto].
        do 2 eexists. split; [reflexivity|]. simpl.
        apply keys_set_present. apply Hin. now left.
      - apply get_None_keys in Hget. exfalso. apply Hget, Hin. now left. }
    destruct Hstep as (s1 & t1 & Hstep & Hkeys).
    destruct (IH s1) as (s2 & t2 & Hrest).
    { intros k' Hk'. rewrite Hkeys. apply Hin. now right. }
    unfold bind. rewrite Hstep, Hrest. eauto.
Qed.

Lemma close_all_closing keys : emits closing (close_all keys).
Proof.
  unfold close_all, proxy_close. walk_emits; exact I.
Qed.

Lemma close_all_untouched I keys :
  untouched_by_close I -> preserves I (close_all keys).
Proof.
  intros (Hd & Hm). unfold close_all, proxy_close, muxer_close, write_muxer.
  repeat first
    [ apply preserves_modify; intros ? ?; first [now apply Hd|now apply Hm]
    | progress walk_preserves ].
Qed.

Lemma service_disconnect_eval id s :
  exists s0,
    service_disconnect id s = (s0, [ServiceDisconnect id], Normal tt) /\
    _devices s0 = _devices s /\ _profile s0 = _profile s /\
    _profileManager s0 = _profileManager s /\
    _nameOwnerChangedId s0 = _nameOwnerChangedId s.
Proof.
  unfold service_disconnect, bind, emit, modify. simpl.
  eexists. split; [reflexivity|].
  destruct id as [i|]; [|repeat split].
  destruct (name_owner_handler s) as [h|]; [|repeat split].
  destruct (i =? h)%nat; repeat split.
Qed.

Lemma release_bus_eval s :
  release_bus s =
  (match _profileManager s with
   | Some _ => set_profileManager None s
   | None => s
   end,
   match _profile s with Some _ => [ProfileDestroy] | None => [] end
   ++ match _profileManager s with
      | Some _ => [ProfileManagerDestroy]
      | None => []
      end,
   Normal tt).
Proof.
  unfold release_bus, bind, gets, emit, modify, ret. simpl.
  destruct (_profile s); simpl; destruct (_profileManager s); reflexivity.
Qed.

Lemma destroy_run s s0 s1 t :
  service_disconnect (_nameOwnerChangedId s) s
  = (s0, [ServiceDisconnect (_nameOwnerChangedId s)], Normal tt) ->
  close_all (Map.keys (_devices s0)) s0 = (s1, t, Normal tt) ->
  destroy s =
  (match _profileManager s1 with
   | Some _ => set_profileManager None s1
   | None => s1
   end,
   ServiceDisconnect (_nameOwnerChangedId s) :: t
   ++ match _profile s1 with Some _ => [ProfileDestroy] | None => [] end
   ++ match _profileManager s1 with
      | Some _ => [ProfileManagerDestroy]
      | None => []
      end,
   Normal tt).
Proof.
  intros Hdisc Hloop.
  change (destroy s) with
    ((id <- gets _nameOwnerChangedId ;;
      service_disconnect id ;;
      keys <- gets (fun s => Map.keys (_devices s)) ;;
      close_all keys ;;
      release_bus) s).
  rewrite bind_gets_eval.
  erewrite bind_normal_eval by exact Hdisc.
  rewrite bind_gets_eval.
  erewrite bind_normal_eval by exact Hloop.
  rewrite release_bus_eval. reflexivity.
Qed.

Lemma destroy_eval s :
  exists s1 t,
    Forall closing t /\
    _profile s1 = _profile s /\
    _profileManager s1 = _profileManager s /\
    _nameOwnerChangedId s1 = _nameOwnerChangedId s /\
    destroy s =
      (match _profileManager s with
       | Some _ => set_profileManager None s1
       | None => s1
       end,
       ServiceDisconnect (_nameOwnerChangedId s) :: t
       ++ match _profile s with Some _ => [ProfileDestroy] | None => [] end
       ++ match _profileManager s with
          | Some _ => [ProfileManagerDestroy]
          | None => []
          end,
       Normal tt).
Proof.
  destruct (service_disconnect_eval (_nameOwnerChangedId s) s)
    as (s0 & Hdisc & Hd0 & Hp0 & Hm0 & Hi0).
  destruct (close_all_normal (Map.keys (_devices s0)) s0) as (s1 & t & Hloop);
    [auto|].
  exists s1, t.
  assert (Ht : Forall closing t).
  { pose proof (close_all_closing (Map.keys (_devices s0)) s0) as H.
    now rewrite Hloop in H. }
  assert (Hkeep : forall {A} (f : ChannelService -> A), 
             (forall g x, f (set_devices g x) = f x) ->
             (forall o n x, f (set_muxers o n x) = f x) ->
             f s1 = f s0).
  { intros A f Hfd Hfm.
    pose proof (close_all_untouched (fun x => f x = f s0)
                  (Map.keys (_devices s0))) as H.
    assert (Hu : untouched_by_close (fun x => f x = f s0)).
    { split; intros; [rewrite Hfd|rewrite Hfm]; assumption. }
    specialize (H Hu s0 eq_refl). now rewrite Hloop in H. }
  assert (Hp1 : _profile s1 = _profile s).
  { rewrite <- Hp0. apply Hkeep; reflexivity. }
  assert (Hm1 : _profileManager s1 = _profileManager s).
  { rewrite <- Hm0. apply Hkeep; reflexivity. }
  assert (Hi1 : _nameOwnerChangedId s1 = _nameOwnerChangedId s).
  { rewrite <- Hi0. apply Hkeep; reflexivity. }
  repeat split; try assumption.
  rewrite (destroy_run s s0 s1 t Hdisc Hloop).
  now rewrite Hp1, Hm1.
Qed.

Lemma count_app p t1 t2 : count p (t1 ++ t2) = count p t1 + count p t2.
Proof. unfold count. now rewrite filter_app, length_app. Qed.

(** C9: [destroy] called a second time calls [destroy] on the exported
    profile again and disconnects the name-owner handler again; only the
    profile manager, whose field is set to null, is released once. *)
Theorem destroy_twice s profile_path manager :
  _profile s = Some profile_path ->
  _profileManager s = Some manager ->
  let r1 := destroy s in
  let r2 := destroy (state_of r1) in
  count is_ProfileDestroy (trace_of r1) = 1 /\
  count is_ProfileDestroy (trace_of r2) = 1 /\
  In (ServiceDisconnect (_nameOwnerChangedId s)) (trace_of r1) /\
  In (ServiceDisconnect (_nameOwnerChangedId s)) (trace_of r2) /\
  In ProfileManagerDestroy (trace_of r1) /\
  ~ In ProfileManagerDestroy (trace_of r2).
Proof.
  intros Hp Hm r1 r2.
  destruct (destroy_eval s) as (s1 & t1 & Ht1 & Hp1 & Hm1 & Hi1 & E1).
  assert (Es : state_of r1 = set_profileManager None s1).
  { subst r1. rewrite E1, Hm. reflexivity. }
  destruct (destroy_eval (state_of r1))
    as (s2 & t2 & Ht2 & Hp2 & Hm2 & Hi2 & E2).
  rewrite Es in Hp2, Hm2, Hi2, E2. simpl in Hp2, Hm2, Hi2, E2.
  rewrite Hp1, Hp in E2. rewrite Hi1 in E2.
  assert (Hc : forall t, Forall closing t -> count is_ProfileDestroy t = 0).
  { intros t Ht. apply count_zero. eapply Forall_impl; [|exact Ht].
    intros [] H; try reflexivity; destruct H. }
  assert (Hn : forall t, Forall closing t -> ~ In ProfileManagerDestroy t).
  { intros t Ht Hin. rewrite Forall_forall in Ht. exact (Ht _ Hin). }
  subst r2. rewrite Es. subst r1. rewrite E1, E2, Hp, Hm.
  unfold trace_of. simpl.
  repeat split.
  - change (ServiceDisconnect (_nameOwnerChangedId s)
            :: t1 ++ [ProfileDestroy; ProfileManagerDestroy])
      with ([ServiceDisconnect (_nameOwnerChangedId s)]
            ++ t1 ++ [ProfileDestroy; ProfileManagerDestroy]).
    rewrite !count_app, (Hc t1 Ht1). reflexivity.
  - change (ServiceDisconnect (_nameOwnerChangedId s)
            :: t2 ++ [ProfileDestroy])
      with ([ServiceDisconnect (_nameOwnerChangedId s)]
            ++ t2 ++ [ProfileDestroy]).
    rewrite !count_app, (Hc t2 Ht2). reflexivity.
  - now left.
  - now left.
  - right. apply in_or_app. right. simpl. tauto.
  - intros [H|H]; [discriminate|].
    apply in_app_or in H. destruct H as [H|[H|[]]];
      [exact (Hn t2 Ht2 H)|discriminate].
Qed.

(** ** What an add and a removal do to the map *)

Lemma added_eval env object_path interfaces s i :
  Map.get object_path (_devices s) = None ->
  device_proxy env object_path = Some i ->
  In DEVICE_INTERFACE interfaces ->
  _onInterfacesAdded env object_path interfaces s
  = (set_devices
       (Map.set object_path (new_proxy object_path i (next_handler s)))
       (set_next_handler (S (next_handler s)) s),
     [ProxyConnect object_path (next_handler s); NotifyDevices],
     Normal tt).
Proof.
  intros Hget Hproxy Hin. unfold _onInterfacesAdded, try_catch.
  match goal with
  | |- context [for_of interfaces ?b] => set (body := b)
  end.
  assert (Hloop : for_of interfaces body s
    = (set_devices
         (Map.set object_path (new_proxy object_path i (next_handler s)))
         (set_next_handler (S (next_handler s)) s),
       [ProxyConnect object_path (next_handler s); NotifyDevices],
       Normal tt)); [|now rewrite Hloop].
  induction interfaces as [|x r IH]; [destruct Hin|].
  simpl. destruct (String.eqb_spec x DEVICE_INTERFACE) as [Hx|Hx].
  - (* the device interface: the proxy is stored, the rest is skipped *)
    assert (Hbody : body x s
      = (set_devices
           (Map.set object_path (new_proxy object_path i (next_handler s)))
           (set_next_handler (S (next_handler s)) s),
         [ProxyConnect object_path (next_handler s); NotifyDevices],
         Normal tt)).
    { subst body. simpl. subst x. rewrite String.eqb_refl. simpl.
      unfold _getDeviceProxy, Map.has, bind, gets, modify, emit, ret.
      simpl. rewrite Hget, Hproxy. reflexivity. }
    erewrite bind_normal_eval by exact Hbody.
    rewrite for_of_noop; [reflexivity|].
    intros y. subst body. simpl.
    destruct (negb (y =? DEVICE_INTERFACE)); [reflexivity|].
    unfold bind, gets, Map.has. simpl. now rewrite get_set_eq.
  - assert (Hbody : body x s = (s, [], Normal tt)).
    { subst body. simpl. apply String.eqb_neq in Hx. now rewrite Hx. }
    erewrite bind_normal_eval by exact Hbody.
    rewrite IH; [reflexivity|]. destruct Hin as [Hin|Hin]; [|exact Hin].
    now contradiction Hx.
Qed.

Lemma RequestDisconnection_eval object_path s d :
  Map.get object_path (_devices s) = Some d ->
  RequestDisconnection object_path s
  = (state_of (proxy_close (Some object_path) s),
     Debug object_path :: trace_of (proxy_close (Some object_path) s),
     Normal tt).
Proof.
  intros Hget. unfold RequestDisconnection.
  rewrite bind_emit_eval. unfold try_catch, devices_get.
  rewrite bind_gets_eval. unfold Map.has. rewrite Hget.
  rewrite proxy_close_eval, Hget.
  destruct (_muxer d); reflexivity.
Qed.

Lemma removed_eval object_path interfaces s d :
  Map.get object_path (_devices s) = Some d ->
  In DEVICE_INTERFACE interfaces ->
  let closed := proxy_close (Some object_path) s in
  _onInterfacesRemoved object_path interfaces s
  = (set_devices (Map.delete object_path) (state_of closed),
     ProxyDisconnect object_path (__deviceChangedId d)
     :: Debug object_path :: trace_of closed ++ [NotifyDevices],
     Normal tt).
Proof.
  intros Hget Hin closed. unfold _onInterfacesRemoved, try_catch.
  destruct interfaces as [|x0 r0] eqn:Hi; [destruct Hin|].
  rewrite <- Hi in *. replace (length interfaces =? 0)%nat with false
    by (now rewrite Hi).
  clear Hi x0 r0.
  match goal with
  | |- context [for_of interfaces ?b] => set (body := b)
  end.
  assert (Hloop : for_of interfaces body s
    = (set_devices (Map.delete object_path) (state_of closed),
       ProxyDisconnect object_path (__deviceChangedId d)
       :: Debug object_path :: trace_of closed ++ [NotifyDevices],
       Normal tt)); [|now rewrite Hloop].
  induction interfaces as [|x r IH]; [destruct Hin|].
  simpl. destruct (String.eqb_spec x DEVICE_INTERFACE) as [Hx|Hx].
  - assert (Hbody : body x s
      = (set_devices (Map.delete object_path) (state_of closed),
         ProxyDisconnect object_path (__deviceChangedId d)
         :: Debug object_path :: trace_of closed ++ [NotifyDevices],
         Normal tt)).
    { subst body. simpl. subst x. rewrite String.eqb_refl. simpl.
      rewrite bind_gets_eval, Hget. rewrite bind_emit_eval.
      erewrite bind_normal_eval
        by (apply (RequestDisconnection_eval object_path s d); exact Hget).
      rewrite bind_modify_eval. unfold emit. simpl.
      reflexivity. }
    erewrite bind_normal_eval by exact Hbody.
    rewrite for_of_noop;
      [unfold state_of, trace_of, completion_of; simpl;
       now rewrite app_nil_r|].
    intros y. subst body. simpl.
    destruct (negb (y =? DEVICE_INTERFACE)); [reflexivity|].
    rewrite bind_gets_eval. simpl. now rewrite get_delete_eq.
  - assert (Hbody : body x s = (s, [], Normal tt)).
    { subst body. simpl. apply String.eqb_neq in Hx. now rewrite Hx. }
    erewrite bind_normal_eval by exact Hbody.
    rewrite IH; [reflexivity|]. destruct Hin as [Hin|Hin]; [|exact Hin].
    now contradiction Hx.
Qed.

Lemma proxy_close_keys k s :
  Map.keys (_devices (state_of (proxy_close (Some k) s)))
  = Map.keys (_devices s).
Proof.
  rewrite proxy_close_eval.
  destruct (Map.get k (_devices s)) as [d|] eqn:Hget; [|reflexivity].
  destruct (_muxer d); [|reflexivity].
  simpl. apply keys_set_present.
  destruct (in_dec string_dec k (Map.keys (_devices s))) as [H|H];
    [exact H|].
  apply get_None_keys in H. congruence.
Qed.


(** ** Connection attempts *)

(** X1: [_connectDevice] never throws and never changes the service: a
    rejected ConnectProfile is swallowed.  It makes one ConnectProfile
    request, for the device's own path and the service UUID, when the slot
    is null and the device is paired, and none otherwise. *)
Theorem connect_attempt env bludev s :
  let r := _connectDevice env bludev s in
  state_of r = s /\
  completion_of r = Normal tt /\
  filter is_ConnectProfile (trace_of r)
  = match _muxer bludev with
    | Some _ => []
    | None =>
        if Paired bludev
        then [ConnectProfile (g_object_path bludev)
                             "185f3df4-3268-4e3f-9fca-d4d5059915bd"]
        else []
    end.
Proof.
  unfold _connectDevice, try_catch, bind, emit, await, ret, throw,
    state_of, trace_of, completion_of.
  destruct (_muxer bludev); [repeat split|].
  destruct (Paired bludev); [|repeat split].
  destruct (connect_profile env (g_object_path bludev)); repeat split.
Qed.

Lemma _connectDevice_completion env bludev s :
  completion_of (_connectDevice env bludev s) = Normal tt.
Proof.
  unfold _connectDevice, try_catch, bind, emit, await, ret, throw,
    completion_of.
  destruct (_muxer bludev); [reflexivity|].
  destruct (Paired bludev); [|reflexivity].
  destruct (connect_profile env (g_object_path bludev)); reflexivity.
Qed.

(** X2: [broadcast] for a path that is not tracked makes no call at all;
    for a tracked path it runs [_connectDevice] on the stored proxy.  In
    both cases the service is unchanged and nothing is thrown. *)
Theorem broadcast_attempt env object_path s :
  let r := broadcast env object_path s in
  state_of r = s /\
  completion_of r = Normal tt /\
  trace_of r
  = match Map.get object_path (_devices s) with
    | Some bludev => trace_of (_connectDevice env bludev s)
    | None => []
    end.
Proof.
  unfold broadcast, try_catch. rewrite bind_gets_eval.
  destruct (Map.get object_path (_devices s)) as [bludev|];
    [|repeat split].
  pose proof (_connectDevice_state env bludev s) as Hs.
  pose proof (_connectDevice_completion env bludev s) as Hc.
  destruct (_connectDevice env bludev s) as [[s1 t1] c].
  unfold state_of, completion_of, trace_of in *. simpl in *.
  subst. repeat split.
Qed.

(** ** Disconnection requests *)

Lemma remove_gone (m : nat) l : ~ In m (remove Nat.eq_dec m l).
Proof. apply remove_In. Qed.

(** X3: [RequestDisconnection] for a tracked device that holds a muxer
    closes that muxer and clears the slot; asked again, it closes nothing.
    It never throws. *)
Theorem RequestDisconnection_once object_path s d m :
  Map.get object_path (_devices s) = Some d ->
  _muxer d = Some m ->
  let r1 := RequestDisconnection object_path s in
  let r2 := RequestDisconnection object_path (state_of r1) in
  trace_of r1 = [Debug object_path;
                 Debug ("GSConnect: Disconnecting " ++ Alias d);
                 MuxerClose m] /\
  completion_of r1 = Normal tt /\
  Map.get object_path (_devices (state_of r1)) = Some (with_muxer d None) /\
  ~ In m (open_muxers (state_of r1)) /\
  r2 = (state_of r1, [Debug object_path], Normal tt).
Proof.
  intros Hget Hm r1 r2.
  assert (E1 : r1 =
    (set_devices (Map.set object_path (with_muxer d None))
       (set_muxers (remove Nat.eq_dec m (open_muxers s)) (next_muxer s) s),
     [Debug object_path; Debug ("GSConnect: Disconnecting " ++ Alias d);
      MuxerClose m], Normal tt)).
  { subst r1. rewrite (RequestDisconnection_eval object_path s d Hget).
    rewrite proxy_close_eval, Hget, Hm. reflexivity. }
  subst r2. rewrite E1. unfold state_of, trace_of, completion_of. simpl.
  repeat split.
  - apply get_set_eq.
  - apply remove_gone.
  - erewrite RequestDisconnection_eval by (simpl; apply get_set_eq).
    rewrite proxy_close_eval. simpl. rewrite get_set_eq. reflexivity.
Qed.

(** X4: [RequestDisconnection] for a path that is not tracked, or for a
    device whose slot is null, changes nothing and calls nothing but
    [debug]. *)
Theorem RequestDisconnection_idle object_path s :
  (forall d, Map.get object_path (_devices s) = Some d -> _muxer d = None) ->
  RequestDisconnection object_path s = (s, [Debug object_path], Normal tt).
Proof.
  intros Hslot.
  destruct (Map.get object_path (_devices s)) as [d|] eqn:Hget.
  - rewrite (RequestDisconnection_eval object_path s d Hget).
    rewrite proxy_close_eval, Hget, (Hslot d eq_refl). reflexivity.
  - unfold RequestDisconnection. rewrite bind_emit_eval.
    unfold try_catch, devices_get. rewrite bind_gets_eval.
    unfold Map.has. rewrite Hget. reflexivity.
Qed.

(** ** Notifications that are not about a device *)

Lemma eqb_not_In x (l : list string) y :
  ~ In x l -> In y l -> (y =? x) = false.
Proof.
  intros Hni Hin. apply String.eqb_neq. intros ->. contradiction.
Qed.

Lemma for_of_noop_In {A} (l : list A) (body : A -> M unit) s :
  (forall x, In x l -> body x s = (s, [], Normal tt)) ->
  for_of l body s = (s, [], Normal tt).
Proof.
  induction l as [|x r IH]; intros Hb; simpl; [reflexivity|].
  unfold bind. rewrite Hb by now left.
  rewrite IH; [reflexivity|]. intros y Hy. apply Hb. now right.
Qed.

(** X5: an object whose interfaces do not include org.bluez.Device1 is
    ignored by both handlers, and a signal with any other name is ignored
    by [vfunc_g_signal]: the service is unchanged and no call is made. *)
Theorem only_devices_are_handled env signal_name object_path interfaces s :
  (~ In DEVICE_INTERFACE interfaces ->
   _onInterfacesAdded env object_path interfaces s = (s, [], Normal tt) /\
   _onInterfacesRemoved object_path interfaces s = (s, [], Normal tt)) /\
  (signal_name <> "InterfacesAdded" ->
   signal_name <> "InterfacesRemoved" ->
   vfunc_g_signal env signal_name (object_path, interfaces) s
   = (s, [], Normal tt)).
Proof.
  split.
  - intros Hni. split.
    + unfold _onInterfacesAdded, try_catch.
      rewrite for_of_noop_In; [reflexivity|].
      intros x Hx. now rewrite (eqb_not_In _ _ _ Hni Hx).
    + unfold _onInterfacesRemoved, try_catch.
      destruct (length interfaces =? 0)%nat; [reflexivity|].
      rewrite for_of_noop_In; [reflexivity|].
      intros x Hx. now rewrite (eqb_not_In _ _ _ Hni Hx).
  - intros Ha Hr. unfold vfunc_g_signal, try_catch.
    rewrite bind_gets_eval.
    apply String.eqb_neq in Ha. apply String.eqb_neq in Hr.
    simpl. now rewrite Ha, Hr.
Qed.

(** ** Proxies that cannot be built *)

(** X6: when the proxy for a new device cannot be initialised,
    [_onInterfacesAdded] logs a warning and skips the object: the service
    is unchanged, no handler is connected and notify::devices is not
    emitted.  Nothing is thrown. *)
Theorem proxy_failure_is_skipped env object_path interfaces s :
  device_proxy env object_path = None ->
  let r := _onInterfacesAdded env object_path interfaces s in
  state_of r = s /\
  completion_of r = Normal tt /\
  Forall (fun e => is_Warning e = true) (trace_of r) /\
  (Map.get object_path (_devices s) = None ->
   In DEVICE_INTERFACE interfaces ->
   In (Warning (GError "proxy") None) (trace_of r)).
Proof.
  intros Hproxy r. subst r. unfold _onInterfacesAdded, try_catch.
  match goal with
  | |- context [for_of interfaces ?b] => set (body := b)
  end.
  set (w := fun x : string =>
              if (x =? DEVICE_INTERFACE)
                 && negb (Map.has object_path (_devices s))
              then [Warning (GError "proxy") None] else []).
  assert (Hbody : forall x, body x s = (s, w x, Normal tt)).
  { intros x. subst body w. simpl.
    destruct (x =? DEVICE_INTERFACE); [|reflexivity].
    simpl. rewrite bind_gets_eval.
    destruct (Map.has object_path (_devices s)); [reflexivity|].
    unfold _getDeviceProxy. rewrite Hproxy. reflexivity. }
  assert (Hloop : for_of interfaces body s
                  = (s, flat_map w interfaces, Normal tt)).
  { clearbody body. induction interfaces as [|x l IH]; [reflexivity|].
    simpl. erewrite bind_normal_eval by apply Hbody. now rewrite IH. }
  rewrite Hloop. unfold state_of, completion_of, trace_of. simpl.
  repeat split.
  - apply Forall_forall. intros e He. apply in_flat_map in He.
    destruct He as (x & _ & He). subst w. simpl in He.
    destruct ((x =? DEVICE_INTERFACE)
              && negb (Map.has object_path (_devices s)));
      [destruct He as [<-|[]]; reflexivity|destruct He].
  - intros Hget Hin. apply in_flat_map. exists DEVICE_INTERFACE.
    split; [exact Hin|]. subst w. simpl. unfold Map.has. rewrite Hget.
    now left.
Qed.

(** ** Removal of a device *)

(** X7: removing a tracked device disconnects its property handler with
    the id stored on the proxy, closes the muxer in its slot if there is
    one, drops the device from the map and emits notify::devices once, in
    that order, however often the device interface is listed. *)
Theorem removal_closes_channel object_path interfaces s d :
  Map.get object_path (_devices s) = Some d ->
  In DEVICE_INTERFACE interfaces ->
  let r := _onInterfacesRemoved object_path interfaces s in
  completion_of r = Normal tt /\
  trace_of r
  = ProxyDisconnect object_path (__deviceChangedId d)
    :: Debug object_path
    :: match _muxer d with
       | Some m => [Debug ("GSConnect: Disconnecting " ++ Alias d);
                    MuxerClose m]
       | None => []
       end ++ [NotifyDevices] /\
  Map.get object_path (_devices (state_of r)) = None /\
  open_muxers (state_of r)
  = match _muxer d with
    | Some m => remove Nat.eq_dec m (open_muxers s)
    | None => open_muxers s
    end /\
  (forall m, _muxer d = Some m -> ~ In m (open_muxers (state_of r))).
Proof.
  intros Hget Hin r. subst r.
  rewrite (removed_eval object_path interfaces s d Hget Hin).
  rewrite proxy_close_eval, Hget.
  unfold state_of, trace_of, completion_of.
  destruct (_muxer d) as [m|]; simpl; repeat split.
  - apply get_delete_eq.
  - intros m' [= <-]. apply remove_gone.
  - apply get_delete_eq.
  - discriminate.
Qed.

(** ** Inbound connections that fail *)

Lemma remove_fresh s :
  wf s ->
  remove Nat.eq_dec (next_muxer s) (next_muxer s :: open_muxers s)
  = open_muxers s.
Proof.
  intros Hwf. simpl.
  destruct (Nat.eq_dec (next_muxer s) (next_muxer s)); [|contradiction].
  apply notin_remove. intros Hin. apply (wf_fresh s Hwf) in Hin. lia.
Qed.


(** X9: when the socket cannot be made from the file descriptor, no muxer
    is constructed, and the catch block closes whatever muxer the device
    held before: an established channel is torn down by a failed inbound
    connection.  The error is logged with the alias and the slot is null
    afterwards. *)
Theorem NewConnection_bad_descriptor env object_path fd s d e :
  Map.get object_path (_devices s) = Some d ->
  socket_new_from_fd env fd = Some e ->
  let r := NewConnection env object_path fd s in
  completion_of r = Normal tt /\
  trace_of r
  = [Debug object_path; SocketNewFromFd fd]
    ++ match _muxer d with
       | Some m0 => [Debug ("GSConnect: Disconnecting " ++ Alias d);
                     MuxerClose m0]
       | None => []
       end
    ++ [Warning e (Some (Alias d))] /\
  next_muxer (state_of r) = next_muxer s /\
  (forall d', Map.get object_path (_devices (state_of r)) = Some d' ->
              _muxer d' = None) /\
  (forall m0, _muxer d = Some m0 -> ~ In m0 (open_muxers (state_of r))).
Proof.
  intros Hget Hsock r. subst r.
  unfold NewConnection, devices_get, Map.has, proxy_close, muxer_close,
    write_muxer, deref, bind, gets, modify, try_catch, emit, await, ret,
    throw.
  simpl. rewrite Hget, Hsock. simpl. rewrite Hget. simpl.
  destruct (_muxer d) as [m0|] eqn:Hm; simpl.
  - rewrite Hget. simpl. rewrite get_set_eq. simpl.
    unfold state_of, trace_of, completion_of. simpl.
    repeat split.
    + rewrite get_set_eq. now intros d' [= <-].
    + intros m' [= <-]. apply remove_gone.
  - rewrite Hget. simpl.
    unfold state_of, trace_of, completion_of. simpl.
    repeat split.
    + rewrite Hget. intros d' [= <-]. exact Hm.
    + discriminate.
Qed.

(** ** Connecting and disconnecting *)

Lemma set_same {V} k (v : V) m : Map.get k m = Some v -> Map.set k v m = m.
Proof.
  induction m as [|[k' v'] r IH]; simpl; [discriminate|].
  destruct (k' =? k) eqn:E.
  - apply String.eqb_eq in E. now intros [= ->]; subst.
  - intros H. now rewrite IH.
Qed.

Lemma set_set {V} k (v v' : V) m :
  Map.set k v' (Map.set k v m) = Map.set k v' m.
Proof.
  induction m as [|[k0 v0] r IH]; simpl.
  - now rewrite String.eqb_refl.
  - destruct (k0 =? k) eqn:E; simpl.
    + now rewrite String.eqb_refl.
    + now rewrite E, IH.
Qed.

Lemma with_muxer_same d : with_muxer d (_muxer d) = d.
Proof. now destruct d. Qed.

Lemma NewConnection_ok_eval env object_path fd s d identity device :
  Map.get object_path (_devices s) = Some d ->
  socket_new_from_fd env fd = None ->
  negotiate env = Normal identity ->
  _ensureDevice env (annotated d identity) = Normal device ->
  NewConnection env object_path fd s
  = (set_devices (Map.set object_path (with_muxer d (Some (next_muxer s))))
       (set_muxers (next_muxer s :: open_muxers s) (S (next_muxer s)) s),
     [Debug object_path; SocketNewFromFd fd; MuxerNew (next_muxer s) fd;
      CancellableConnect (next_muxer s) object_path; Negotiate (next_muxer s);
      EnsureDevice (annotated d identity); Attach (next_muxer s) device],
     Normal tt).
Proof.
  intros Hget Hsock Hneg Hens.
  unfold NewConnection, devices_get, Map.has, write_muxer, deref,
    Multiplex_Connection, bind, gets, modify, try_catch, emit, await,
    await_value.
  unfold annotated in Hens |- *.
  repeat (progress (simpl;
                    rewrite ?Hget, ?Hsock, ?get_set_eq, ?Hneg, ?Hens)).
  reflexivity.
Qed.

(** X10: an inbound connection that succeeds on a device with a null slot,
    followed by a disconnection request for the device, leaves the device
    map and the set of open muxers exactly as they were; only the name of
    the next muxer has moved on. *)
Theorem connect_then_disconnect env object_path fd s d identity device :
  wf s ->
  Map.get object_path (_devices s) = Some d ->
  _muxer d = None ->
  socket_new_from_fd env fd = None ->
  negotiate env = Normal identity ->
  _ensureDevice env (annotated d identity) = Normal device ->
  let s1 := state_of (NewConnection env object_path fd s) in
  let r2 := RequestDisconnection object_path s1 in
  In (next_muxer s) (open_muxers s1) /\
  In (MuxerClose (next_muxer s)) (trace_of r2) /\
  _devices (state_of r2) = _devices s /\
  open_muxers (state_of r2) = open_muxers s /\
  next_muxer (state_of r2) = S (next_muxer s).
Proof.
  intros Hwf Hget Hm Hsock Hneg Hens s1 r2.
  assert (E1 : s1 =
    set_devices (Map.set object_path (with_muxer d (Some (next_muxer s))))
      (set_muxers (next_muxer s :: open_muxers s) (S (next_muxer s)) s)).
  { subst s1.
    now rewrite (NewConnection_ok_eval env object_path fd s d identity device
                   Hget Hsock Hneg Hens). }
  assert (Hget1 : Map.get object_path (_devices s1)
                  = Some (with_muxer d (Some (next_muxer s)))).
  { rewrite E1. simpl. apply get_set_eq. }
  assert (E2 : r2 =
    (set_devices (Map.set object_path
                    (with_muxer (with_muxer d (Some (next_muxer s))) None))
       (set_muxers (remove Nat.eq_dec (next_muxer s) (open_muxers s1))
                   (next_muxer s1) s1),
     [Debug object_path; Debug ("GSConnect: Disconnecting " ++ Alias d);
      MuxerClose (next_muxer s)], Normal tt)).
  { subst r2.
    rewrite (RequestDisconnection_eval object_path s1 _ Hget1).
    rewrite proxy_close_eval, Hget1. reflexivity. }
  split; [rewrite E1; now left|].
  split; [rewrite E2; simpl; tauto|].
  rewrite E2, E1. unfold state_of. simpl. repeat split.
  - rewrite set_set.
    replace (with_muxer (with_muxer d (Some (next_muxer s))) None)
      with d by (rewrite <- (with_muxer_same d) at 1; now rewrite Hm).
    now apply set_same.
  - destruct (Nat.eq_dec (next_muxer s) (next_muxer s)); [|contradiction].
    apply notin_remove. intros Hin. apply (wf_fresh s Hwf) in Hin. lia.
Qed.

(** X11: an inbound connection that succeeds on a device that already
    holds a muxer stores the new muxer over the old one without closing
    it: the old muxer is still open and no tracked device holds it any
    more. *)
Theorem NewConnection_over_existing env object_path fd s d m0 identity device :
  wf s ->
  Map.get object_path (_devices s) = Some d ->
  _muxer d = Some m0 ->
  socket_new_from_fd env fd = None ->
  negotiate env = Normal identity ->
  _ensureDevice env (annotated d identity) = Normal device ->
  let r := NewConnection env object_path fd s in
  count is_MuxerClose (trace_of r) = 0 /\
  In m0 (open_muxers (state_of r)) /\
  (forall k d', Map.get k (_devices (state_of r)) = Some d' ->
                _muxer d' <> Some m0).
Proof.
  intros Hwf Hget Hm Hsock Hneg Hens r.
  assert (E : r =
    (set_devices (Map.set object_path (with_muxer d (Some (next_muxer s))))
       (set_muxers (next_muxer s :: open_muxers s) (S (next_muxer s)) s),
     [Debug object_path; SocketNewFromFd fd; MuxerNew (next_muxer s) fd;
      CancellableConnect (next_muxer s) object_path; Negotiate (next_muxer s);
      EnsureDevice (annotated d identity); Attach (next_muxer s) device],
     Normal tt))
    by (apply NewConnection_ok_eval; assumption).
  assert (Hopen : In m0 (open_muxers s)).
  { apply (wf_held s Hwf object_path d); [now apply get_In|exact Hm]. }
  rewrite E. unfold state_of, trace_of. simpl.
  split; [reflexivity|]. split; [now right|].
  intros k d' Hget' Hm'.
  destruct (string_dec object_path k) as [<-|Hne].
  - rewrite get_set_eq in Hget'. injection Hget' as <-. simpl in Hm'.
    injection Hm' as <-. apply (wf_fresh s Hwf) in Hopen. lia.
  - rewrite get_set_ne in Hget' by assumption.
    apply Hne. symmetry.
    apply (wf_excl s Hwf k d' object_path d m0);
      [now apply get_In|now apply get_In|exact Hm'|exact Hm].
Qed.

(** ** Teardown closes every channel *)

Lemma proxy_close_slot k k' s :
  (k = k' \/
   forall d, Map.get k (_devices s) = Some d -> _muxer d = None) ->
  forall d, Map.get k (_devices (state_of (proxy_close (Some k') s))) = Some d
            -> _muxer d = None.
Proof.
  intros H d. rewrite proxy_close_eval. unfold state_of.
  destruct (Map.get k' (_devices s)) as [d'|] eqn:Hget'.
  - destruct (_muxer d') as [m|] eqn:Hm'; simpl.
    + destruct (string_dec k' k) as [Heq|Hne].
      * subst k'. rewrite get_set_eq. now intros [= <-].
      * rewrite get_set_ne by assumption.
        destruct H as [Heq|H]; [congruence|apply H].
    + destruct H as [Heq|H]; [|apply H].
      subst k'. rewrite Hget'. now intros [= <-].
  - simpl. destruct H as [Heq|H]; [|apply H].
    subst k'. now rewrite Hget'.
Qed.

Lemma close_all_slot keys k s :
  (In k keys \/
   forall d, Map.get k (_devices s) = Some d -> _muxer d = None) ->
  (forall k', In k' keys -> In k' (Map.keys (_devices s))) ->
  forall d, Map.get k (_devices (state_of (close_all keys s))) = Some d
            -> _muxer d = None.
Proof.
  revert s. induction keys as [|k' r IH]; intros s H Hin.
  - destruct H as [[]|H]. exact H.
  - destruct (close_all_normal [k'] s) as (s1 & t1 & H1).
    { intros x [<-|[]]. apply Hin. now left. }
    assert (E1 : proxy_close (Some k') s = (s1, t1, Normal tt)).
    { unfold close_all in H1. simpl in H1. unfold bind, ret in H1.
      destruct (proxy_close (Some k') s) as [[s2 t2] [[]|e]];
        [|discriminate].
      injection H1 as <- <-. now rewrite app_nil_r. }
    unfold close_all. simpl. fold (close_all r).
    intros d. erewrite state_bind_normal by exact E1.
    apply IH.
    + destruct (in_dec string_dec k r) as [Hr|Hr]; [now left|right].
      assert (Hs1 : s1 = state_of (proxy_close (Some k') s))
        by now rewrite E1.
      rewrite Hs1. apply proxy_close_slot.
      destruct H as [[->|Hk]|H]; [now left|contradiction|now right].
    + intros x Hx.
      assert (Hs1 : s1 = state_of (proxy_close (Some k') s))
        by now rewrite E1.
      rewrite Hs1, proxy_close_keys. apply Hin. now right.
Qed.

Lemma proxy_close_closed k' m s :
  ~ In m (open_muxers s) ->
  ~ In m (open_muxers (state_of (proxy_close (Some k') s))).
Proof.
  intros Hni. rewrite proxy_close_eval.
  destruct (Map.get k' (_devices s)) as [d'|]; [|exact Hni].
  destruct (_muxer d') as [m'|]; [|exact Hni].
  simpl. intros Hin. apply in_remove in Hin. tauto.
Qed.

Lemma close_all_closed keys m s :
  (forall k', In k' keys -> In k' (Map.keys (_devices s))) ->
  ~ In m (open_muxers s) ->
  ~ In m (open_muxers (state_of (close_all keys s))).
Proof.
  revert s. induction keys as [|k' r IH]; intros s Hin Hni; [exact Hni|].
  destruct (close_all_normal [k'] s) as (s1 & t1 & H1).
  { intros x [<-|[]]. apply Hin. now left. }
  assert (E1 : proxy_close (Some k') s = (s1, t1, Normal tt)).
  { unfold close_all in H1. simpl in H1. unfold bind, ret in H1.
    destruct (proxy_close (Some k') s) as [[s2 t2] [[]|e]]; [|discriminate].
    injection H1 as <- <-. now rewrite app_nil_r. }
  assert (Hs1 : s1 = state_of (proxy_close (Some k') s)) by now rewrite E1.
  unfold close_all. simpl. fold (close_all r).
  erewrite state_bind_normal by exact E1.
  apply IH.
  - intros x Hx. rewrite Hs1, proxy_close_keys. apply Hin. now right.
  - rewrite Hs1. now apply proxy_close_closed.
Qed.

Lemma close_all_closes keys k d m s :
  (forall k', In k' keys -> In k' (Map.keys (_devices s))) ->
  In k keys ->
  Map.get k (_devices s) = Some d -> _muxer d = Some m ->
  In (MuxerClose m) (trace_of (close_all keys s)) /\
  ~ In m (open_muxers (state_of (close_all keys s))).
Proof.
  revert s. induction keys as [|k' r IH]; intros s Hin Hk Hget Hm;
    [destruct Hk|].
  destruct (close_all_normal [k'] s) as (s1 & t1 & H1).
  { intros x [<-|[]]. apply Hin. now left. }
  assert (E1 : proxy_close (Some k') s = (s1, t1, Normal tt)).
  { unfold close_all in H1. simpl in H1. unfold bind, ret in H1.
    destruct (proxy_close (Some k') s) as [[s2 t2] [[]|e]]; [|discriminate].
    injection H1 as <- <-. now rewrite app_nil_r. }
  assert (Hs1 : s1 = state_of (proxy_close (Some k') s)) by now rewrite E1.
  assert (Hin1 : forall x, In x r -> In x (Map.keys (_devices s1))).
  { intros x Hx. rewrite Hs1, proxy_close_keys. apply Hin. now right. }
  unfold close_all. simpl. fold (close_all r).
  erewrite bind_normal_eval by exact E1.
  unfold trace_of at 1. unfold state_of at 1. simpl.
  destruct (string_dec k' k) as [->|Hne].
  - (* this iteration closes the muxer *)
    rewrite proxy_close_eval, Hget, Hm in E1.
    injection E1 as <- <-. split.
    + simpl. tauto.
    + apply close_all_closed.
      * intros x Hx. simpl. rewrite keys_set_present; [apply Hin; now right|].
        apply Hin. now left.
      * simpl. apply remove_gone.
  - destruct Hk as [Hk|Hk]; [contradiction|].
    assert (Hget1 : Map.get k (_devices s1) = Some d).
    { rewrite Hs1, proxy_close_eval.
      destruct (Map.get k' (_devices s)) as [d'|]; [|exact Hget].
      destruct (_muxer d'); [|exact Hget].
      simpl. now rewrite get_set_ne. }
    destruct (IH s1 Hin1 Hk Hget1 Hm) as [Ht Ho].
    split; [apply in_or_app; now right|exact Ho].
Qed.

Lemma service_disconnect_keeps id s :
  exists s0,
    service_disconnect id s = (s0, [ServiceDisconnect id], Normal tt) /\
    _devices s0 = _devices s /\ open_muxers s0 = open_muxers s /\
    name_owner_handler s0
    = match id, name_owner_handler s with
      | Some i, Some h => if (i =? h)%nat then None else Some h
      | _, h => h
      end.
Proof.
  unfold service_disconnect, bind, emit, modify. simpl.
  eexists. split; [reflexivity|].
  destruct id as [i|]; [|repeat split].
  destruct (name_owner_handler s) as [h|] eqn:Hh; [|repeat split; exact Hh].
  destruct (i =? h)%nat; repeat split. exact Hh.
Qed.

(** X12: [destroy] closes the muxer of every tracked device: each muxer a
    device held is closed through [muxer.close()] and is no longer open,
    every slot is null afterwards, the devices stay in the map, and the
    profile manager field is null.  [destroy] does not throw. *)
Theorem destroy_closes_all s :
  let r := destroy s in
  completion_of r = Normal tt /\
  Map.keys (_devices (state_of r)) = Map.keys (_devices s) /\
  _profileManager (state_of r) = None /\
  (forall k d, Map.get k (_devices (state_of r)) = Some d ->
               _muxer d = None) /\
  (forall k d m, Map.get k (_devices s) = Some d -> _muxer d = Some m ->
                 In (MuxerClose m) (trace_of r) /\
                 ~ In m (open_muxers (state_of r))).
Proof.
  intros r.
  destruct (service_disconnect_keeps (_nameOwnerChangedId s) s)
    as (s0 & Hdisc & Hd0 & Ho0 & _).
  destruct (close_all_normal (Map.keys (_devices s0)) s0) as (s1 & t & Hloop);
    [auto|].
  pose proof (destroy_run s s0 s1 t Hdisc Hloop) as E.
  assert (Hs1 : s1 = state_of (close_all (Map.keys (_devices s0)) s0))
    by now rewrite Hloop.
  assert (Hkeys : Map.keys (_devices s1) = Map.keys (_devices s)).
  { rewrite <- Hd0, Hs1. clear.
    assert (H : forall l s, (forall k, In k l -> In k (Map.keys (_devices s)))
              -> Map.keys (_devices (state_of (close_all l s)))
                 = Map.keys (_devices s)).
    { induction l as [|k r IH]; intros s Hin; [reflexivity|].
      destruct (close_all_normal [k] s) as (s1 & t1 & H1).
      { intros x [<-|[]]. apply Hin. now left. }
      assert (E1 : proxy_close (Some k) s = (s1, t1, Normal tt)).
      { unfold close_all in H1. simpl in H1. unfold bind, ret in H1.
        destruct (proxy_close (Some k) s) as [[s2 t2] [[]|e]];
          [|discriminate].
        injection H1 as <- <-. now rewrite app_nil_r. }
      assert (Hk : Map.keys (_devices s1) = Map.keys (_devices s)).
      { replace s1 with (state_of (proxy_close (Some k) s))
          by now rewrite E1.
        apply proxy_close_keys. }
      unfold close_all. simpl. fold (close_all r).
      erewrite state_bind_normal by exact E1.
      rewrite IH; [exact Hk|]. intros x Hx. rewrite Hk. apply Hin.
      now right. }
    apply H. auto. }
  assert (Hfields : _devices (state_of r) = _devices s1 /\
                    open_muxers (state_of r) = open_muxers s1 /\
                    _profileManager (state_of r) = None).
  { subst r. rewrite E. unfold state_of. simpl.
    destruct (_profileManager s1) eqn:Hpm; repeat split; exact Hpm. }
  destruct Hfields as (Hd & Ho & Hpm).
  split; [subst r; now rewrite E|].
  split; [now rewrite Hd|].
  split; [exact Hpm|].
  split.
  - intros k d Hget. rewrite Hd, Hs1 in Hget.
    revert d Hget. apply close_all_slot; [|auto].
    destruct (in_dec string_dec k (Map.keys (_devices s0))) as [Hin|Hni];
      [now left|right].
    intros d Hget. apply get_None_keys in Hni. congruence.
  - intros k d m Hget Hm.
    assert (Hk : In k (Map.keys (_devices s0))).
    { rewrite Hd0. change k with (fst (k, d)). apply in_map.
      now apply get_In. }
    rewrite <- Hd0 in Hget.
    destruct (close_all_closes (Map.keys (_devices s0)) k d m s0
                (fun _ H => H) Hk Hget Hm) as [Ht Hc].
    rewrite Hloop in Ht, Hc. unfold trace_of, state_of in Ht, Hc.
    simpl in Ht, Hc. split.
    + subst r. rewrite E. unfold trace_of. simpl. right.
      apply in_or_app. now left.
    + now rewrite Ho.
Qed.

(** ** The name-owner handler *)



Ltac preserves_step :=
  first
    [ apply preserves_ret | apply preserves_throw | apply preserves_gets
    | apply preserves_emit | apply preserves_await
    | apply preserves_await_value
    | apply preserves_bind | apply preserves_try_catch
    | apply preserves_for_of
    | match goal with
      | |- forall _, _ => intro
      | |- preserves _ (match ?x with _ => _ end) => destruct x
      | |- preserves _ (if ?x then _ else _) => destruct x
      end
    | progress unfold _getDeviceProxy, devices_get, deref,
        _getManagedObjects, Release ].








(** ** Exceptions *)

Lemma completion_logged (m : M unit) (log : Error -> Effect) s :
  completion_of (try_catch m (fun e => emit (log e)) s) = Normal tt.
Proof.
  unfold try_catch, emit, completion_of.
  destruct (m s) as [[s1 t1] [[]|e]]; reflexivity.
Qed.

Lemma completion_bind_emit {B} e (k : unit -> M B) s :
  completion_of (bind (emit e) k s) = completion_of (k tt s).
Proof. now rewrite bind_emit_eval. Qed.

Lemma has_set k k' (v : Device) m :
  Map.has k m = true -> Map.has k (Map.set k' v m) = true.
Proof.
  unfold Map.has. intros H.
  destruct (string_dec k' k) as [->|Hne].
  - now rewrite get_set_eq.
  - now rewrite get_set_ne.
Qed.

Lemma RequestDisconnection_completion object_path s :
  completion_of (RequestDisconnection object_path s) = Normal tt.
Proof.
  unfold RequestDisconnection. rewrite completion_bind_emit.
  apply (completion_logged _ (fun _ => Debug "error")).
Qed.

Lemma NewConnection_body_keeps env bludev fd k (rest : nat -> M unit) :
  (forall m, preserves (fun s => Map.has k (_devices s) = true) (rest m)) ->
  preserves (fun s => Map.has k (_devices s) = true)
    (emit (SocketNewFromFd fd) ;;
     await (socket_new_from_fd env fd) ;;
     m <- Multiplex_Connection fd ;;
     write_muxer bludev (Some m) ;;
     rest m).
Proof.
  intros Hrest. unfold Multiplex_Connection, write_muxer.
  repeat first
    [ apply Hrest
    | apply preserves_modify; intros ? ?;
      first [assumption|now apply has_set]
    | preserves_step ].
Qed.

Lemma NewConnection_tracked_completion env object_path fd s :
  Map.has object_path (_devices s) = true ->
  completion_of (NewConnection env object_path fd s) = Normal tt.
Proof.
  intros Hhas. unfold NewConnection. rewrite completion_bind_emit.
  unfold devices_get. rewrite bind_gets_eval, Hhas.
  match goal with
  | |- completion_of (try_catch ?b ?h s) = _ =>
      set (body := b); set (handler := h)
  end.
  assert (Hkeep : Map.has object_path (_devices (state_of (body s))) = true).
  { subst body. apply NewConnection_body_keeps; [|exact Hhas].
    intros m. unfold deref.
    repeat first [apply preserves_modify; intros ? ?; assumption
                 |preserves_step]. }
  unfold try_catch, completion_of, state_of in *.
  destruct (body s) as [[s1 t1] [[]|e]]; [reflexivity|].
  simpl in Hkeep. subst handler. simpl.
  unfold Map.has in Hkeep.
  destruct (Map.get object_path (_devices s1)) as [d|] eqn:Hget;
    [|discriminate].
  unfold bind at 1. rewrite proxy_close_eval, Hget.
  destruct (_muxer d); simpl.
  - unfold deref, bind, gets, emit. simpl. rewrite get_set_eq. reflexivity.
  - unfold deref, bind, gets, emit. simpl. rewrite Hget. reflexivity.
Qed.

(** X14: the only handler that lets an exception out is [NewConnection]
    for a path that is not tracked.  Every other event, and
    [NewConnection] for a tracked device whatever the socket, the
    handshake or the device manager answer, completes normally. *)
Theorem only_untracked_connection_throws env ev s :
  (forall object_path fd,
     ev = call_NewConnection object_path fd ->
     Map.has object_path (_devices s) = true) ->
  completion_of (dispatch env ev s) = Normal tt.
Proof.
  intros Htracked. destruct ev; simpl.
  - apply (completion_logged _ LogError).
  - rewrite bind_modify_eval, bind_gets_eval.
    destruct (name_owner_handler (set_name_owner owner s));
      [|reflexivity].
    apply (completion_logged _ LogError).
  - rewrite bind_gets_eval.
    destruct (Map.get object_path (_devices s)) as [proxy|]; [|reflexivity].
    rewrite bind_modify_eval. unfold _onDeviceChanged.
    destruct (ch_Connected changed) as [[|]|].
    + apply _connectDevice_completion.
    + apply RequestDisconnection_completion.
    + destruct (ch_ServicesResolved changed) as [[|]|];
        [apply _connectDevice_completion|reflexivity..].
  - reflexivity.
  - apply NewConnection_tracked_completion. now apply (Htracked _ fd).
  - apply RequestDisconnection_completion.
  - apply (completion_logged _ (fun _ => Debug object_path)).
  - destruct (destroy_eval s) as (s1 & t & _ & _ & _ & _ & E).
    now rewrite E.
Qed.

(** ** Construction *)

(** X15: when the first step of [_init_async] is rejected, a warning is
    logged and [destroy] runs on the bare object: it disconnects with an
    undefined handler id and releases nothing.  When the profile manager
    cannot be initialised, the proxy that was already stored is destroyed
    and the field reset to null.  In both cases no profile is exported, no
    name-owner handler is connected, no registration is requested and
    nothing is thrown. *)
Theorem init_failure env g_name e :
  let s := set_name_owner g_name constructed in
  (service_init env = Some e ->
   _init_async env s
   = (s, [Warning e (Some "GSConnect: Bluetooth Error");
          ServiceDisconnect None], Normal tt)) /\
  (service_init env = None -> profile_manager_init env = Some e ->
   let r := _init_async env s in
   trace_of r = [ProfileManagerNew;
                 Warning e (Some "GSConnect: Bluetooth Error");
                 ServiceDisconnect None; ProfileManagerDestroy] /\
   completion_of r = Normal tt /\
   _profileManager (state_of r) = None /\
   _profile (state_of r) = None /\
   name_owner_handler (state_of r) = None).
Proof.
  intros s. split.
  - intros Hinit. unfold _init_async, try_catch, bind at 1, await.
    rewrite Hinit. reflexivity.
  - intros Hinit Hpm r. subst r.
    unfold _init_async, try_catch, bind, await, emit, modify.
    rewrite Hinit, Hpm. repeat split.
Qed.

(** ** Enumeration on a bind *)

Lemma added_skip env object_path interfaces s :
  ~ In DEVICE_INTERFACE interfaces \/ Map.has object_path (_devices s) = true ->
  _onInterfacesAdded env object_path interfaces s = (s, [], Normal tt).
Proof.
  intros H. unfold _onInterfacesAdded, try_catch.
  rewrite for_of_noop_In; [reflexivity|].
  intros x Hx. destruct H as [Hni|Hhas].
  - now rewrite (eqb_not_In _ _ _ Hni Hx).
  - destruct (negb (x =? DEVICE_INTERFACE)); [reflexivity|].
    rewrite bind_gets_eval. now rewrite Hhas.
Qed.

Lemma added_failure_state env object_path interfaces s :
  device_proxy env object_path = None ->
  state_of (_onInterfacesAdded env object_path interfaces s) = s.
Proof.
  intros Hproxy. unfold _onInterfacesAdded, try_catch.
  match goal with
  | |- context [for_of interfaces ?b] => set (body := b)
  end.
  assert (Hbody : forall x, exists t, body x s = (s, t, Normal tt)).
  { intros x. subst body. simpl.
    destruct (x =? DEVICE_INTERFACE); [|eexists; reflexivity].
    simpl. rewrite bind_gets_eval.
    destruct (Map.has object_path (_devices s)); [eexists; reflexivity|].
    unfold _getDeviceProxy. rewrite Hproxy. eexists. reflexivity. }
  assert (Hloop : exists t, for_of interfaces body s = (s, t, Normal tt)).
  { clearbody body. induction interfaces as [|x l IH];
      [eexists; reflexivity|].
    destruct (Hbody x) as (t1 & Hx). destruct IH as (t2 & Hl).
    simpl. erewrite bind_normal_eval by exact Hx. rewrite Hl.
    eexists. reflexivity. }
  destruct Hloop as (t & ->). reflexivity.
Qed.

Lemma has_set_iff k k' (v : Device) m :
  Map.has k (Map.set k' v m) = true <-> k = k' \/ Map.has k m = true.
Proof.
  unfold Map.has. destruct (string_dec k' k) as [->|Hne].
  - rewrite get_set_eq. tauto.
  - rewrite get_set_ne by assumption.
    split; [tauto|]. intros [->|H]; [contradiction|exact H].
Qed.

Lemma added_tracked_iff env object_path interfaces s k :
  Map.has k (_devices (state_of
                         (_onInterfacesAdded env object_path interfaces s)))
  = true
  <-> Map.has k (_devices s) = true \/
      (k = object_path /\ In DEVICE_INTERFACE interfaces /\
       device_proxy env object_path <> None).
Proof.
  destruct (in_dec string_dec DEVICE_INTERFACE interfaces) as [Hin|Hni].
  2:{ rewrite added_skip by now left. simpl. tauto. }
  destruct (Map.has object_path (_devices s)) eqn:Hhas.
  { rewrite added_skip by now right. simpl.
    split; [tauto|]. intros [H|(-> & _)]; assumption. }
  destruct (device_proxy env object_path) as [i|] eqn:Hproxy.
  - assert (Hget : Map.get object_path (_devices s) = None).
    { unfold Map.has in Hhas.
      now destruct (Map.get object_path (_devices s)). }
    rewrite (added_eval env object_path interfaces s i Hget Hproxy Hin).
    unfold state_of. simpl. rewrite has_set_iff.
    split.
    + intros [->|H]; [right|now left].
      repeat split; [exact Hin|discriminate].
    + intros [H|(-> & _)]; [now right|now left].
  - rewrite added_failure_state by assumption.
    split; [tauto|]. intros [H|(_ & _ & H)]; [exact H|now contradiction H].
Qed.

Lemma feed_tracked_iff env (objects : list (string * list string)) s k :
  Map.has k (_devices (state_of
    (for_of objects
       (fun entry => _onInterfacesAdded env (fst entry) (snd entry)) s)))
  = true
  <-> Map.has k (_devices s) = true \/
      exists interfaces,
        In (k, interfaces) objects /\ In DEVICE_INTERFACE interfaces /\
        device_proxy env k <> None.
Proof.
  revert s. induction objects as [|[p ifs] r IH]; intros s.
  - simpl. split; [tauto|]. intros [H|(? & [] & _)]. exact H.
  - simpl.
    destruct (_onInterfacesAdded_normal env p ifs s) as (s1 & t1 & [] & E1).
    erewrite state_bind_normal by exact E1.
    rewrite IH.
    assert (Hs1 : s1 = state_of (_onInterfacesAdded env p ifs s))
      by now rewrite E1.
    rewrite Hs1, added_tracked_iff.
    split.
    + intros [[H|(-> & Hin & Hp)]|(ifs' & Hin & Hd & Hp)].
      * now left.
      * right. exists ifs. repeat split; auto.
      * right. exists ifs'. repeat split; auto.
    + intros [H|(ifs' & [[= <- <-]|Hin] & Hd & Hp)].
      * left. now left.
      * left. right. repeat split; auto.
      * right. exists ifs'. repeat split; auto.
Qed.

Lemma bound_eval env s owner profile_path objects :
  g_name_owner s = Some owner ->
  _profileManager s = Some tt ->
  _profile s = Some profile_path ->
  register_profile env = None ->
  managed_objects env = Normal objects ->
  state_of (_onNameOwnerChanged env s)
  = state_of (for_of objects
                (fun entry => _onInterfacesAdded env (fst entry) (snd entry))
                s).
Proof.
  intros Howner Hmanager Hprofile He Hobjects.
  destruct (feed_normal env objects s) as (s1 & t & Hfeed).
  unfold _onNameOwnerChanged, _getManagedObjects, try_catch, bind, gets,
    emit, await, await_value.
  rewrite Howner. simpl. rewrite Hmanager, Hprofile, He, Hobjects. simpl.
  rewrite Hfeed. reflexivity.
Qed.

(** X16: after a bind whose registration and enumeration succeed, a path
    is tracked exactly when it was tracked before or the daemon manages an
    object under it that has the org.bluez.Device1 interface and whose
    proxy could be initialised. *)
Theorem bind_tracks_managed_devices env s owner profile_path objects k :
  g_name_owner s = Some owner ->
  _profileManager s = Some tt ->
  _profile s = Some profile_path ->
  register_profile env = None ->
  managed_objects env = Normal objects ->
  Map.has k (_devices (state_of (_onNameOwnerChanged env s))) = true
  <-> Map.has k (_devices s) = true \/
      exists interfaces,
        In (k, interfaces) objects /\ In DEVICE_INTERFACE interfaces /\
        device_proxy env k <> None.
Proof.
  intros Howner Hmanager Hprofile He Hobjects.
  rewrite (bound_eval env s owner profile_path objects
             Howner Hmanager Hprofile He Hobjects).
  apply feed_tracked_iff.
Qed.






(** ** The devices view *)

Lemma values_set_absent {V} k (v : V) m :
  ~ In k (Map.keys m) -> Map.values (Map.set k v m) = Map.values m ++ [v].
Proof.
  induction m as [|[k' v'] r IH]; simpl; [reflexivity|].
  intros H. destruct (k' =? k) eqn:E; simpl.
  - apply String.eqb_eq in E. tauto.
  - f_equal. apply IH. tauto.
Qed.

(** X18: a new device is appended to the [devices] view when its UUIDs
    include the service UUID and leaves the view as it was when they do
    not; notify::devices is emitted once in both cases. *)
Theorem added_device_in_view env object_path interfaces s i :
  Map.get object_path (_devices s) = None ->
  device_proxy env object_path = Some i ->
  In DEVICE_INTERFACE interfaces ->
  let r := _onInterfacesAdded env object_path interfaces s in
  devices (state_of r)
  = devices s
    ++ (if existsb (String.eqb SERVICE_UUID) (info_UUIDs i)
        then [new_proxy object_path i (next_handler s)] else []) /\
  count is_NotifyDevices (trace_of r) = 1.
Proof.
  intros Hget Hproxy Hin r. subst r.
  rewrite (added_eval env object_path interfaces s i Hget Hproxy Hin).
  unfold state_of, trace_of, devices. simpl. split; [|reflexivity].
  rewrite values_set_absent by now apply get_None_keys.
  rewrite filter_app. simpl.
  destruct (existsb (String.eqb SERVICE_UUID) (info_UUIDs i)); reflexivity.
Qed.

(** ** The calls made when the daemon goes away *)

Lemma unbind_loop_trace values s :
  trace_of (for_of values unbind_body s)
  = map (fun d => ProxyDisconnect (g_object_path d) (__deviceChangedId d))
        values.
Proof.
  revert s. induction values as [|v r IH]; intros s; [reflexivity|].
  simpl. unfold unbind_body at 1.
  erewrite bind_normal_eval by reflexivity.
  unfold trace_of at 1. simpl. now rewrite IH.
Qed.

(** X19: when the name owner is lost in a well-formed state, the property
    handler of every tracked proxy is disconnected with the id stored on
    it, in the order of the map; GetManagedObjects is then still called,
    its answer thrown away and its failure logged.  notify::devices is not
    emitted and the handler does not throw. *)
Theorem unbind_calls env s :
  wf s ->
  g_name_owner s = None ->
  let r := _onNameOwnerChanged env s in
  trace_of r
  = map (fun d => ProxyDisconnect (g_object_path d) (__deviceChangedId d))
        (Map.values (_devices s))
    ++ GetManagedObjects
    :: match managed_objects env with
       | Normal _ => []
       | Throw e => [LogError e]
       end /\
  count is_NotifyDevices (trace_of r) = 0 /\
  completion_of r = Normal tt.
Proof.
  intros _ Howner r.
  assert (Hloop : exists s1,
             for_of (Map.values (_devices s)) unbind_body s
             = (s1, map (fun d => ProxyDisconnect (g_object_path d)
                                                  (__deviceChangedId d))
                        (Map.values (_devices s)), Normal tt)).
  { destruct (for_of_normal (Map.values (_devices s)) unbind_body) with (s := s)
      as (s1 & t & Hl).
    { intros v s0. unfold unbind_body, bind, emit, modify. eauto. }
    pose proof (unbind_loop_trace (Map.values (_devices s)) s) as Ht.
    rewrite Hl in Ht. unfold trace_of in Ht. simpl in Ht. subst t.
    now exists s1. }
  destruct Hloop as (s1 & Hloop).
  assert (E : trace_of r
    = map (fun d => ProxyDisconnect (g_object_path d) (__deviceChangedId d))
          (Map.values (_devices s))
      ++ GetManagedObjects
      :: match managed_objects env with
         | Normal _ => []
         | Throw e => [LogError e]
         end /\ completion_of r = Normal tt).
  { subst r. unfold _onNameOwnerChanged, try_catch.
    rewrite bind_gets_eval, Howner. simpl.
    rewrite bind_gets_eval. fold unbind_body.
    erewrite bind_normal_eval by exact Hloop.
    unfold _getManagedObjects, bind, emit, await_value, ret, throw.
    destruct (managed_objects env); unfold trace_of, completion_of; simpl;
      rewrite <- ?app_assoc; split; reflexivity. }
  destruct E as [E Hc]. split; [exact E|]. split; [|exact Hc].
  rewrite E. apply count_zero. apply Forall_app. split.
  - apply Forall_forall. intros e He. apply in_map_iff in He.
    destruct He as (d & <- & _). reflexivity.
  - destruct (managed_objects env); repeat constructor.
Qed.

(** ** The constructor *)

Lemma destroy_completion s : completion_of (destroy s) = Normal tt.
Proof.
  destruct (destroy_eval s) as (s1 & t & _ & _ & _ & _ & E). now rewrite E.
Qed.

Lemma _init_async_completion env s :
  completion_of (_init_async env s) = Normal tt.
Proof.
  unfold _init_async, try_catch, completion_of.
  match goal with
  | |- context [match ?b s with _ => _ end] => destruct (b s) as [[s1 t1] [[]|e]]
  end; [reflexivity|].
  rewrite bind_emit_eval. simpl.
  pose proof (destroy_completion s1) as H. unfold completion_of in H.
  destruct (destroy s1) as [[s2 t2] c]. simpl in *. exact H.
Qed.

(** X20: the constructor throws 'Bluetooth not supported' on a GJS older
    than 1.54, before any call is made; from 1.54 on it never throws,
    whatever goes wrong during the asynchronous part. *)
Theorem version_gate version env s :
  ((version < 15400)%Z ->
   _init version env s = (s, [], Throw (GError "Bluetooth not supported"))) /\
  ((15400 <= version)%Z ->
   completion_of (_init version env s) = Normal tt).
Proof.
  unfold _init. split; intros H.
  - apply Z.ltb_lt in H. now rewrite H.
  - apply Z.ltb_ge in H. rewrite H, bind_modify_eval.
    apply _init_async_completion.
Qed.

(** ** Who is asked to connect *)


Lemma proxy_close_unrequesting bludev : emits unrequesting (proxy_close bludev).
Proof. unfold proxy_close. walk_emits; reflexivity. Qed.

Lemma RequestDisconnection_unrequesting object_path :
  emits unrequesting (RequestDisconnection object_path).
Proof. unfold RequestDisconnection, proxy_close. walk_emits; reflexivity. Qed.



(** ** What a negotiated connection is handed to *)


(** ** Two connections for one device *)

Lemma existsb_eqb_In (m : nat) l : existsb (Nat.eqb m) l = true <-> In m l.
Proof.
  rewrite existsb_exists. split.
  - intros (x & Hin & E). apply Nat.eqb_eq in E. now subst.
  - intros Hin. exists m. split; [exact Hin|apply Nat.eqb_refl].
Qed.

Lemma existsb_eqb_remove (m : nat) l :
  existsb (Nat.eqb m) (remove Nat.eq_dec m l) = false.
Proof.
  destruct (existsb (Nat.eqb m) (remove Nat.eq_dec m l)) eqn:E;
    [|reflexivity].
  apply existsb_eqb_In in E. now apply remove_gone in E.
Qed.

(** C1: the claim does not hold of [NewConnection].  Two inbound
    connections that both succeed for one tracked device build two muxers
    for it, attach a device to the channel of each and close neither: the
    device then has two active channels, and only the newer one is in its
    slot.  A disconnection request for the device closes the newer one and
    leaves the older one open and attached.  The other half of the claim
    holds: [_connectDevice] on a device whose slot is not null changes
    nothing and issues no ConnectProfile request. *)
Theorem second_connection_keeps_both env env' object_path fd fd' s d
  identity identity' device device' :
  Map.get object_path (_devices s) = Some d ->
  socket_new_from_fd env fd = None ->
  negotiate env = Normal identity ->
  _ensureDevice env (annotated d identity) = Normal device ->
  socket_new_from_fd env' fd' = None ->
  negotiate env' = Normal identity' ->
  _ensureDevice env' (annotated d identity') = Normal device' ->
  let r1 := NewConnection env object_path fd s in
  let r2 := NewConnection env' object_path fd' (state_of r1) in
  let r3 := RequestDisconnection object_path (state_of r2) in
  let t := trace_of r1 ++ trace_of r2 in
  let m := next_muxer s in
  live_channels object_path t (state_of r2) = [m; S m] /\
  count is_Attach t = 2 /\
  count is_MuxerClose t = 0 /\
  Map.get object_path (_devices (state_of r2))
  = Some (with_muxer d (Some (S m))) /\
  trace_of r3 = [Debug object_path;
                 Debug ("GSConnect: Disconnecting " ++ Alias d);
                 MuxerClose (S m)] /\
  In m (open_muxers (state_of r3)) /\
  live_channels object_path (t ++ trace_of r3) (state_of r3) = [m] /\
  (forall env0 bludev s0 m0,
     _muxer bludev = Some m0 ->
     _connectDevice env0 bludev s0
     = (s0, [Debug "already connected"], Normal tt) /\
     count is_ConnectProfile (trace_of (_connectDevice env0 bludev s0)) = 0).
Proof.
  intros Hget Hsock Hneg Hens Hsock' Hneg' Hens' r1 r2 r3 t m.
  assert (E1 : r1 =
    (set_devices (Map.set object_path (with_muxer d (Some m)))
       (set_muxers (m :: open_muxers s) (S m) s),
     [Debug object_path; SocketNewFromFd fd; MuxerNew m fd;
      CancellableConnect m object_path; Negotiate m;
      EnsureDevice (annotated d identity); Attach m device],
     Normal tt)).
  { subst r1 m. now apply NewConnection_ok_eval. }
  assert (E2 : r2 =
    (set_devices (Map.set object_path (with_muxer d (Some (S m))))
       (set_muxers (S m :: m :: open_muxers s) (S (S m)) s),
     [Debug object_path; SocketNewFromFd fd'; MuxerNew (S m) fd';
      CancellableConnect (S m) object_path; Negotiate (S m);
      EnsureDevice (annotated d identity'); Attach (S m) device'],
     Normal tt)).
  { subst r2. rewrite E1. unfold state_of. cbn [fst].
    rewrite (NewConnection_ok_eval env' object_path fd' _
               (with_muxer d (Some m)) identity' device');
      try assumption; [|apply get_set_eq].
    unfold set_devices, set_muxers. simpl.
    rewrite set_set. reflexivity. }
  assert (E3 : r3 =
    (set_devices (Map.set object_path (with_muxer d None))
       (set_muxers (remove Nat.eq_dec (S m) (S m :: m :: open_muxers s))
                   (S (S m)) s),
     [Debug object_path; Debug ("GSConnect: Disconnecting " ++ Alias d);
      MuxerClose (S m)],
     Normal tt)).
  { subst r3. rewrite E2. unfold state_of. cbn [fst].
    erewrite RequestDisconnection_eval by (simpl; apply get_set_eq).
    rewrite proxy_close_eval. simpl _devices. rewrite get_set_eq.
    unfold state_of, trace_of, set_devices, set_muxers. simpl.
    rewrite set_set. reflexivity. }
  assert (Hm : In m (remove Nat.eq_dec (S m) (S m :: m :: open_muxers s))).
  { apply in_in_remove; [lia|]. right. now left. }
  subst t. rewrite E3, E2, E1. unfold state_of, trace_of.
  cbn [fst snd _devices open_muxers set_devices set_muxers].
  split; [|split; [|split; [|split; [|split; [|split; [|split]]]]]].
  - unfold live_channels. simpl. rewrite !String.eqb_refl. simpl.
    rewrite !Nat.eqb_refl. simpl. rewrite !orb_true_r. reflexivity.
  - reflexivity.
  - reflexivity.
  - apply get_set_eq.
  - reflexivity.
  - exact Hm.
  - unfold live_channels.
    cbn [app channels_of]. rewrite !String.eqb_refl.
    cbn [filter open_muxers set_devices set_muxers].
    apply existsb_eqb_In in Hm. rewrite Hm.
    rewrite existsb_eqb_remove. simpl. rewrite !Nat.eqb_refl. reflexivity.
  - intros env0 bludev s0 m0 Hm0. unfold _connectDevice, try_catch.
    rewrite Hm0. split; reflexivity.
Qed.

(** ** Property changes *)

Lemma _connectDevice_count env bludev s :
  count is_ConnectProfile (trace_of (_connectDevice env bludev s))
  = match _muxer bludev with
    | Some _ => 0
    | None => if Paired bludev then 1 else 0
    end.
Proof.
  unfold _connectDevice, try_catch, bind, emit, await, ret, throw, trace_of.
  destruct (_muxer bludev); [reflexivity|].
  destruct (Paired bludev); [|reflexivity].
  destruct (connect_profile env (g_object_path bludev)); reflexivity.
Qed.

Lemma _connectDevice_unclosing env bludev s :
  count is_MuxerClose (trace_of (_connectDevice env bludev s)) = 0.
Proof.
  unfold _connectDevice, try_catch, bind, emit, await, ret, throw, trace_of.
  destruct (_muxer bludev); [reflexivity|].
  destruct (Paired bludev); [|reflexivity].
  destruct (connect_profile env (g_object_path bludev)); reflexivity.
Qed.

(** The calls of [_connectDevice] depend on the proxy, not on the state
    of the service. *)
Lemma _connectDevice_trace env bludev s s' :
  trace_of (_connectDevice env bludev s)
  = trace_of (_connectDevice env bludev s').
Proof.
  unfold _connectDevice, try_catch, bind, emit, await, ret, throw, trace_of.
  destruct (_muxer bludev); [reflexivity|].
  destruct (Paired bludev); [|reflexivity].
  destruct (connect_profile env (g_object_path bludev)); reflexivity.
Qed.

Lemma apply_changed_twice c d :
  apply_changed c (apply_changed c d) = apply_changed c d.
Proof.
  destruct c as [[c1|] [c2|] [c3|] [c4|]]; reflexivity.
Qed.

(** A notification that asks for a connection attempt, delivered to a
    tracked device. *)
Lemma changed_connect_eval env object_path d changed s :
  Map.get object_path (_devices s) = Some d ->
  ch_Connected changed = Some true \/
  (ch_Connected changed = None /\ ch_ServicesResolved changed = Some true) ->
  let s1 := set_devices (Map.set object_path (apply_changed changed d)) s in
  dispatch env (g_properties_changed object_path changed) s
  = (s1, trace_of (_connectDevice env (apply_changed changed d) s1),
     Normal tt).
Proof.
  intros Hget Hc s1. unfold dispatch.
  rewrite bind_gets_eval, Hget, bind_modify_eval. fold s1.
  assert (E : _onDeviceChanged env (apply_changed changed d) changed s1
              = _connectDevice env (apply_changed changed d) s1).
  { unfold _onDeviceChanged.
    destruct Hc as [-> | [-> ->]]; reflexivity. }
  rewrite E.
  pose proof (_connectDevice_state env (apply_changed changed d) s1) as Hs.
  pose proof (_connectDevice_completion env (apply_changed changed d) s1)
    as Hcompl.
  destruct (_connectDevice env (apply_changed changed d) s1) as [[s2 t2] c].
  unfold state_of, completion_of, trace_of in *. simpl in *.
  now subst.
Qed.

(** C5, amended: the change set is looked at for Connected first.  When
    it carries Connected = true, or carries no Connected and
    ServicesResolved = true, the handler runs [_connectDevice] on the
    device, the same call in both cases: the service is unchanged, nothing
    is closed, and one ConnectProfile request is made if the device's slot
    is null and the device is paired, none otherwise.  When it carries
    Connected = false the handler runs [RequestDisconnection] for the
    device and makes no ConnectProfile request, whatever ServicesResolved
    says; delivered to a tracked device that holds a muxer, it closes that
    muxer and clears the slot.  Any other change set does nothing.  The
    attempt is repeated on every notification that asks for it: the same
    notification delivered twice to a tracked device makes the same calls
    twice, so two ConnectProfile requests when the device is paired and
    its slot is null. *)
Theorem property_change_requests env proxy resolved paired uuids s :
  let wanted := match _muxer proxy with
                | Some _ => 0
                | None => if Paired proxy then 1 else 0
                end in
  (let r := _onDeviceChanged env proxy
                             (changes (Some true) resolved paired uuids) s in
   r = _connectDevice env proxy s /\
   state_of r = s /\ completion_of r = Normal tt /\
   count is_ConnectProfile (trace_of r) = wanted /\
   count is_MuxerClose (trace_of r) = 0) /\
  (let r := _onDeviceChanged env proxy
                             (changes None (Some true) paired uuids) s in
   r = _connectDevice env proxy s /\
   state_of r = s /\ completion_of r = Normal tt /\
   count is_ConnectProfile (trace_of r) = wanted /\
   count is_MuxerClose (trace_of r) = 0) /\
  (let r := _onDeviceChanged env proxy
                             (changes (Some false) resolved paired uuids) s in
   r = RequestDisconnection (g_object_path proxy) s /\
   completion_of r = Normal tt /\
   count is_ConnectProfile (trace_of r) = 0) /\
  _onDeviceChanged env proxy (changes None (Some false) paired uuids) s
  = (s, [], Normal tt) /\
  _onDeviceChanged env proxy (changes None None paired uuids) s
  = (s, [], Normal tt) /\
  (forall object_path d changed,
     Map.get object_path (_devices s) = Some d ->
     ch_Connected changed = Some true \/
     (ch_Connected changed = None /\
      ch_ServicesResolved changed = Some true) ->
     let r1 := dispatch env (g_properties_changed object_path changed) s in
     let r2 := dispatch env (g_properties_changed object_path changed)
                        (state_of r1) in
     trace_of r2 = trace_of r1 /\
     count is_ConnectProfile (trace_of r1 ++ trace_of r2)
     = match _muxer d with
       | Some _ => 0
       | None => if Paired (apply_changed changed d) then 2 else 0
       end) /\
  (forall object_path d changed m,
     Map.get object_path (_devices s) = Some d ->
     g_object_path d = object_path ->
     ch_Connected changed = Some false ->
     _muxer d = Some m ->
     let r := dispatch env (g_properties_changed object_path changed) s in
     trace_of r = [Debug object_path;
                   Debug ("GSConnect: Disconnecting " ++ Alias d);
                   MuxerClose m] /\
     Map.get object_path (_devices (state_of r))
     = Some (with_muxer (apply_changed changed d) None) /\
     ~ In m (open_muxers (state_of r))).
Proof.
  intros wanted.
  assert (Hconnect :
    _connectDevice env proxy s = _connectDevice env proxy s /\
    state_of (_connectDevice env proxy s) = s /\
    completion_of (_connectDevice env proxy s) = Normal tt /\
    count is_ConnectProfile (trace_of (_connectDevice env proxy s)) = wanted /\
    count is_MuxerClose (trace_of (_connectDevice env proxy s)) = 0).
  { split; [reflexivity|]. split; [apply _connectDevice_state|].
    split; [apply _connectDevice_completion|].
    split; [apply _connectDevice_count|apply _connectDevice_unclosing]. }
  split; [exact Hconnect|]. split; [exact Hconnect|].
  split; [|split; [reflexivity|split; [reflexivity|split]]].
  - cbv zeta. change (_onDeviceChanged env proxy
                        (changes (Some false) resolved paired uuids) s)
      with (RequestDisconnection (g_object_path proxy) s).
    split; [reflexivity|]. split; [apply RequestDisconnection_completion|].
    apply count_zero. apply RequestDisconnection_unrequesting.
  - intros object_path d changed Hget Hc r1 r2.
    set (d' := apply_changed changed d).
    set (s1 := set_devices (Map.set object_path d') s).
    assert (E1 : r1 = (s1, trace_of (_connectDevice env d' s1), Normal tt)).
    { subst r1 s1 d'. now apply changed_connect_eval. }
    assert (E2 : trace_of r2 = trace_of r1).
    { subst r2. rewrite E1. unfold state_of at 1. cbn [fst].
      rewrite (changed_connect_eval env object_path d' changed s1);
        [|subst s1; simpl; apply get_set_eq|exact Hc].
      subst d'. rewrite apply_changed_twice.
      unfold trace_of at 1 3. cbn [fst snd].
      apply _connectDevice_trace. }
    split; [exact E2|].
    rewrite count_app, E2, E1. unfold trace_of at 1 3. cbn [fst snd].
    rewrite _connectDevice_count.
    replace (_muxer d') with (_muxer d) by reflexivity.
    destruct (_muxer d); [reflexivity|].
    destruct (Paired d'); reflexivity.
  - intros object_path d changed m Hget Hpath Hc Hm r. subst r.
    unfold dispatch. rewrite bind_gets_eval, Hget, bind_modify_eval.
    unfold _onDeviceChanged. rewrite Hc.
    replace (g_object_path (apply_changed changed d)) with object_path
      by (symmetry; exact Hpath).
    erewrite RequestDisconnection_eval by (simpl; apply get_set_eq).
    rewrite proxy_close_eval. simpl _devices. rewrite get_set_eq.
    replace (_muxer (apply_changed changed d)) with (Some m)
      by (symmetry; exact Hm).
    unfold state_of, trace_of. cbn [fst snd _devices open_muxers
      set_devices set_muxers].
    split; [reflexivity|]. split; [apply get_set_eq|apply remove_gone].
Qed.

(** ** The mirror while handlers overlap *)

Lemma added_until_await_pure object_path interfaces s :
  exists o,
    added_until_await object_path interfaces s = (s, [], Normal o).
Proof.
  induction interfaces as [|x r IH]; simpl; [now exists None|].
  destruct (negb (x =? DEVICE_INTERFACE)); [exact IH|].
  rewrite bind_gets_eval.
  destruct (Map.has object_path (_devices s)); [exact IH|].
  now exists (Some r).
Qed.

Lemma added_until_await_tracked object_path interfaces s :
  Map.has object_path (_devices s) = true ->
  added_until_await object_path interfaces s = (s, [], Normal None).
Proof.
  intros Hhas. induction interfaces as [|x r IH]; simpl; [reflexivity|].
  destruct (negb (x =? DEVICE_INTERFACE)); [exact IH|].
  rewrite bind_gets_eval, Hhas. exact IH.
Qed.

Lemma added_until_await_device object_path interfaces s :
  Map.has object_path (_devices s) = false ->
  In DEVICE_INTERFACE interfaces ->
  exists rest,
    added_until_await object_path interfaces s = (s, [], Normal (Some rest)).
Proof.
  intros Hhas. induction interfaces as [|x r IH]; simpl; [tauto|].
  intros Hin. destruct (String.eqb_spec x DEVICE_INTERFACE) as [Hx|Hx]; simpl.
  - rewrite bind_gets_eval, Hhas. now exists r.
  - apply IH. destruct Hin as [Hin|Hin]; [now contradiction Hx|exact Hin].
Qed.

Lemma added_start_eval object_path interfaces s :
  added_start object_path interfaces s
  = added_until_await object_path interfaces s.
Proof.
  unfold added_start, try_catch.
  destruct (added_until_await_pure object_path interfaces s) as [o E].
  now rewrite E.
Qed.

(** The handler is resumed with a proxy: the proxy is stored under its
    path, whatever the map holds by then, and the handler returns. *)
Lemma added_resume_eval env object_path rest s i :
  device_proxy env object_path = Some i ->
  added_resume env object_path rest s
  = (set_devices
       (Map.set object_path (new_proxy object_path i (next_handler s)))
       (set_next_handler (S (next_handler s)) s),
     [ProxyConnect object_path (next_handler s); NotifyDevices],
     Normal None).
Proof.
  intros Hproxy. unfold added_resume, try_catch, _getDeviceProxy.
  rewrite Hproxy. unfold added_store, bind, ret, gets, modify, emit.
  cbn [g_object_path with_deviceChangedId fst snd app].
  rewrite added_until_await_tracked; [reflexivity|].
  unfold Map.has. simpl. now rewrite get_set_eq.
Qed.

Lemma added_resume_failed env object_path rest s :
  device_proxy env object_path = None ->
  exists o,
    added_resume env object_path rest s
    = (s, [Warning (GError "proxy") None], Normal o).
Proof.
  intros Hproxy. unfold added_resume, try_catch, _getDeviceProxy.
  rewrite Hproxy. unfold added_store, bind, ret, emit.
  destruct (added_until_await_pure object_path rest s) as [o E].
  rewrite E. now exists o.
Qed.

Lemma added_resume_wf env object_path rest :
  preserves wf (added_resume env object_path rest).
Proof.
  intros s Hwf.
  destruct (device_proxy env object_path) as [i|] eqn:Hproxy.
  - rewrite (added_resume_eval env object_path rest s i Hproxy).
    unfold state_of. cbn [fst].
    apply wf_add; [|reflexivity..].
    now apply (wf_ext s).
  - destruct (added_resume_failed env object_path rest s Hproxy) as [o E].
    now rewrite E.
Qed.

Lemma overlap_step_wf env st c :
  wf (fst c) -> wf (fst (fst (overlap_step env st c))).
Proof.
  intros Hwf. destruct st as [object_path interfaces|n|ev]; simpl.
  - rewrite added_start_eval.
    destruct (added_until_await_pure object_path interfaces (fst c))
      as [o E].
    now rewrite E.
  - destruct (nth_error (snd c) n) as [h|]; [|exact Hwf].
    pose proof (added_resume_wf env (sus_path h) (sus_rest h) (fst c) Hwf)
      as H.
    unfold state_of in H.
    now destruct (added_resume env (sus_path h) (sus_rest h) (fst c))
      as [[s1 t] r].
  - pose proof (dispatch_wf env ev (fst c) Hwf) as H. unfold state_of in H.
    now destruct (dispatch env ev (fst c)) as [[s1 t] r].
Qed.

Lemma overlap_run_wf steps c :
  wf (fst c) -> wf (fst (fst (overlap_run steps c))).
Proof.
  revert c. induction steps as [|[env st] r IH]; intros c Hwf; [exact Hwf|].
  simpl. pose proof (overlap_step_wf env st c Hwf) as H1.
  destruct (overlap_step env st c) as [[s1 p1] t1].
  specialize (IH (s1, p1) H1).
  now destruct (overlap_run r (s1, p1)) as [[s2 p2] t2].
Qed.

(** *** Notifications handled in turn *)

Lemma guard_never_fires owner :
  JS.strict_eq (JS.not (JS.of_nullable owner)) JS.Null = false.
Proof. destruct owner; reflexivity. Qed.

Lemma g_signal_added env object_path interfaces s :
  dispatch env (g_signal "InterfacesAdded" (object_path, interfaces)) s
  = _onInterfacesAdded env object_path interfaces s.
Proof.
  unfold dispatch, vfunc_g_signal, try_catch. rewrite bind_gets_eval.
  rewrite guard_never_fires. simpl.
  destruct (_onInterfacesAdded_normal env object_path interfaces s)
    as (s1 & t & a & E).
  now rewrite E.
Qed.

Lemma g_signal_removed env object_path interfaces s :
  dispatch env (g_signal "InterfacesRemoved" (object_path, interfaces)) s
  = _onInterfacesRemoved object_path interfaces s.
Proof.
  unfold dispatch, vfunc_g_signal, try_catch. rewrite bind_gets_eval.
  rewrite guard_never_fires. simpl.
  destruct (_onInterfacesRemoved_normal object_path interfaces s)
    as (s1 & t & a & E).
  now rewrite E.
Qed.

Lemma has_keys {V} k (m : Map.t V) :
  Map.has k m = existsb (String.eqb k) (Map.keys m).
Proof.
  unfold Map.has. induction m as [|[k' v] r IH]; simpl; [reflexivity|].
  rewrite (String.eqb_sym k k').
  destruct (k' =? k); [reflexivity|exact IH].
Qed.

Lemma existsb_device interfaces :
  existsb (String.eqb DEVICE_INTERFACE) interfaces = true
  <-> In DEVICE_INTERFACE interfaces.
Proof.
  rewrite existsb_exists. split.
  - intros (x & Hin & E). apply String.eqb_eq in E. now subst.
  - intros Hin. exists DEVICE_INTERFACE. split; [exact Hin|].
    apply String.eqb_refl.
Qed.

Lemma filter_absent k (l : list string) :
  ~ In k l -> filter (fun k' => negb (k' =? k)) l = l.
Proof.
  induction l as [|x r IH]; simpl; [reflexivity|].
  intros Hn. destruct (String.eqb_spec x k) as [->|Hx]; simpl.
  - exfalso. apply Hn. now left.
  - rewrite IH; [reflexivity|]. tauto.
Qed.

Lemma removed_skip object_path interfaces s :
  ~ In DEVICE_INTERFACE interfaces \/
  Map.get object_path (_devices s) = None ->
  _onInterfacesRemoved object_path interfaces s = (s, [], Normal tt).
Proof.
  intros H. unfold _onInterfacesRemoved, try_catch.
  destruct (length interfaces =? 0)%nat; [reflexivity|].
  rewrite for_of_noop_In; [reflexivity|].
  intros x Hx. destruct (String.eqb_spec x DEVICE_INTERFACE) as [->|Hne];
    simpl; [|reflexivity].
  destruct H as [H|H]; [now contradiction H|].
  rewrite bind_gets_eval. now rewrite H.
Qed.

Lemma RequestDisconnection_keys object_path s :
  Map.keys (_devices (state_of (RequestDisconnection object_path s)))
  = Map.keys (_devices s).
Proof.
  destruct (Map.get object_path (_devices s)) as [d|] eqn:Hget.
  - rewrite (RequestDisconnection_eval object_path s d Hget).
    unfold state_of at 1. cbn [fst]. apply proxy_close_keys.
  - unfold RequestDisconnection. rewrite bind_emit_eval.
    unfold try_catch, devices_get. rewrite bind_gets_eval.
    unfold Map.has. now rewrite Hget.
Qed.

(** A property change of a tracked device: the proxy is stored with the
    new properties; the handler after it touches the slot at most. *)
Lemma changed_eval env object_path changed s d :
  Map.get object_path (_devices s) = Some d ->
  let r := dispatch env (g_properties_changed object_path changed) s in
  Map.keys (_devices (state_of r)) = Map.keys (_devices s) /\
  exists d',
    Map.get object_path (_devices (state_of r)) = Some d' /\
    with_muxer d' None = with_muxer (apply_changed changed d) None.
Proof.
  intros Hget r. subst r. unfold dispatch.
  rewrite bind_gets_eval, Hget, bind_modify_eval.
  set (d1 := apply_changed changed d).
  set (s1 := set_devices (Map.set object_path d1) s).
  assert (Hkeys1 : Map.keys (_devices s1) = Map.keys (_devices s)).
  { subst s1. simpl. apply keys_set_present.
    destruct (in_dec string_dec object_path (Map.keys (_devices s)))
      as [H|H]; [exact H|].
    apply get_None_keys in H. congruence. }
  assert (Hget1 : Map.get object_path (_devices s1) = Some d1)
    by (subst s1; simpl; apply get_set_eq).
  assert (Hconnect :
    Map.keys (_devices (state_of (_connectDevice env d1 s1)))
    = Map.keys (_devices s) /\
    exists d',
      Map.get object_path (_devices (state_of (_connectDevice env d1 s1)))
      = Some d' /\
      with_muxer d' None = with_muxer d1 None).
  { rewrite _connectDevice_state. split; [exact Hkeys1|now exists d1]. }
  unfold _onDeviceChanged. destruct (ch_Connected changed) as [[|]|].
  - exact Hconnect.
  - replace (g_object_path d1) with (g_object_path d) by reflexivity.
    split; [now rewrite RequestDisconnection_keys|].
    destruct (Map.get object_path (_devices s)) as [d0|] eqn:Hget0;
      [|discriminate].
    injection Hget as ->.
    destruct (String.eqb_spec (g_object_path d) object_path) as [Hp|Hp].
    + rewrite Hp.
      rewrite (RequestDisconnection_eval object_path s1 d1 Hget1).
      unfold state_of at 1. cbn [fst].
      rewrite proxy_close_eval, Hget1.
      destruct (_muxer d1) as [m|] eqn:Hm.
      * exists (with_muxer d1 None). unfold state_of. simpl.
        split; [apply get_set_eq|reflexivity].
      * now exists d1.
    + (* the proxy closed is the one stored under the proxy's own path *)
      destruct (Map.get (g_object_path d) (_devices s1)) as [d2|] eqn:Hget2.
      * rewrite (RequestDisconnection_eval _ s1 d2 Hget2).
        unfold state_of at 1. cbn [fst].
        rewrite proxy_close_eval, Hget2.
        destruct (_muxer d2) as [m|].
        -- exists d1. unfold state_of. simpl.
           rewrite get_set_ne by exact Hp. split; [exact Hget1|reflexivity].
        -- now exists d1.
      * exists d1. split; [|reflexivity].
        unfold RequestDisconnection. rewrite bind_emit_eval.
        unfold try_catch, devices_get. rewrite bind_gets_eval.
        unfold Map.has. now rewrite Hget2.
  - destruct (ch_ServicesResolved changed) as [[|]|];
      [exact Hconnect|split; [exact Hkeys1|now exists d1]..].
Qed.

Lemma changed_skip env object_path changed s :
  Map.get object_path (_devices s) = None ->
  dispatch env (g_properties_changed object_path changed) s
  = (s, [], Normal tt).
Proof.
  intros Hget. unfold dispatch. now rewrite bind_gets_eval, Hget.
Qed.

(** The tracked ids after a notification handled on its own are those the
    specification's mirror has. *)
Lemma tracked_step_keys env o s :
  Map.keys (_devices (state_of (dispatch env (notification o) s)))
  = tracked_step (materialises env) o (Map.keys (_devices s)).
Proof.
  destruct o as [id interfaces|id interfaces|id changed];
    unfold notification, tracked_step.
  - rewrite g_signal_added, <- has_keys. unfold materialises.
    destruct (existsb (String.eqb DEVICE_INTERFACE) interfaces) eqn:Hdev.
    + apply existsb_device in Hdev.
      destruct (Map.has id (_devices s)) eqn:Hhas.
      * rewrite added_skip by now right. reflexivity.
      * assert (Hget : Map.get id (_devices s) = None).
        { unfold Map.has in Hhas.
          now destruct (Map.get id (_devices s)). }
        destruct (device_proxy env id) as [i|] eqn:Hproxy; simpl.
        -- rewrite (added_eval env id interfaces s i Hget Hproxy Hdev).
           unfold state_of. simpl. apply keys_set_absent.
           now apply get_None_keys.
        -- now rewrite added_failure_state.
    + rewrite added_skip; [reflexivity|]. left. intros Hin.
      apply existsb_device in Hin. congruence.
  - rewrite g_signal_removed.
    destruct interfaces as [|x r] eqn:Hi; [reflexivity|]. rewrite <- Hi.
    replace (length interfaces =? 0)%nat with false by now rewrite Hi.
    clear Hi x r. simpl negb. rewrite andb_true_l.
    destruct (existsb (String.eqb DEVICE_INTERFACE) interfaces) eqn:Hdev.
    + apply existsb_device in Hdev.
      destruct (Map.get id (_devices s)) as [d|] eqn:Hget.
      * rewrite (removed_eval id interfaces s d Hget Hdev).
        unfold state_of at 1. simpl.
        rewrite keys_delete. now rewrite proxy_close_keys.
      * rewrite removed_skip by now right.
        unfold state_of. simpl. symmetry. apply filter_absent.
        now apply get_None_keys.
    + rewrite removed_skip; [reflexivity|]. left. intros Hin.
      apply existsb_device in Hin. congruence.
  - destruct (Map.get id (_devices s)) as [d|] eqn:Hget.
    + now destruct (changed_eval env id changed s d Hget) as [Hk _].
    + now rewrite changed_skip.
Qed.

Lemma in_turn_keys env evs s pending :
  Map.keys (_devices (fst (fst (overlap_run (in_turn env evs) (s, pending)))))
  = tracked_after (materialises env) evs (Map.keys (_devices s)).
Proof.
  revert s. induction evs as [|o r IH]; intros s; [reflexivity|].
  unfold tracked_after. simpl.
  pose proof (tracked_step_keys env o s) as Hstep. unfold state_of in Hstep.
  destruct (dispatch env (notification o) s) as [[s1 t1] c1].
  simpl in Hstep. specialize (IH s1). rewrite <- Hstep.
  destruct (overlap_run (in_turn env r) (s1, pending)) as [[s2 p2] t2].
  exact IH.
Qed.

(** *** Notifications handled while an add waits *)

(** A removal that arrives while the add of the same object waits for its
    proxy finds nothing to remove; the add then stores the proxy. *)
Lemma removal_during_add env object_path interfaces s i :
  Map.get object_path (_devices s) = None ->
  device_proxy env object_path = Some i ->
  In DEVICE_INTERFACE interfaces ->
  overlap_run
    [(env, begin_add object_path interfaces);
     (env, deliver (notification (object_removed object_path interfaces)));
     (env, resume_add 0)]
    (s, [])
  = (set_devices
       (Map.set object_path (new_proxy object_path i (next_handler s)))
       (set_next_handler (S (next_handler s)) s),
     [],
     [ProxyConnect object_path (next_handler s); NotifyDevices]).
Proof.
  intros Hget Hproxy Hin.
  assert (Hhas : Map.has object_path (_devices s) = false)
    by (unfold Map.has; now rewrite Hget).
  destruct (added_until_await_device object_path interfaces s Hhas Hin)
    as [rest E].
  cbn [overlap_run overlap_step notification fst snd].
  rewrite added_start_eval, E.
  cbn [fst snd app suspend].
  rewrite g_signal_removed, removed_skip by now right.
  cbn [fst snd app suspend nth_error sus_path sus_rest].
  rewrite (added_resume_eval env object_path rest s i Hproxy).
  reflexivity.
Qed.

(** Two adds of one object that both start before either has its proxy:
    each builds and connects a proxy, stores it and notifies; the second
    proxy replaces the first, whose handler stays connected. *)
Lemma add_during_add env env' object_path interfaces interfaces' s i i' :
  Map.get object_path (_devices s) = None ->
  device_proxy env object_path = Some i ->
  device_proxy env' object_path = Some i' ->
  In DEVICE_INTERFACE interfaces ->
  In DEVICE_INTERFACE interfaces' ->
  overlap_run
    [(env, begin_add object_path interfaces);
     (env', begin_add object_path interfaces');
     (env, resume_add 0);
     (env', resume_add 0)]
    (s, [])
  = (set_devices
       (Map.set object_path (new_proxy object_path i' (S (next_handler s))))
       (set_devices
          (Map.set object_path (new_proxy object_path i (next_handler s)))
          (set_next_handler (S (S (next_handler s))) s)),
     [],
     [ProxyConnect object_path (next_handler s); NotifyDevices;
      ProxyConnect object_path (S (next_handler s)); NotifyDevices]).
Proof.
  intros Hget Hproxy Hproxy' Hin Hin'.
  assert (Hhas : Map.has object_path (_devices s) = false)
    by (unfold Map.has; now rewrite Hget).
  destruct (added_until_await_device object_path interfaces s Hhas Hin)
    as [rest E].
  destruct (added_until_await_device object_path interfaces' s Hhas Hin')
    as [rest' E'].
  cbn [overlap_run overlap_step fst snd].
  rewrite added_start_eval, E.
  cbn [fst snd app suspend]. rewrite added_start_eval, E'.
  cbn [fst snd app suspend nth_error sus_path sus_rest firstn skipn].
  rewrite (added_resume_eval env object_path rest s i Hproxy).
  cbn [fst snd app suspend nth_error sus_path sus_rest firstn skipn].
  rewrite (added_resume_eval env' object_path rest' _ i' Hproxy').
  reflexivity.
Qed.

(** *** The handler cut at its await is the handler *)

Lemma _onInterfacesAdded_loop env object_path interfaces :
  _onInterfacesAdded env object_path interfaces
  = try_catch (for_of interfaces (added_body env object_path))
              (fun e => emit (LogError e)).
Proof. reflexivity. Qed.

Lemma fetch_and_store_eval env object_path s :
  fetch_and_store env object_path s
  = match device_proxy env object_path with
    | Some i =>
        (set_devices
           (Map.set object_path (new_proxy object_path i (next_handler s)))
           (set_next_handler (S (next_handler s)) s),
         [ProxyConnect object_path (next_handler s); NotifyDevices],
         Normal tt)
    | None => (s, [Warning (GError "proxy") None], Normal tt)
    end.
Proof.
  unfold fetch_and_store, _getDeviceProxy.
  destruct (device_proxy env object_path); reflexivity.
Qed.

Lemma fetch_and_store_normal env object_path s :
  exists s1 t1, fetch_and_store env object_path s = (s1, t1, Normal tt).
Proof.
  rewrite fetch_and_store_eval.
  destruct (device_proxy env object_path); eauto.
Qed.

Lemma added_body_normal env object_path x s :
  exists s1 t1, added_body env object_path x s = (s1, t1, Normal tt).
Proof.
  unfold added_body.
  destruct (negb (x =? DEVICE_INTERFACE)); [unfold ret; eauto|].
  rewrite bind_gets_eval.
  destruct (Map.has object_path (_devices s)); [unfold ret; eauto|].
  apply fetch_and_store_normal.
Qed.

Lemma added_resume_cut env object_path rest s :
  let g := fetch_and_store env object_path s in
  added_resume env object_path rest s
  = (state_of g, trace_of g,
     completion_of (added_until_await object_path rest (state_of g))).
Proof.
  intros g. subst g. rewrite fetch_and_store_eval.
  destruct (device_proxy env object_path) as [i|] eqn:Hproxy.
  - rewrite (added_resume_eval env object_path rest s i Hproxy).
    unfold state_of, trace_of. cbn [fst snd].
    rewrite added_until_await_tracked; [reflexivity|].
    unfold Map.has. simpl. now rewrite get_set_eq.
  - unfold added_resume, try_catch, _getDeviceProxy.
    rewrite Hproxy. unfold added_store, bind, ret, emit.
    unfold state_of, trace_of. cbn [fst snd].
    destruct (added_until_await_pure object_path rest s) as [o E].
    now rewrite E.
Qed.

Lemma added_until_await_shorter object_path interfaces s rest :
  completion_of (added_until_await object_path interfaces s)
  = Normal (Some rest) ->
  length rest < length interfaces.
Proof.
  induction interfaces as [|x r IH]; simpl; [discriminate|].
  destruct (negb (x =? DEVICE_INTERFACE)).
  - intros H. apply IH in H. lia.
  - rewrite bind_gets_eval.
    destruct (Map.has object_path (_devices s)).
    + intros H. apply IH in H. lia.
    + unfold ret, completion_of. simpl. intros [= ->]. lia.
Qed.

(** The loop, unrolled to its first [await]. *)
Lemma added_loop_cut env object_path interfaces s :
  for_of interfaces (added_body env object_path) s
  = match completion_of (added_until_await object_path interfaces s) with
    | Normal (Some rest) =>
        let g := fetch_and_store env object_path s in
        let l := for_of rest (added_body env object_path) (state_of g) in
        (state_of l, trace_of g ++ trace_of l, completion_of l)
    | _ => (s, [], Normal tt)
    end.
Proof.
  induction interfaces as [|x r IH]; [reflexivity|].
  assert (Hskip : added_body env object_path x s = (s, [], Normal tt) ->
    for_of (x :: r) (added_body env object_path) s
    = for_of r (added_body env object_path) s).
  { intros Hb. cbn [for_of].
    rewrite (bind_normal_eval _ _ s s [] tt Hb).
    now destruct (for_of r (added_body env object_path) s) as [[s2 t2] c]. }
  cbn [added_until_await].
  destruct (negb (x =? DEVICE_INTERFACE)) eqn:Hx.
  - rewrite Hskip; [exact IH|]. unfold added_body. now rewrite Hx.
  - rewrite bind_gets_eval.
    destruct (Map.has object_path (_devices s)) eqn:Hhas.
    + rewrite Hskip; [exact IH|]. unfold added_body.
      now rewrite Hx, bind_gets_eval, Hhas.
    + unfold ret at 1, completion_of at 1. cbn [snd for_of].
      destruct (fetch_and_store_normal env object_path s) as (s1 & t1 & E).
      assert (Hb : added_body env object_path x s = (s1, t1, Normal tt)).
      { unfold added_body. now rewrite Hx, bind_gets_eval, Hhas. }
      cbv zeta. rewrite (bind_normal_eval _ _ s s1 t1 tt Hb), E.
      reflexivity.
Qed.

Lemma added_loop_normal env object_path interfaces s :
  exists s1 t1,
    for_of interfaces (added_body env object_path) s = (s1, t1, Normal tt).
Proof.
  apply for_of_normal. intros x s'. apply added_body_normal.
Qed.

Lemma resume_nothing env n s :
  overlap_run (repeat (env, resume_add 0) n) (s, []) = (s, [], []).
Proof.
  induction n as [|n IH]; [reflexivity|].
  cbn [repeat overlap_run overlap_step fst snd nth_error].
  now rewrite IH.
Qed.

Lemma added_drain env object_path n :
  forall interfaces s,
    length interfaces <= n ->
    overlap_run (repeat (env, resume_add 0) n)
      (s, suspend object_path
            (completion_of (added_until_await object_path interfaces s)))
    = (state_of (for_of interfaces (added_body env object_path) s), [],
       trace_of (for_of interfaces (added_body env object_path) s)).
Proof.
  induction n as [|n IH]; intros interfaces s Hlen.
  - destruct interfaces; [reflexivity|simpl in Hlen; lia].
  - rewrite added_loop_cut.
    destruct (completion_of (added_until_await object_path interfaces s))
      as [[rest|]|e] eqn:E; try (simpl suspend; apply resume_nothing).
    apply added_until_await_shorter in E.
    cbn [repeat overlap_run overlap_step fst snd suspend nth_error
         sus_path sus_rest firstn skipn app].
    rewrite added_resume_cut. cbv zeta.
    rewrite app_nil_r.
    rewrite (IH rest (state_of (fetch_and_store env object_path s)))
      by lia.
    reflexivity.
Qed.

(** Entering [_onInterfacesAdded] and resuming it at once each time it
    waits is the handler run to completion. *)
Lemma added_without_overlap env object_path interfaces s :
  overlap_run
    ((env, begin_add object_path interfaces)
     :: repeat (env, resume_add 0) (length interfaces))
    (s, [])
  = (state_of (_onInterfacesAdded env object_path interfaces s), [],
     trace_of (_onInterfacesAdded env object_path interfaces s)).
Proof.
  rewrite _onInterfacesAdded_loop. unfold try_catch.
  destruct (added_loop_normal env object_path interfaces s)
    as (s1 & t1 & Hloop).
  rewrite Hloop.
  cbn [overlap_run overlap_step fst snd]. rewrite added_start_eval.
  destruct (added_until_await_pure object_path interfaces s) as [o E].
  rewrite E. cbn [app].
  replace (Normal o)
    with (completion_of (added_until_await object_path interfaces s))
    by now rewrite E.
  rewrite (added_drain env object_path (length interfaces) interfaces s)
    by lia.
  rewrite Hloop. reflexivity.
Qed.

(** *** The view *)

Lemma delete_set {V} k (v : V) m :
  Map.delete k (Map.set k v m) = Map.delete k m.
Proof.
  unfold Map.delete. induction m as [|[k' v'] r IH]; simpl.
  - now rewrite String.eqb_refl.
  - destruct (k' =? k) eqn:E; simpl.
    + now rewrite String.eqb_refl.
    + now rewrite E, IH.
Qed.

Lemma values_delete (ds : Map.t Device) k :
  (forall k' d, In (k', d) ds -> g_object_path d = k') ->
  Map.values (Map.delete k ds)
  = filter (fun b => negb (g_object_path b =? k)) (Map.values ds).
Proof.
  unfold Map.values, Map.delete.
  induction ds as [|[k' d] r IH]; intros Hpath; [reflexivity|].
  simpl. rewrite (Hpath k' d) by now left.
  destruct (negb (k' =? k)); simpl; rewrite IH; try reflexivity;
    intros k0 d0 Hin; apply Hpath; now right.
Qed.

Lemma filter_comm {A} (f g : A -> bool) l :
  filter f (filter g l) = filter g (filter f l).
Proof.
  induction l as [|x r IH]; [reflexivity|]. simpl.
  destruct (f x) eqn:Ef, (g x) eqn:Eg; simpl; rewrite ?Ef, ?Eg, IH;
    reflexivity.
Qed.

Lemma proxy_close_delete k s :
  Map.delete k (_devices (state_of (proxy_close (Some k) s)))
  = Map.delete k (_devices s).
Proof.
  rewrite proxy_close_eval.
  destruct (Map.get k (_devices s)) as [d|]; [|reflexivity].
  destruct (_muxer d); [|reflexivity].
  unfold state_of. simpl. apply delete_set.
Qed.

Lemma devices_spec s d :
  In d (devices s)
  <-> In d (Map.values (_devices s)) /\ In SERVICE_UUID (UUIDs d).
Proof.
  unfold devices. rewrite filter_In, existsb_exists. split.
  - intros [Hin (x & Hx & E)]. apply String.eqb_eq in E. now subst.
  - intros [Hin Hu]. split; [exact Hin|]. exists SERVICE_UUID.
    split; [exact Hu|apply String.eqb_refl].
Qed.

Lemma get_values {V} k (v : V) m : Map.get k m = Some v -> In v (Map.values m).
Proof.
  intros H. apply get_In in H. unfold Map.values.
  now apply (in_map snd) in H.
Qed.

(** C6: what holds of the mirror and what does not.  Handled on its own,
    an add of a tracked object, a removal of an untracked object and a
    removal with an empty interface list change nothing and make no call;
    an add of an untracked device stores one proxy after the entries
    already there and puts it in the [devices] view when it has the
    service UUID; a removal deletes the entry of that path and no other,
    from the map and from the view; a property change keeps the tracked
    ids and stores the changed properties, on which the view then
    depends.  The view lists exactly the stored proxies that have the
    service UUID.  For notifications handled in turn the tracked ids are
    those of the specification's mirror, and after every schedule of
    notifications and resumed adds the map has one entry per object path
    and the view lists no object path twice.  The claim fails for
    notifications that arrive while [_onInterfacesAdded] waits for its
    proxy, because the handler tests [has] before the [await] and not
    after it: a removal of the object that arrives then is lost and the
    object stays tracked, and a second add of the object builds, connects
    and announces a second proxy. *)
Theorem mirror_follows_notifications env s object_path interfaces :
  (Map.has object_path (_devices s) = true ->
   _onInterfacesAdded env object_path interfaces s = (s, [], Normal tt)) /\
  (forall i,
     Map.get object_path (_devices s) = None ->
     device_proxy env object_path = Some i ->
     In DEVICE_INTERFACE interfaces ->
     let r := _onInterfacesAdded env object_path interfaces s in
     let proxy := new_proxy object_path i (next_handler s) in
     Map.keys (_devices (state_of r))
     = Map.keys (_devices s) ++ [object_path] /\
     Map.get object_path (_devices (state_of r)) = Some proxy /\
     devices (state_of r)
     = devices s
       ++ (if existsb (String.eqb SERVICE_UUID) (info_UUIDs i)
           then [proxy] else []) /\
     trace_of r = [ProxyConnect object_path (next_handler s); NotifyDevices])
  /\
  (Map.get object_path (_devices s) = None ->
   _onInterfacesRemoved object_path interfaces s = (s, [], Normal tt)) /\
  (forall d,
     Map.get object_path (_devices s) = Some d ->
     In DEVICE_INTERFACE interfaces ->
     let r := _onInterfacesRemoved object_path interfaces s in
     Map.keys (_devices (state_of r))
     = filter (fun k => negb (k =? object_path)) (Map.keys (_devices s)) /\
     Map.get object_path (_devices (state_of r)) = None /\
     (wf s ->
      devices (state_of r)
      = filter (fun b => negb (g_object_path b =? object_path))
               (devices s))) /\
  _onInterfacesRemoved object_path [] s = (s, [], Normal tt) /\
  (forall d changed,
     Map.get object_path (_devices s) = Some d ->
     let r := dispatch env (g_properties_changed object_path changed) s in
     Map.keys (_devices (state_of r)) = Map.keys (_devices s) /\
     exists d',
       Map.get object_path (_devices (state_of r)) = Some d' /\
       with_muxer d' None = with_muxer (apply_changed changed d) None /\
       (In d' (devices (state_of r))
        <-> In SERVICE_UUID (UUIDs (apply_changed changed d)))) /\
  (forall changed,
     Map.get object_path (_devices s) = None ->
     dispatch env (g_properties_changed object_path changed) s
     = (s, [], Normal tt)) /\
  (forall d,
     In d (devices s)
     <-> In d (Map.values (_devices s)) /\ In SERVICE_UUID (UUIDs d)) /\
  (forall evs,
     Map.keys (_devices (fst (fst (overlap_run (in_turn env evs) (s, [])))))
     = tracked_after (materialises env) evs (Map.keys (_devices s))) /\
  (forall steps pending,
     wf s ->
     let s' := fst (fst (overlap_run steps (s, pending))) in
     NoDup (Map.keys (_devices s')) /\
     NoDup (map g_object_path (devices s'))) /\
  (forall i,
     Map.get object_path (_devices s) = None ->
     device_proxy env object_path = Some i ->
     In DEVICE_INTERFACE interfaces ->
     let lost :=
       overlap_run
         [(env, begin_add object_path interfaces);
          (env, deliver (notification
                           (object_removed object_path interfaces)));
          (env, resume_add 0)]
         (s, []) in
     let twice :=
       overlap_run
         [(env, begin_add object_path interfaces);
          (env, begin_add object_path interfaces);
          (env, resume_add 0);
          (env, resume_add 0)]
         (s, []) in
     Map.has object_path (_devices (fst (fst lost))) = true /\
     ~ In object_path
          (tracked_after (materialises env)
             [object_added object_path interfaces;
              object_removed object_path interfaces]
             (Map.keys (_devices s))) /\
     snd twice
     = [ProxyConnect object_path (next_handler s); NotifyDevices;
        ProxyConnect object_path (S (next_handler s)); NotifyDevices] /\
     Map.keys (_devices (fst (fst twice)))
     = Map.keys (_devices s) ++ [object_path]).
Proof.
  split; [|split; [|split; [|split; [|split; [|split; [|split; [|split;
    [|split; [|split]]]]]]]]].
  - intros Hhas. apply added_skip. now right.
  - intros i Hget Hproxy Hin r proxy. subst r proxy.
    rewrite (added_eval env object_path interfaces s i Hget Hproxy Hin).
    unfold state_of, trace_of. simpl. repeat split.
    + apply keys_set_absent. now apply get_None_keys.
    + apply get_set_eq.
    + unfold devices. simpl.
      rewrite values_set_absent by now apply get_None_keys.
      rewrite filter_app. simpl.
      destruct (existsb (String.eqb SERVICE_UUID) (info_UUIDs i));
        reflexivity.
  - intros Hget. apply removed_skip. now right.
  - intros d Hget Hin r. subst r.
    assert (Hs : state_of (_onInterfacesRemoved object_path interfaces s)
                 = set_devices (Map.delete object_path)
                     (state_of (proxy_close (Some object_path) s))).
    { now rewrite (removed_eval object_path interfaces s d Hget Hin). }
    rewrite Hs. cbn [_devices set_devices].
    split; [|split].
    + rewrite keys_delete. now rewrite proxy_close_keys.
    + apply get_delete_eq.
    + intros Hwf. unfold devices. cbn [_devices set_devices].
      rewrite proxy_close_delete, values_delete by apply Hwf.
      apply filter_comm.
  - reflexivity.
  - intros d changed Hget r.
    destruct (changed_eval env object_path changed s d Hget)
      as (Hkeys & d' & Hget' & Hsame).
    split; [exact Hkeys|]. exists d'. split; [exact Hget'|].
    split; [exact Hsame|].
    assert (Hu : UUIDs d' = UUIDs (apply_changed changed d)).
    { change (UUIDs (with_muxer d' None)
              = UUIDs (with_muxer (apply_changed changed d) None)).
      now rewrite Hsame. }
    subst r. rewrite devices_spec, Hu. split; [tauto|].
    intros H. split; [|exact H]. now apply get_values with object_path.
  - intros changed Hget. now apply changed_skip.
  - apply devices_spec.
  - intros evs. apply in_turn_keys.
  - intros steps pending Hwf s'.
    assert (Hwf' : wf s') by (subst s'; now apply overlap_run_wf).
    split; [apply Hwf'|].
    unfold devices. apply NoDup_map_filter.
    rewrite keys_values_path; apply Hwf'.
  - intros i Hget Hproxy Hin lost twice. subst lost twice.
    rewrite (removal_during_add env object_path interfaces s i
               Hget Hproxy Hin).
    rewrite (add_during_add env env object_path interfaces interfaces s i i
               Hget Hproxy Hproxy Hin Hin).
    cbn [fst snd _devices set_devices set_next_handler].
    split; [|split; [|split]].
    + unfold Map.has. now rewrite get_set_eq.
    + unfold tracked_after, tracked_step, materialises. cbn [fold_left].
      rewrite Hproxy.
      destruct interfaces as [|x r] eqn:Hi; [destruct Hin|].
      rewrite <- Hi in *. replace (length interfaces =? 0)%nat with false
        by now rewrite Hi.
      apply existsb_device in Hin. rewrite Hin. cbn [negb andb].
      destruct (negb (existsb (String.eqb object_path)
                              (Map.keys (_devices s)))); cbn [andb];
        intros H; apply filter_In in H; destruct H as [_ H];
        now rewrite String.eqb_refl in H.
    + reflexivity.
    + rewrite keys_set_present.
      * apply keys_set_absent. now apply get_None_keys.
      * rewrite keys_set_absent by now apply get_None_keys.
        apply in_or_app. right. now left.
Qed.

End Service.

(** ** Concrete runs *)

Lemma tracking_reachable : reachable sdp_xml tracking.
Proof. exact (reachable_init sdp_xml quiet (Some ":1.7")). Qed.

Lemma attached_reachable : reachable sdp_xml attached.
Proof.
  exact (reachable_step sdp_xml tracking quiet (call_NewConnection dev_AA 7)
           tracking_reachable).
Qed.

(** The phone holds muxer 0, the daemon goes away and comes back: muxer 0
    was never closed. *)
Lemma unbind_leaves_channels_open_witness :
  let r1 := dispatch sdp_xml quiet (notify_g_name_owner None) attached in
  let r2 := dispatch sdp_xml quiet (notify_g_name_owner (Some ":1.9"))
                     (state_of r1) in
  _devices (state_of r1) = [] /\
  count is_MuxerClose (trace_of r1) = 0 /\
  count is_MuxerClose (trace_of r2) = 0 /\
  In 0 (open_muxers (state_of r1)) /\
  In 0 (open_muxers (state_of r2)).
Proof.
  exact (unbind_leaves_channels_open sdp_xml quiet quiet ":1.9" attached 1
           dev_AA (with_muxer phone (Some 0)) 0
           attached_reachable eq_refl eq_refl eq_refl).
Defined.

(** An inbound connection for a path the service does not track. *)
Lemma NewConnection_untracked_witness :
  let r := NewConnection quiet "/org/bluez/hci0/dev_BB" 7 tracking in
  completion_of r = Throw (TypeError "bludev is undefined") /\
  _devices (state_of r) = _devices tracking /\
  count is_MuxerClose (trace_of r) = 0 /\
  count is_log (trace_of r) = 0 /\
  count is_EnsureDevice (trace_of r) = 0 /\
  count is_Attach (trace_of r) = 0.
Proof.
  exact (NewConnection_untracked quiet "/org/bluez/hci0/dev_BB" 7 tracking
           eq_refl).
Defined.

(** The claim of C3 at that input: the muxer built over the descriptor is
    left open and nothing is logged. *)
Lemma NewConnection_untracked_run :
  NewConnection quiet "/org/bluez/hci0/dev_BB" 7 tracking
  = (set_muxers [0] 1 tracking,
     [Debug "/org/bluez/hci0/dev_BB"; SocketNewFromFd 7; MuxerNew 0 7],
     Throw (TypeError "bludev is undefined")).
Proof. reflexivity. Qed.

(** A bind with a daemon that rejects the registration, and one with a
    daemon that accepts it. *)
Lemma bind_registers_then_enumerates_witness :
  _onNameOwnerChanged sdp_xml refusing idle
  = (idle,
     [RegisterProfile PROFILE_PATH SERVICE_UUID (SERVICE_PROFILE sdp_xml);
      LogError (GError "org.bluez.Error.AlreadyExists")],
     Normal tt) /\
  count is_RegisterProfile (trace_of (_onNameOwnerChanged sdp_xml quiet idle))
  = 1.
Proof.
  destruct (bind_registers_then_enumerates sdp_xml refusing idle ":1.7"
              PROFILE_PATH eq_refl eq_refl eq_refl) as [Hfail _].
  destruct (bind_registers_then_enumerates sdp_xml quiet idle ":1.7"
              PROFILE_PATH eq_refl eq_refl eq_refl) as (_ & _ & Hone & _).
  split; [exact (Hfail _ eq_refl)|exact Hone].
Defined.

(** C4 as stated fails: the daemon manages the phone, but after a bind
    whose registration is rejected the managed objects were never asked
    for and the phone is not tracked; and when the registration is
    accepted, RegisterProfile is the first call and GetManagedObjects the
    second. *)
Lemma enumeration_before_registration_counterexample :
  let r := dispatch sdp_xml refusing (notify_g_name_owner (Some ":1.9")) idle in
  managed_objects refusing = Normal [(dev_AA, [DEVICE_INTERFACE])] /\
  trace_of r
  = [RegisterProfile PROFILE_PATH SERVICE_UUID (SERVICE_PROFILE sdp_xml);
     LogError (GError "org.bluez.Error.AlreadyExists")] /\
  count is_GetManagedObjects (trace_of r) = 0 /\
  _devices (state_of r) = [] /\
  trace_of (dispatch sdp_xml quiet (notify_g_name_owner (Some ":1.9")) idle)
  = [RegisterProfile PROFILE_PATH SERVICE_UUID (SERVICE_PROFILE sdp_xml);
     GetManagedObjects; ProxyConnect dev_AA 2; NotifyDevices].
Proof. repeat split. Qed.

(** C5 as stated fails: the change set says ServicesResolved became true,
    the phone is paired and has no channel, and no ConnectProfile request
    is made, because Connected is in the change set too, as false.  A run
    of [_connectDevice] would have made one.  And the attempt is not
    idempotent: Connected = true followed by ServicesResolved = true, one
    notification on each of the two paths, makes two ConnectProfile
    requests for the phone. *)
Lemma resolved_while_disconnected_counterexample :
  let changed := changes (Some false) (Some true) None None in
  let r1 := dispatch sdp_xml quiet
              (g_properties_changed dev_AA (changes (Some true) None None None))
              tracking in
  let r2 := dispatch sdp_xml quiet
              (g_properties_changed dev_AA (changes None (Some true) None None))
              (state_of r1) in
  ch_ServicesResolved changed = Some true /\
  Paired phone = true /\ _muxer phone = None /\
  _onDeviceChanged quiet phone changed tracking
  = RequestDisconnection (g_object_path phone) tracking /\
  count is_ConnectProfile
        (trace_of (_onDeviceChanged quiet phone changed tracking)) = 0 /\
  count is_ConnectProfile (trace_of (_connectDevice quiet phone tracking)) = 1 /\
  filter is_ConnectProfile (trace_of r1 ++ trace_of r2)
  = [ConnectProfile dev_AA SERVICE_UUID; ConnectProfile dev_AA SERVICE_UUID].
Proof. repeat split. Qed.

(** [destroy] twice on the service that holds a channel. *)
Lemma destroy_twice_witness :
  let r1 := destroy attached in
  let r2 := destroy (state_of r1) in
  count is_ProfileDestroy (trace_of r1) = 1 /\
  count is_ProfileDestroy (trace_of r2) = 1 /\
  In (ServiceDisconnect (Some 1)) (trace_of r1) /\
  In (ServiceDisconnect (Some 1)) (trace_of r2) /\
  In ProfileManagerDestroy (trace_of r1) /\
  ~ In ProfileManagerDestroy (trace_of r2).
Proof.
  exact (destroy_twice attached PROFILE_PATH tt eq_refl eq_refl).
Defined.

(** The two runs in full. *)
Lemma destroy_twice_run :
  trace_of (destroy attached)
  = [ServiceDisconnect (Some 1); Debug "GSConnect: Disconnecting phone";
     MuxerClose 0; ProfileDestroy; ProfileManagerDestroy] /\
  trace_of (destroy (state_of (destroy attached)))
  = [ServiceDisconnect (Some 1); ProfileDestroy].
Proof. split; reflexivity. Qed.

(** A second inbound connection for the phone replaces the muxer in its
    slot; the first muxer is not closed by the handler. *)
Lemma second_connection_run :
  let r := NewConnection quiet dev_AA 8 attached in
  Map.get dev_AA (_devices (state_of r)) = Some (with_muxer phone (Some 1)) /\
  open_muxers (state_of r) = [1; 0] /\
  count is_MuxerClose (trace_of r) = 0.
Proof. repeat split. Qed.

(** ** Concrete runs of the further properties *)

Lemma tracking_wf : wf tracking.
Proof. exact (reachable_wf sdp_xml tracking tracking_reachable). Qed.

Lemma attached_wf : wf attached.
Proof. exact (reachable_wf sdp_xml attached attached_reachable). Qed.

Lemma RequestDisconnection_once_witness :
  let r1 := RequestDisconnection dev_AA attached in
  let r2 := RequestDisconnection dev_AA (state_of r1) in
  trace_of r1 = [Debug dev_AA; Debug "GSConnect: Disconnecting phone";
                 MuxerClose 0] /\
  completion_of r1 = Normal tt /\
  Map.get dev_AA (_devices (state_of r1)) = Some phone /\
  ~ In 0 (open_muxers (state_of r1)) /\
  r2 = (state_of r1, [Debug dev_AA], Normal tt).
Proof.
  exact (RequestDisconnection_once dev_AA attached (with_muxer phone (Some 0))
           0 eq_refl eq_refl).
Defined.

Lemma RequestDisconnection_idle_witness :
  RequestDisconnection dev_AA tracking = (tracking, [Debug dev_AA], Normal tt)
  /\ RequestDisconnection "/org/bluez/hci0/dev_BB" tracking
     = (tracking, [Debug "/org/bluez/hci0/dev_BB"], Normal tt).
Proof.
  split.
  - apply (RequestDisconnection_idle dev_AA tracking).
    intros d H. injection H as <-. reflexivity.
  - apply (RequestDisconnection_idle "/org/bluez/hci0/dev_BB" tracking).
    intros d H. discriminate H.
Defined.

Lemma only_devices_are_handled_witness :
  _onInterfacesAdded quiet "/org/bluez/hci0" ["org.bluez.Adapter1"] tracking
  = (tracking, [], Normal tt) /\
  _onInterfacesRemoved "/org/bluez/hci0" ["org.bluez.Adapter1"] tracking
  = (tracking, [], Normal tt) /\
  vfunc_g_signal quiet "PropertiesChanged" (dev_AA, [DEVICE_INTERFACE]) tracking
  = (tracking, [], Normal tt).
Proof.
  destruct (only_devices_are_handled quiet "PropertiesChanged"
              "/org/bluez/hci0" ["org.bluez.Adapter1"] tracking)
    as [Hother _].
  destruct (only_devices_are_handled quiet "PropertiesChanged"
              dev_AA [DEVICE_INTERFACE] tracking) as [_ Hsignal].
  assert (Hni : ~ In DEVICE_INTERFACE ["org.bluez.Adapter1"]).
  { intros [H|[]]. discriminate H. }
  destruct (Hother Hni) as [Hadd Hrem].
  split; [exact Hadd|]. split; [exact Hrem|].
  apply Hsignal; discriminate.
Defined.

Lemma proxy_failure_is_skipped_witness :
  let r := _onInterfacesAdded unreachable dev_AA [DEVICE_INTERFACE] idle in
  state_of r = idle /\
  completion_of r = Normal tt /\
  Forall (fun e => is_Warning e = true) (trace_of r) /\
  In (Warning (GError "proxy") None) (trace_of r).
Proof.
  destruct (proxy_failure_is_skipped unreachable dev_AA [DEVICE_INTERFACE] idle
              eq_refl) as (Hs & Hc & Hw & Hin).
  split; [exact Hs|]. split; [exact Hc|]. split; [exact Hw|].
  exact (Hin eq_refl (or_introl eq_refl)).
Defined.

Lemma removal_closes_channel_witness :
  let r := _onInterfacesRemoved dev_AA [DEVICE_INTERFACE] attached in
  trace_of r
  = [ProxyDisconnect dev_AA (Some 2); Debug dev_AA;
     Debug "GSConnect: Disconnecting phone"; MuxerClose 0; NotifyDevices] /\
  Map.get dev_AA (_devices (state_of r)) = None /\
  ~ In 0 (open_muxers (state_of r)).
Proof.
  destruct (removal_closes_channel dev_AA [DEVICE_INTERFACE] attached
              (with_muxer phone (Some 0)) eq_refl (or_introl eq_refl))
    as (_ & Ht & Hget & _ & Hclosed).
  split; [exact Ht|]. split; [exact Hget|]. exact (Hclosed 0 eq_refl).
Defined.


Lemma NewConnection_bad_descriptor_witness :
  let r := NewConnection unreachable dev_AA 7 attached in
  trace_of r
  = [Debug dev_AA; SocketNewFromFd 7;
     Debug "GSConnect: Disconnecting phone"; MuxerClose 0;
     Warning (GError "bad file descriptor") (Some "phone")] /\
  ~ In 0 (open_muxers (state_of r)).
Proof.
  destruct (NewConnection_bad_descriptor unreachable dev_AA 7 attached
              (with_muxer phone (Some 0)) (GError "bad file descriptor")
              eq_refl eq_refl) as (_ & Ht & _ & _ & Hclosed).
  split; [exact Ht|exact (Hclosed 0 eq_refl)].
Defined.

Lemma connect_then_disconnect_witness :
  let s1 := state_of (NewConnection quiet dev_AA 7 tracking) in
  let r2 := RequestDisconnection dev_AA s1 in
  In 0 (open_muxers s1) /\
  In (MuxerClose 0) (trace_of r2) /\
  _devices (state_of r2) = _devices tracking /\
  open_muxers (state_of r2) = [] /\
  next_muxer (state_of r2) = 1.
Proof.
  exact (connect_then_disconnect quiet dev_AA 7 tracking phone
           {| body := [("deviceId", "abc")] |} "abc"
           tracking_wf eq_refl eq_refl eq_refl eq_refl eq_refl).
Defined.

Lemma NewConnection_over_existing_witness :
  let r := NewConnection quiet dev_AA 8 attached in
  count is_MuxerClose (trace_of r) = 0 /\
  In 0 (open_muxers (state_of r)) /\
  (forall k d', Map.get k (_devices (state_of r)) = Some d' ->
                _muxer d' <> Some 0).
Proof.
  exact (NewConnection_over_existing quiet dev_AA 8 attached
           (with_muxer phone (Some 0)) 0
           {| body := [("deviceId", "abc")] |} "abc"
           attached_wf eq_refl eq_refl eq_refl eq_refl eq_refl).
Defined.

Lemma destroy_closes_all_witness :
  let r := destroy attached in
  completion_of r = Normal tt /\
  _profileManager (state_of r) = None /\
  Map.get dev_AA (_devices (state_of r)) = Some phone /\
  In (MuxerClose 0) (trace_of r) /\
  ~ In 0 (open_muxers (state_of r)).
Proof.
  destruct (destroy_closes_all attached) as (Hc & _ & Hpm & _ & Hclosed).
  destruct (Hclosed dev_AA (with_muxer phone (Some 0)) 0 eq_refl eq_refl)
    as [Ht Ho].
  split; [exact Hc|]. split; [exact Hpm|]. split; [reflexivity|].
  split; [exact Ht|exact Ho].
Defined.


Lemma only_untracked_connection_throws_witness :
  completion_of (dispatch sdp_xml rejecting (call_NewConnection dev_AA 7)
                          tracking)
  = Normal tt.
Proof.
  apply (only_untracked_connection_throws sdp_xml rejecting
           (call_NewConnection dev_AA 7) tracking).
  intros object_path fd H. injection H as <- _. reflexivity.
Defined.

Lemma init_failure_witness :
  _init_async sdp_xml busless (set_name_owner None constructed)
  = (set_name_owner None constructed,
     [Warning (GError "no system bus") (Some "GSConnect: Bluetooth Error");
      ServiceDisconnect None], Normal tt) /\
  trace_of (_init_async sdp_xml managerless (set_name_owner None constructed))
  = [ProfileManagerNew;
     Warning (GError "org.bluez is not running")
             (Some "GSConnect: Bluetooth Error");
     ServiceDisconnect None; ProfileManagerDestroy].
Proof.
  destruct (init_failure sdp_xml busless None (GError "no system bus"))
    as [Hbus _].
  destruct (init_failure sdp_xml managerless None
              (GError "org.bluez is not running")) as [_ Hmanager].
  split; [exact (Hbus eq_refl)|].
  exact (proj1 (Hmanager eq_refl eq_refl)).
Defined.

Lemma bind_tracks_managed_devices_witness :
  Map.has dev_AA (_devices (state_of (_onNameOwnerChanged sdp_xml quiet idle)))
  = true.
Proof.
  apply (bind_tracks_managed_devices sdp_xml quiet idle ":1.7" PROFILE_PATH
           [(dev_AA, [DEVICE_INTERFACE])] dev_AA
           eq_refl eq_refl eq_refl eq_refl eq_refl).
  right. exists [DEVICE_INTERFACE].
  split; [now left|]. split; [now left|discriminate].
Defined.


Lemma added_device_in_view_witness :
  let r := _onInterfacesAdded quiet dev_AA [DEVICE_INTERFACE] idle in
  devices (state_of r) = [phone] /\
  count is_NotifyDevices (trace_of r) = 1.
Proof.
  exact (added_device_in_view quiet dev_AA [DEVICE_INTERFACE] idle phone_info
           eq_refl eq_refl (or_introl eq_refl)).
Defined.

Lemma unbind_calls_witness :
  let r := _onNameOwnerChanged sdp_xml busless (set_name_owner None attached) in
  trace_of r
  = [ProxyDisconnect dev_AA (Some 2); GetManagedObjects;
     LogError (GError "no system bus")] /\
  count is_NotifyDevices (trace_of r) = 0 /\
  completion_of r = Normal tt.
Proof.
  apply (unbind_calls sdp_xml busless (set_name_owner None attached));
    [|reflexivity].
  apply (wf_ext attached); [reflexivity..|apply attached_wf].
Defined.

Lemma version_gate_witness :
  _init sdp_xml 15399 quiet (set_name_owner None constructed)
  = (set_name_owner None constructed, [],
     Throw (GError "Bluetooth not supported")) /\
  completion_of (_init sdp_xml 15400 busless (set_name_owner None constructed))
  = Normal tt.
Proof.
  split.
  - apply (version_gate sdp_xml 15399 quiet). reflexivity.
  - apply (version_gate sdp_xml 15400 busless). discriminate.
Defined.


(** ** Concrete runs: connections, property changes and the mirror *)

(** Two inbound connections for the phone, then a disconnection request:
    muxers 0 and 1 are both active after the second connection, and muxer
    0 is still active after the request. *)
Lemma second_connection_keeps_both_witness :
  let r1 := NewConnection quiet dev_AA 7 tracking in
  let r2 := NewConnection quiet dev_AA 8 (state_of r1) in
  let r3 := RequestDisconnection dev_AA (state_of r2) in
  let t := trace_of r1 ++ trace_of r2 in
  live_channels dev_AA t (state_of r2) = [0; 1] /\
  count is_Attach t = 2 /\
  count is_MuxerClose t = 0 /\
  Map.get dev_AA (_devices (state_of r2)) = Some (with_muxer phone (Some 1)) /\
  trace_of r3 = [Debug dev_AA; Debug "GSConnect: Disconnecting phone";
                 MuxerClose 1] /\
  In 0 (open_muxers (state_of r3)) /\
  live_channels dev_AA (t ++ trace_of r3) (state_of r3) = [0] /\
  _connectDevice quiet (with_muxer phone (Some 0)) attached
  = (attached, [Debug "already connected"], Normal tt).
Proof.
  destruct (second_connection_keeps_both quiet quiet dev_AA 7 8 tracking phone
              {| body := [("deviceId", "abc")] |}
              {| body := [("deviceId", "abc")] |} "abc" "abc"
              eq_refl eq_refl eq_refl eq_refl eq_refl eq_refl eq_refl)
    as (H1 & H2 & H3 & H4 & H5 & H6 & H7 & H8).
  split; [exact H1|]. split; [exact H2|]. split; [exact H3|].
  split; [exact H4|]. split; [exact H5|]. split; [exact H6|].
  split; [exact H7|].
  exact (proj1 (H8 quiet (with_muxer phone (Some 0)) attached 0 eq_refl)).
Defined.



(** The phone, paired and without a channel, is reported connected twice
    in a row: two ConnectProfile requests.  With a channel in its slot,
    none; and reported disconnected, its channel is closed. *)
Lemma property_change_requests_witness :
  let connected := changes (Some true) None None None in
  let r1 := dispatch sdp_xml quiet (g_properties_changed dev_AA connected)
                     tracking in
  let r2 := dispatch sdp_xml quiet (g_properties_changed dev_AA connected)
                     (state_of r1) in
  count is_ConnectProfile
        (trace_of (_onDeviceChanged quiet phone connected tracking)) = 1 /\
  count is_ConnectProfile (trace_of r1 ++ trace_of r2) = 2 /\
  count is_ConnectProfile
    (trace_of (dispatch sdp_xml quiet (g_properties_changed dev_AA connected)
                        attached)
     ++ trace_of
          (dispatch sdp_xml quiet (g_properties_changed dev_AA connected)
             (state_of
                (dispatch sdp_xml quiet
                   (g_properties_changed dev_AA connected) attached))))
  = 0 /\
  trace_of (dispatch sdp_xml quiet
              (g_properties_changed dev_AA
                 (changes (Some false) (Some true) None None))
              attached)
  = [Debug dev_AA; Debug "GSConnect: Disconnecting phone"; MuxerClose 0].
Proof.
  destruct (property_change_requests sdp_xml quiet phone None None None
              tracking)
    as ((_ & _ & _ & Hone & _) & _ & _ & _ & _ & Htwice & _).
  destruct (property_change_requests sdp_xml quiet phone None None None
              attached) as (_ & _ & _ & _ & _ & Hnone & Hclose).
  split; [exact Hone|]. split; [|split].
  - exact (proj2 (Htwice dev_AA phone (changes (Some true) None None None)
                         eq_refl (or_introl eq_refl))).
  - exact (proj2 (Hnone dev_AA (with_muxer phone (Some 0))
                        (changes (Some true) None None None)
                        eq_refl (or_introl eq_refl))).
  - exact (proj1 (Hclose dev_AA (with_muxer phone (Some 0))
                         (changes (Some false) (Some true) None None) 0
                         eq_refl eq_refl eq_refl eq_refl)).
Defined.

(** The phone is added again, added to the idle service, a stranger is
    removed, the phone is removed, its UUIDs change, and it is removed
    while its add waits. *)
Lemma mirror_follows_notifications_witness :
  _onInterfacesAdded quiet dev_AA [DEVICE_INTERFACE] tracking
  = (tracking, [], Normal tt) /\
  devices (state_of (_onInterfacesAdded quiet dev_AA [DEVICE_INTERFACE] idle))
  = [new_proxy dev_AA phone_info 2] /\
  _onInterfacesRemoved "/org/bluez/hci0/dev_BB" [DEVICE_INTERFACE] tracking
  = (tracking, [], Normal tt) /\
  devices (state_of (_onInterfacesRemoved dev_AA [DEVICE_INTERFACE] tracking))
  = [] /\
  (exists d',
     Map.get dev_AA
       (_devices (state_of
          (dispatch sdp_xml quiet
             (g_properties_changed dev_AA (changes None None None (Some [])))
             tracking)))
     = Some d' /\
     ~ In d' (devices (state_of
          (dispatch sdp_xml quiet
             (g_properties_changed dev_AA (changes None None None (Some [])))
             tracking)))) /\
  NoDup (map g_object_path
           (devices (fst (fst (overlap_run sdp_xml
              [(quiet, begin_add dev_AA [DEVICE_INTERFACE]);
               (quiet, deliver (call_NewConnection dev_AA 7));
               (quiet, resume_add 0)]
              (tracking, [])))))) /\
  Map.has dev_AA
    (_devices (fst (fst (overlap_run sdp_xml
       [(quiet, begin_add dev_AA [DEVICE_INTERFACE]);
        (quiet, deliver (notification
                           (object_removed dev_AA [DEVICE_INTERFACE])));
        (quiet, resume_add 0)]
       (idle, [])))))
  = true /\
  ~ In dev_AA
       (tracked_after (materialises quiet)
          [object_added dev_AA [DEVICE_INTERFACE];
           object_removed dev_AA [DEVICE_INTERFACE]]
          (Map.keys (_devices idle))).
Proof.
  destruct (mirror_follows_notifications sdp_xml quiet tracking dev_AA
              [DEVICE_INTERFACE])
    as (Hadd & _ & _ & Hdel & _ & Hchange & _ & _ & _ & Hnodup & _).
  destruct (mirror_follows_notifications sdp_xml quiet idle dev_AA
              [DEVICE_INTERFACE])
    as (_ & Hnew & _ & _ & _ & _ & _ & _ & _ & _ & Hoverlap).
  destruct (mirror_follows_notifications sdp_xml quiet tracking
              "/org/bluez/hci0/dev_BB" [DEVICE_INTERFACE])
    as (_ & _ & Hunknown & _).
  destruct (Hnew phone_info eq_refl eq_refl (or_introl eq_refl))
    as (_ & _ & Hview & _).
  destruct (Hdel phone eq_refl (or_introl eq_refl)) as (_ & _ & Hgone).
  destruct (Hchange phone (changes None None None (Some [])) eq_refl)
    as (_ & d' & Hget & _ & Hin).
  destruct (Hoverlap phone_info eq_refl eq_refl (or_introl eq_refl))
    as (Hlost & Hspec & _ & _).
  split; [exact (Hadd eq_refl)|].
  split; [exact Hview|].
  split; [exact (Hunknown eq_refl)|].
  split; [exact (Hgone tracking_wf)|].
  split.
  - exists d'. split; [exact Hget|].
    intros H. apply Hin in H. exact H.
  - split; [|split; [exact Hlost|exact Hspec]].
    exact (proj2 (Hnodup
             [(quiet, begin_add dev_AA [DEVICE_INTERFACE]);
              (quiet, deliver (call_NewConnection dev_AA 7));
              (quiet, resume_add 0)]
             [] tracking_wf)).
Defined.
